(** * dp-imagenet: the optimisation engine of [imagenet/imagenet_train.py]

    A shallow embedding of the gradient-accumulation wrapper, the two
    Langevin optimisers, the learning-rate schedule, the experiment
    constructor and the step bookkeeping of the training loop, followed by
    the properties of the specification that are settled on it.

    Conventions.
    - A JAX array is a flat list of real numbers; its shape is its length.
      Floating-point rounding is not modelled: arithmetic is that of [R].
      Elementwise operations are modelled for operands of equal shape,
      which is the optimiser contract (gradients aligned with the
      trainable variables); theorems about them carry that premise.
    - A Python object mutated in place is a record threaded through the
      call; a raised exception carries the object as it is at the raise.
    - Python [int] is [Z]; [//] and [%] are [Z.div] and [Z.modulo], which
      round like Python's for every sign of the divisor. *)

From Stdlib Require Import String Ascii Bool ZArith Reals Lra Lia List.
Import ListNotations.

#[local] Set Warnings "-register-all".

Open Scope R_scope.

(** ** Exceptions and outcomes *)

Inductive PyError : Type :=
| AssertionError (msg : string)
| ValueError (msg : string)
| TypeError (msg : string).

(** The result of a pure computation that may raise. *)
Inductive result (A : Type) : Type :=
| Ok (a : A)
| Raise (e : PyError).
Arguments Ok {A} a.
Arguments Raise {A} e.

(** The result of a method that mutates [self]: the object after a normal
    return, or the exception together with the object as the raise left it. *)
Inductive outcome (S : Type) : Type :=
| Returned (s : S)
| Raised (e : PyError) (s : S).
Arguments Returned {S} s.
Arguments Raised {S} e s.

Definition final_state {S : Type} (o : outcome S) : S :=
  match o with
  | Returned s => s
  | Raised _ s => s
  end.

Definition returned {S : Type} (o : outcome S) : bool :=
  match o with
  | Returned _ => true
  | Raised _ _ => false
  end.

(** ** Tensors *)

Definition Tensor : Type := list R.

Module jn.

(** [jn.zeros_like(x)] *)
Definition zeros_like (x : Tensor) : Tensor := map (fun _ => 0) x.

(** [x * c] for a scalar [c] *)
Definition scale (x : Tensor) (c : R) : Tensor := map (fun v => v * c) x.

(** [c * x] for a scalar [c] *)
Definition lscale (c : R) (x : Tensor) : Tensor := map (fun v => c * v) x.

(** Elementwise binary operation on tensors of one shape. *)
Fixpoint map2 (f : R -> R -> R) (x y : Tensor) : Tensor :=
  match x, y with
  | a :: x', b :: y' => f a b :: map2 f x' y'
  | _, _ => []
  end.

Definition add : Tensor -> Tensor -> Tensor := map2 Rplus.
Definition sub : Tensor -> Tensor -> Tensor := map2 Rminus.
Definition mul : Tensor -> Tensor -> Tensor := map2 Rmult.

Definition square (x : Tensor) : Tensor := map (fun v => v * v) x.
Definition sqrt (x : Tensor) : Tensor := map R_sqrt.sqrt x.
Definition reciprocal (x : Tensor) : Tensor := map Rinv x.

(** [x + c] for a scalar [c] *)
Definition adds (x : Tensor) (c : R) : Tensor := map (fun v => v + c) x.

End jn.

Definition shape (x : Tensor) : nat := length x.
Definition shapes (xs : list Tensor) : list nat := map shape xs.

(** Entry [j] of tensor [i] of a list of tensors. *)
Definition elem (g : list Tensor) (i j : nat) : R := nth j (nth i g []) 0.

(** ** The optimiser interface

    An optimiser is bound to an ordered list of trainable variables and is
    called with a step size and a list of gradients. *)

Class Optimizer (O : Type) : Type := {
  train_vars : O -> list Tensor;
  opt_call : R -> list Tensor -> O -> outcome O
}.

(** A recording double: it forwards every call to the optimiser it holds
    and appends the arguments it was called with to [calls]. *)
Record Spy (O : Type) : Type := mkSpy {
  spied : O;
  calls : list (R * list Tensor)
}.
Arguments mkSpy {O} spied calls.
Arguments spied {O} _.
Arguments calls {O} _.

Definition spy_call {O : Type} `{Optimizer O}
    (lr : R) (grads : list Tensor) (s : Spy O) : outcome (Spy O) :=
  match opt_call lr grads (spied s) with
  | Returned o => Returned (mkSpy o (calls s ++ [(lr, grads)]))
  | Raised e o => Raised e (mkSpy o (calls s ++ [(lr, grads)]))
  end.

#[export] Instance Spy_Optimizer {O : Type} `{Optimizer O} : Optimizer (Spy O) := {
  train_vars s := train_vars (spied s);
  opt_call := spy_call
}.

(** ** [GradientAccumulationOptimizerWrapper] *)

Module GradientAccumulationOptimizerWrapper.

Record t (O : Type) : Type := mk {
  scaler : R;
  optimizer : O;
  accum : list Tensor
}.
Arguments mk {O} scaler optimizer accum.
Arguments scaler {O} _.
Arguments optimizer {O} _.
Arguments accum {O} _.

(** [__init__(self, optimizer, scaler=1.0)] *)
Definition init {O : Type} `{Optimizer O} (optimizer : O) (scaler : R) : t O :=
  mk scaler optimizer (map jn.zeros_like (train_vars optimizer)).

(** [for g, a in zip(grads, self.accum): a.value += g * self.scaler] *)
Fixpoint accumulate (scaler : R) (grads accum : list Tensor) : list Tensor :=
  match grads, accum with
  | g :: grads', a :: accum' =>
      jn.add a (jn.scale g scaler) :: accumulate scaler grads' accum'
  | _, _ => accum
  end.

(** [__call__(self, lr, grads, apply_updates)] *)
Definition call {O : Type} `{Optimizer O}
    (lr : R) (grads : list Tensor) (apply_updates : bool) (self : t O)
    : outcome (t O) :=
  if negb (length grads =? length (train_vars (optimizer self)))%nat then
    Raised (AssertionError "Expecting as many gradients as trainable variables") self
  else
    let accum1 := accumulate (scaler self) grads (accum self) in
    if apply_updates then
      match opt_call lr accum1 (optimizer self) with
      | Returned o => Returned (mk (scaler self) o (map jn.zeros_like accum1))
      | Raised e o => Raised e (mk (scaler self) o accum1)
      end
    else Returned (mk (scaler self) (optimizer self) accum1).

(** A sequence of calls on one wrapper; it stops at the first raise. *)
Fixpoint feed {O : Type} `{Optimizer O}
    (steps : list (R * list Tensor * bool)) (self : t O) : outcome (t O) :=
  match steps with
  | [] => Returned self
  | (lr, grads, apply_updates) :: steps' =>
      match call lr grads apply_updates self with
      | Returned self' => feed steps' self'
      | Raised e self' => Raised e self'
      end
  end.

End GradientAccumulationOptimizerWrapper.

Module GA := GradientAccumulationOptimizerWrapper.


(** ** [jax.random]

    The key type and the three primitives the optimisers use.  [split k]
    is the pair [(new_key, subkey)] that [jax.random.split(k)] unpacks to;
    [normal subkey n] is a standard-normal sample of shape [n], a
    deterministic function of the subkey. *)

Class JaxRandom : Type := {
  Key : Type;
  key : Z -> Key;
  split : Key -> Key * Key;
  normal : Key -> nat -> Tensor;
  normal_shape : forall (k : Key) (n : nat), shape (normal k n) = n
}.

(** Calls made to [jax.random], recorded for observation only: no
    definition below reads a trace. *)
Inductive RngEvent `{JaxRandom} : Type :=
| EvSplit (k : Key)
| EvNormal (subkey : Key) (shp : nat).

(** The noise tensors drawn by the calls of a trace, oldest first. *)
Fixpoint noises `{JaxRandom} (tr : list RngEvent) : list Tensor :=
  match tr with
  | [] => []
  | EvSplit _ :: tr' => noises tr'
  | EvNormal subkey shp :: tr' => normal subkey shp :: noises tr'
  end.

(** The number of stream advances recorded in a trace. *)
Fixpoint advances `{JaxRandom} (tr : list RngEvent) : nat :=
  match tr with
  | [] => O
  | EvSplit _ :: tr' => S (advances tr')
  | EvNormal _ _ :: tr' => advances tr'
  end.

(** The total number of training examples, written as a literal in both
    Langevin updates. *)
Definition TRAIN_SIZE : R := 1281167.

(** ** [CustomSGLD] *)

Module CustomSGLD.
Section WithRandom.
Context `{JR : JaxRandom}.

Record t : Type := mk {
  train_vars : list Tensor;
  rng : Key;
  trace : list RngEvent
}.

(** [__init__(self, vc)]; [vc] is given by the values of its [TrainVar]s. *)
Definition init (vc : list Tensor) : t := mk vc (key 42) [].

(** [p.value -= 1281167 * step_size * g + (noise * jn.sqrt(2 * step_size))] *)
Definition new_value (step_size : R) (g p noise : Tensor) : Tensor :=
  jn.sub p (jn.add (jn.lscale (TRAIN_SIZE * step_size) g)
                   (jn.scale noise (sqrt (2 * step_size)))).

(** [for g, p in zip(grads, self.train_vars): ...] *)
Fixpoint update (step_size : R) (grads params : list Tensor)
    (rng : Key) (trace : list RngEvent) : list Tensor * Key * list RngEvent :=
  match grads, params with
  | g :: grads', p :: params' =>
      let (new_key, subkey) := split rng in
      let noise := normal subkey (shape p) in
      let trace' := trace ++ [EvSplit rng; EvNormal subkey (shape p)] in
      let '(ps, rng', tr) := update step_size grads' params' new_key trace' in
      (new_value step_size g p noise :: ps, rng', tr)
  | _, _ => (params, rng, trace)
  end.

(** [__call__(self, step_size, grads)] *)
Definition call (step_size : R) (grads : list Tensor) (self : t) : outcome t :=
  if negb (length grads =? length (train_vars self))%nat then
    Raised (AssertionError "Mismatch between gradients and variables") self
  else
    let '(ps, rng', tr) :=
      update step_size grads (train_vars self) (rng self) (trace self) in
    Returned (mk ps rng' tr).

End WithRandom.
End CustomSGLD.

#[export] Instance CustomSGLD_Optimizer `{JaxRandom} : Optimizer CustomSGLD.t := {
  train_vars := CustomSGLD.train_vars;
  opt_call := CustomSGLD.call
}.

(** ** [CustomPreconditionedSGLD] *)

Module CustomPreconditionedSGLD.
Section WithRandom.
Context `{JR : JaxRandom}.

Record t : Type := mk {
  train_vars : list Tensor;
  alpha : R;
  lambda_small : R;
  momentum_vars : list Tensor;
  rng : Key;
  trace : list RngEvent
}.

(** [__init__(self, vc)] *)
Definition init (vc : list Tensor) : t :=
  mk vc (95 / 100) (1 / 100000000) (map jn.zeros_like vc) (key 42) [].

(** [m.value = self.alpha.value * m.value + (1 - self.alpha.value) * jn.square(g)] *)
Definition new_momentum (alpha : R) (m g : Tensor) : Tensor :=
  jn.add (jn.lscale alpha m) (jn.lscale (1 - alpha) (jn.square g)).

(** [velocity = jn.reciprocal(jn.sqrt(m.value) + self.lambda_small.value)],
    read after the assignment to [m.value]. *)
Definition velocity (lambda_small : R) (m : Tensor) : Tensor :=
  jn.reciprocal (jn.adds (jn.sqrt m) lambda_small).

(** [p.value -= (1281167 * velocity * step_size * g)
                + noise * jn.sqrt(2 * step_size * velocity)] *)
Definition new_value (step_size : R) (g p noise v : Tensor) : Tensor :=
  jn.sub p
    (jn.add (jn.mul (jn.scale (jn.lscale TRAIN_SIZE v) step_size) g)
            (jn.mul noise (jn.sqrt (jn.lscale (2 * step_size) v)))).

(** [for g, p, m in zip(grads, self.train_vars, self.momentum_vars): ...];
    the result holds the new parameters, the new moving averages, the
    key, the trace and the velocities the loop computed, in order. *)
Fixpoint update (alpha lambda_small step_size : R)
    (grads params moms : list Tensor) (rng : Key) (trace : list RngEvent)
    : list Tensor * list Tensor * Key * list RngEvent * list Tensor :=
  match grads, params, moms with
  | g :: grads', p :: params', m :: moms' =>
      let (new_key, subkey) := split rng in
      let noise := normal subkey (shape p) in
      let trace' := trace ++ [EvSplit rng; EvNormal subkey (shape p)] in
      let m' := new_momentum alpha m g in
      let v := velocity lambda_small m' in
      let '(ps, ms, rng', tr, vs) :=
        update alpha lambda_small step_size grads' params' moms' new_key trace' in
      (new_value step_size g p noise v :: ps, m' :: ms, rng', tr, v :: vs)
  | _, _, _ => (params, moms, rng, trace, [])
  end.

(** The velocities computed by a call, one per parameter. *)
Definition velocities (step_size : R) (grads : list Tensor) (self : t)
    : list Tensor :=
  snd (update (alpha self) (lambda_small self) step_size grads
         (train_vars self) (momentum_vars self) (rng self) (trace self)).

(** [__call__(self, step_size, grads)] *)
Definition call (step_size : R) (grads : list Tensor) (self : t) : outcome t :=
  if negb (length grads =? length (train_vars self))%nat then
    Raised (AssertionError "Mismatch between gradients and variables") self
  else
    let '(ps, ms, rng', tr, _) :=
      update (alpha self) (lambda_small self) step_size grads
        (train_vars self) (momentum_vars self) (rng self) (trace self) in
    Returned (mk ps (alpha self) (lambda_small self) ms rng' tr).

End WithRandom.
End CustomPreconditionedSGLD.

#[export] Instance CustomPreconditionedSGLD_Optimizer `{JaxRandom}
    : Optimizer CustomPreconditionedSGLD.t := {
  train_vars := CustomPreconditionedSGLD.train_vars;
  opt_call := CustomPreconditionedSGLD.call
}.


(** ** Objax variables and variable collections

    [Module.vars()] walks the attributes of a module: an attribute that is
    a variable is collected under its path, an attribute that is a module
    or a module list is walked in turn, and any other attribute (a float,
    a JAX array) is skipped.  Names are kept as paths instead of the
    strings Objax builds from them. *)

Section Objects.
Context `{JR : JaxRandom}.

Inductive Var : Type :=
| TrainVar (v : Tensor)
| TrainRef (v : Tensor)
| StateVar (v : Tensor)
| RandomState (k : Key).

Inductive Seg : Type :=
| Attr (name : string)
| Idx (n : nat).

Definition VarCollection : Type := list (list Seg * Var).

Inductive PyValue : Type :=
| PVar (v : Var)
| PModule (dict : list (string * PyValue))
| PModuleList (items : list PyValue)
| PFloat (r : R)
| PArray (k : Key).

Fixpoint collect (scope : list Seg) (x : PyValue) : VarCollection :=
  match x with
  | PVar v => [(scope, v)]
  | PModule dict =>
      (fix fields (d : list (string * PyValue)) : VarCollection :=
         match d with
         | [] => []
         | (name, a) :: d' => collect (scope ++ [Attr name]) a ++ fields d'
         end) dict
  | PModuleList items =>
      (fix elems (i : nat) (l : list PyValue) : VarCollection :=
         match l with
         | [] => []
         | a :: l' => collect (scope ++ [Idx i]) a ++ elems (S i) l'
         end) O items
  | PFloat _ => []
  | PArray _ => []
  end.

(** [m.vars()] *)
Definition vars (m : PyValue) : VarCollection := collect [] m.

Definition state_vars (xs : list Tensor) : PyValue :=
  PModuleList (map (fun x => PVar (StateVar x)) xs).

Definition train_refs (xs : list Tensor) : PyValue :=
  PModuleList (map (fun x => PVar (TrainRef x)) xs).

(** The attributes [CustomSGLD.__init__] assigns. *)
Definition CustomSGLD_object (o : CustomSGLD.t) : PyValue :=
  PModule [ ("train_vars"%string, train_refs (CustomSGLD.train_vars o));
            ("rng"%string, PArray (CustomSGLD.rng o)) ].

(** The attributes [CustomPreconditionedSGLD.__init__] assigns. *)
Definition CustomPreconditionedSGLD_object (o : CustomPreconditionedSGLD.t)
    : PyValue :=
  PModule [ ("train_vars"%string, train_refs (CustomPreconditionedSGLD.train_vars o));
            ("alpha"%string, PVar (StateVar [CustomPreconditionedSGLD.alpha o]));
            ("lambda_small"%string,
               PVar (StateVar [CustomPreconditionedSGLD.lambda_small o]));
            ("momentum_vars"%string,
               state_vars (CustomPreconditionedSGLD.momentum_vars o));
            ("rng"%string, PArray (CustomPreconditionedSGLD.rng o)) ].

(** The attributes [GradientAccumulationOptimizerWrapper.__init__] assigns. *)
Definition wrapper_object {O : Type} (obj : O -> PyValue) (w : GA.t O) : PyValue :=
  PModule [ ("scaler"%string, PFloat (GA.scaler w));
            ("optimizer"%string, obj (GA.optimizer w));
            ("accum"%string, state_vars (GA.accum w)) ].

(** [objax.random.DEFAULT_GENERATOR], holding its key in a [RandomState]. *)
Definition generator_object (k : Key) : PyValue :=
  PModule [ ("_key"%string, PVar (RandomState k)) ].

End Objects.

(** ** External collaborators

    What the constructor and the training step take from outside this
    file: the devices, the dataset module, the model zoo and the two stock
    Objax optimisers. *)

Record DatasetSplit : Type := mkSplit {
  num_classes : Z;
  num_examples : Z
}.

Inductive StockKind : Type := Momentum | Adam.

Class External `{JR : JaxRandom} : Type := {
  (** [jax.device_count()] *)
  device_count : Z;
  (** [imagenet_data.get_train_dataset_split], [get_eval_dataset_split] *)
  get_train_dataset_split : string -> result DatasetSplit;
  get_eval_dataset_split : string -> result DatasetSplit;
  (** A zoo constructor: given the generator key it returns the variables
      of the model, layer by layer, and the key it leaves behind. *)
  zoo : string -> Z -> Key -> list (list Tensor) * Key;
  (** The layers of a model and the shapes of their variables are fixed by
      the architecture; the key decides the initial values only. *)
  zoo_shapes : forall (name : string) (n : Z) (k1 k2 : Key),
    map shapes (fst (zoo name n k1)) = map shapes (fst (zoo name n k2));
  (** [objax.optimizer.Momentum] and [objax.optimizer.Adam] *)
  Stock : Type;
  stock_init : StockKind -> list Tensor -> Stock;
  stock_train_vars : Stock -> list Tensor;
  stock_call : R -> list Tensor -> Stock -> outcome Stock;
  stock_object : Stock -> PyValue
}.

(** ** [util.construct_logit_clip_fn] *)

Inductive LogitClip : Type := ClipNone | ClipTanh | ClipSigmoid | ClipBlf.

Definition construct_logit_clip_fn (clip_fn : string) : result LogitClip :=
  if (clip_fn =? "none")%string then Ok ClipNone
  else if (clip_fn =? "tanh")%string then Ok ClipTanh
  else if (clip_fn =? "sigmoid")%string then Ok ClipSigmoid
  else if (clip_fn =? "blf")%string then Ok ClipBlf
  else Raise (ValueError ("Unknown clip_fn " ++ clip_fn)).

(** ** Flags *)

Record Flags : Type := mkFlags {
  model_dir : string;
  train_device_batch_size : Z;
  grad_acc_steps : Z;
  eval_every_n_steps : Z;
  num_train_epochs : R;
  base_learning_rate : R;
  lr_warmup_epochs : R;
  lr_schedule : string;
  optimizer : string;
  rnd_seed : option Z;
  model : string;
  dataset : string;
  logit_clip : string;
  num_layers_to_freeze : Z
}.

(** [str.lower()] on the ASCII letters; no other character lowers to a
    character of the five model names. *)
Definition ascii_lower (c : ascii) : ascii :=
  let n := nat_of_ascii c in
  if ((65 <=? n) && (n <=? 90))%nat then ascii_of_nat (n + 32) else c.

Fixpoint lower (s : string) : string :=
  match s with
  | EmptyString => EmptyString
  | String c s' => String (ascii_lower c) (lower s')
  end.

Inductive ModelKind : Type :=
  ResNet18 | ResNet50 | ResNet101 | ResNet152 | ResNet200.

(** [make_model], up to the call of the zoo constructor. *)
Definition make_model (model_name : string) : result (ModelKind * string) :=
  let model_name := lower model_name in
  if (model_name =? "resnet200")%string then Ok (ResNet200, model_name)
  else if (model_name =? "resnet152")%string then Ok (ResNet152, model_name)
  else if (model_name =? "resnet101")%string then Ok (ResNet101, model_name)
  else if (model_name =? "resnet50")%string then Ok (ResNet50, model_name)
  else if (model_name =? "resnet18")%string then Ok (ResNet18, model_name)
  else Raise (ValueError ("Unsupported model type: " ++ model_name)).


(** ** [Experiment] *)

Section Experiment.
Context `{JR : JaxRandom} `{EX : @External JR}.

(** The optimiser chosen by [--optimizer]. *)
Inductive BaseOptimizer : Type :=
| OStock (kind : StockKind) (s : Stock)
| OSGLD (o : CustomSGLD.t)
| OPSGLD (o : CustomPreconditionedSGLD.t).

Definition base_train_vars (o : BaseOptimizer) : list Tensor :=
  match o with
  | OStock _ s => stock_train_vars s
  | OSGLD o => CustomSGLD.train_vars o
  | OPSGLD o => CustomPreconditionedSGLD.train_vars o
  end.

Definition lift_outcome {A B : Type} (f : A -> B) (r : outcome A) : outcome B :=
  match r with
  | Returned a => Returned (f a)
  | Raised e a => Raised e (f a)
  end.

Definition base_call (lr : R) (grads : list Tensor) (o : BaseOptimizer)
    : outcome BaseOptimizer :=
  match o with
  | OStock kind s => lift_outcome (OStock kind) (stock_call lr grads s)
  | OSGLD o => lift_outcome OSGLD (CustomSGLD.call lr grads o)
  | OPSGLD o => lift_outcome OPSGLD (CustomPreconditionedSGLD.call lr grads o)
  end.

#[export] Instance BaseOptimizer_Optimizer : Optimizer BaseOptimizer := {
  train_vars := base_train_vars;
  opt_call := base_call
}.

Definition base_object (o : BaseOptimizer) : PyValue :=
  match o with
  | OStock _ s => stock_object s
  | OSGLD o => CustomSGLD_object o
  | OPSGLD o => CustomPreconditionedSGLD_object o
  end.

(** [self.optimizer]: the chosen optimiser, wrapped when
    [--grad_acc_steps] is greater than one. *)
Inductive ExpOptimizer : Type :=
| Direct (o : BaseOptimizer)
| Accumulating (w : GA.t BaseOptimizer).

Definition the_base (o : ExpOptimizer) : BaseOptimizer :=
  match o with
  | Direct o => o
  | Accumulating w => GA.optimizer w
  end.

Definition optimizer_object (o : ExpOptimizer) : PyValue :=
  match o with
  | Direct o => base_object o
  | Accumulating w => wrapper_object base_object w
  end.

(** The object [Experiment.__init__] builds.  The trainable variables are
    shared between the model and the optimiser, which holds references
    to them: their values are kept once, in the optimiser. *)
Record Experiment : Type := mkExperiment {
  FLAGS : Flags;
  total_num_replicas : Z;
  total_batch_size : Z;
  self_base_learning_rate : R;
  save_summaries : bool;
  self_lr_warmup_epochs : R;
  self_num_train_epochs : R;
  logit_clip_fn : LogitClip;
  train_split : DatasetSplit;
  eval_split : DatasetSplit;
  model_kind : ModelKind;
  frozen_vars : list Tensor;
  self_optimizer : ExpOptimizer;
  DEFAULT_GENERATOR : Key
}.

Definition bind {A B : Type} (r : result A) (f : A -> result B) : result B :=
  match r with
  | Ok a => f a
  | Raise e => Raise e
  end.

Notation "x <- r ;; k" := (bind r (fun x => k))
  (at level 61, r at next level, right associativity).

(** The optimiser branch of the constructor. *)
Definition choose_optimizer (name : string) (trainable_vars : list Tensor)
    : result BaseOptimizer :=
  if (name =? "momentum")%string then
    Ok (OStock Momentum (stock_init Momentum trainable_vars))
  else if (name =? "adam")%string then
    Ok (OStock Adam (stock_init Adam trainable_vars))
  else if (name =? "sgld")%string then
    Ok (OSGLD (CustomSGLD.init trainable_vars))
  else if (name =? "psgld")%string then
    Ok (OPSGLD (CustomPreconditionedSGLD.init trainable_vars))
  else Raise (ValueError ("Unsupported optimizer: " ++ name)).

(** The accumulation branch of the constructor. *)
Definition wrap_optimizer (grad_acc_steps : Z) (o : BaseOptimizer)
    : result ExpOptimizer :=
  if (grad_acc_steps >? 1)%Z then
    Ok (Accumulating (GA.init o (1 / IZR grad_acc_steps)))
  else if negb (grad_acc_steps =? 1)%Z then
    Raise (ValueError "--grad_acc_steps has to be greater or equal to 1.")
  else Ok (Direct o).

(** [Experiment.__init__], run with the generator key [gen] that [main]
    has seeded. *)
Definition Experiment_init (F : Flags) (gen : Key) : result Experiment :=
  let total_num_replicas := device_count in
  let total_batch_size := (train_device_batch_size F * total_num_replicas)%Z in
  let base_lr :=
    base_learning_rate F * IZR total_batch_size * IZR (grad_acc_steps F) / 256 in
  clip <- construct_logit_clip_fn (logit_clip F) ;;
  train_split <- get_train_dataset_split (dataset F) ;;
  eval_split <- get_eval_dataset_split (dataset F) ;;
  mk <- make_model (model F) ;;
  let (layers, gen') := zoo (snd mk) (num_classes train_split) gen in
  let model_vars := concat layers in
  let nfreeze := Z.to_nat (num_layers_to_freeze F) in
  let frozen :=
    if (num_layers_to_freeze F >? 0)%Z then concat (firstn nfreeze layers) else [] in
  let trainable_vars :=
    if (num_layers_to_freeze F >? 0)%Z then concat (skipn nfreeze layers)
    else model_vars in
  base <- choose_optimizer (optimizer F) trainable_vars ;;
  opt <- wrap_optimizer (grad_acc_steps F) base ;;
  Ok {| FLAGS := F;
        total_num_replicas := total_num_replicas;
        total_batch_size := total_batch_size;
        self_base_learning_rate := base_lr;
        save_summaries := negb (model_dir F =? "")%string;
        self_lr_warmup_epochs := lr_warmup_epochs F;
        self_num_train_epochs := num_train_epochs F;
        logit_clip_fn := clip;
        train_split := train_split;
        eval_split := eval_split;
        model_kind := fst mk;
        frozen_vars := frozen;
        self_optimizer := opt;
        DEFAULT_GENERATOR := gen' |}.

(** [model_vars + self.optimizer.vars() + objax.random.DEFAULT_GENERATOR.vars()];
    the collection holds the variables themselves, so it is read off the
    current state of the experiment. *)
Definition all_vars (self : Experiment) : VarCollection :=
  collect [Attr "model"]
    (PModuleList (map (fun x => PVar (TrainVar x))
                   (frozen_vars self ++ base_train_vars (the_base (self_optimizer self)))))
  ++ vars (optimizer_object (self_optimizer self))
  ++ vars (generator_object (DEFAULT_GENERATOR self)).

(** [Experiment.learning_rate].  Division is that of [R]; the code divides
    by zero (and yields a NaN) only when [lr_warmup_epochs] is zero or,
    for [cos], when the two epoch counts are equal. *)
Definition lr_multiplier_cos (num_train_epochs lr_warmup_epochs epoch : R) : R :=
  let cos_decay_epochs := num_train_epochs - lr_warmup_epochs in
  if Rlt_dec epoch lr_warmup_epochs
  then epoch / lr_warmup_epochs
  else 0.5 * (1 + cos (PI * (epoch - lr_warmup_epochs) / cos_decay_epochs)).

Definition lr_multiplier_fixed (lr_warmup_epochs epoch : R) : R :=
  if Rlt_dec epoch lr_warmup_epochs then epoch / lr_warmup_epochs else 1.

Definition learning_rate (self : Experiment) (epoch : R) : result R :=
  let epoch := Rmin epoch (self_num_train_epochs self) in
  if (lr_schedule (FLAGS self) =? "cos")%string then
    Ok (self_base_learning_rate self
        * lr_multiplier_cos (self_num_train_epochs self)
            (self_lr_warmup_epochs self) epoch)
  else if (lr_schedule (FLAGS self) =? "fixed")%string then
    Ok (self_base_learning_rate self
        * lr_multiplier_fixed (self_lr_warmup_epochs self) epoch)
  else Raise (ValueError ("Unsupported LR schedule: " ++ lr_schedule (FLAGS self))).

Definition set_optimizer (self : Experiment) (o : ExpOptimizer) : Experiment :=
  {| FLAGS := FLAGS self;
     total_num_replicas := total_num_replicas self;
     total_batch_size := total_batch_size self;
     self_base_learning_rate := self_base_learning_rate self;
     save_summaries := save_summaries self;
     self_lr_warmup_epochs := self_lr_warmup_epochs self;
     self_num_train_epochs := self_num_train_epochs self;
     logit_clip_fn := logit_clip_fn self;
     train_split := train_split self;
     eval_split := eval_split self;
     model_kind := model_kind self;
     frozen_vars := frozen_vars self;
     self_optimizer := o;
     DEFAULT_GENERATOR := DEFAULT_GENERATOR self |}.

(** [Experiment.train_op] from the gradients on: [grads] is what
    [compute_grads_loss] and [pmean] hand over.  The wrapper is called
    when the flag says so; the constructor pairs the flag with the
    object, and a call of the wrong arity would be a [TypeError]. *)
Definition train_op (self : Experiment) (grads : list Tensor)
    (cur_epoch : R) (apply_updates : bool) : outcome Experiment :=
  match learning_rate self cur_epoch with
  | Raise e => Raised e self
  | Ok lr =>
      match self_optimizer self with
      | Accumulating w =>
          if (grad_acc_steps (FLAGS self) >? 1)%Z
          then lift_outcome (fun w' => set_optimizer self (Accumulating w'))
                 (GA.call lr grads apply_updates w)
          else Raised (TypeError "__call__() missing 1 required positional argument") self
      | Direct o =>
          if (grad_acc_steps (FLAGS self) >? 1)%Z
          then Raised (TypeError "__call__() takes 3 positional arguments but 4 were given") self
          else lift_outcome (fun o' => set_optimizer self (Direct o'))
                 (base_call lr grads o)
      end
  end.

End Experiment.


(** ** The step bookkeeping of [Experiment.train_and_eval] *)

(** [int(x)] on a float: truncation towards zero. *)
Definition py_int (x : R) : Z :=
  if Rle_dec 0 x then Int_part x else (- Int_part (- x))%Z.

(** [range(start, stop, step)] *)
Definition py_range (start stop step : Z) : result (list Z) :=
  if (step =? 0)%Z then Raise (ValueError "range() arg 3 must not be zero")
  else
    let n :=
      (if step >? 0 then (stop - start + step - 1) / step
       else (start - stop - step - 1) / (- step))%Z in
    Ok (map (fun i => start + Z.of_nat i * step) (seq 0 (Z.to_nat n)))%Z.

(** What the loop body computes from [cur_step] before it calls
    [train_op_parallel]. *)
Record VirtualStep : Type := mkVirtualStep {
  cur_step : Z;
  next_update_step : Z;
  cur_epoch : R;
  apply_updates : bool
}.

Section Loop.
Context `{JR : JaxRandom} `{EX : @External JR}.

Definition steps_per_epoch (self : Experiment) : R :=
  IZR (num_examples (train_split self)) / IZR (total_batch_size self).

Definition total_train_steps (self : Experiment) : Z :=
  py_int (steps_per_epoch self * num_train_epochs (FLAGS self)).

Definition loop_body (self : Experiment) (cur_step : Z) : VirtualStep :=
  let k := grad_acc_steps (FLAGS self) in
  let next_update_step := ((cur_step + k - 1) / k * k)%Z in
  {| cur_step := cur_step;
     next_update_step := next_update_step;
     cur_epoch := IZR next_update_step / steps_per_epoch self;
     apply_updates := (cur_step mod k =? 0)%Z |}.

(** [for cur_step in range(big_step + 1, big_step + eval_every_n_steps + 1)] *)
Definition inner_steps (self : Experiment) (big_step : Z) : list VirtualStep :=
  match py_range (big_step + 1)
          (big_step + eval_every_n_steps (FLAGS self) + 1) 1 with
  | Ok steps => map (loop_body self) steps
  | Raise _ => []
  end.

(** The virtual steps of a run resumed at [start_step], in order:
    [for big_step in range(start_step, total_train_steps, eval_every_n_steps)]
    around the inner loop. *)
Definition virtual_steps (self : Experiment) (start_step : Z)
    : result (list VirtualStep) :=
  match py_range start_step (total_train_steps self)
          (eval_every_n_steps (FLAGS self)) with
  | Ok big_steps => Ok (flat_map (inner_steps self) big_steps)
  | Raise e => Raise e
  end.

(** The training steps of the loop, with the gradients of each step given
    by [grads_of]; the run stops at the first raise. *)
Fixpoint run_steps (grads_of : VirtualStep -> Experiment -> list Tensor)
    (steps : list VirtualStep) (self : Experiment) : outcome Experiment :=
  match steps with
  | [] => Returned self
  | s :: steps' =>
      match train_op self (grads_of s self) (cur_epoch s) (apply_updates s) with
      | Returned self' => run_steps grads_of steps' self'
      | Raised e self' => Raised e self'
      end
  end.

(** [main] up to the end of the constructor: the generator is seeded with
    [--rnd_seed], or with [entropy] when the flag is absent. *)
Definition main_seed (F : Flags) (entropy : Z) : Z :=
  match rnd_seed F with
  | Some s => s
  | None => entropy
  end.

Definition main_construct (F : Flags) (entropy : Z) : result Experiment :=
  Experiment_init F (key (main_seed F entropy)).

End Loop.


(** ** Definitions used to state the properties *)

(** The flags [F] with [--lr_schedule] set to [name]. *)
Definition with_lr_schedule (F : Flags) (name : string) : Flags := {|
  model_dir := model_dir F;
  train_device_batch_size := train_device_batch_size F;
  grad_acc_steps := grad_acc_steps F;
  eval_every_n_steps := eval_every_n_steps F;
  num_train_epochs := num_train_epochs F;
  base_learning_rate := base_learning_rate F;
  lr_warmup_epochs := lr_warmup_epochs F;
  lr_schedule := name;
  optimizer := optimizer F;
  rnd_seed := rnd_seed F;
  model := model F;
  dataset := dataset F;
  logit_clip := logit_clip F;
  num_layers_to_freeze := num_layers_to_freeze F
|}.

(** The flags [F] with [--rnd_seed] set to [seed]. *)
Definition with_rnd_seed (F : Flags) (seed : Z) : Flags := {|
  model_dir := model_dir F;
  train_device_batch_size := train_device_batch_size F;
  grad_acc_steps := grad_acc_steps F;
  eval_every_n_steps := eval_every_n_steps F;
  num_train_epochs := num_train_epochs F;
  base_learning_rate := base_learning_rate F;
  lr_warmup_epochs := lr_warmup_epochs F;
  lr_schedule := lr_schedule F;
  optimizer := optimizer F;
  rnd_seed := Some seed;
  model := model F;
  dataset := dataset F;
  logit_clip := logit_clip F;
  num_layers_to_freeze := num_layers_to_freeze F
|}.

Section Observations.
Context `{JR : JaxRandom} `{EX : @External JR}.

(** The experiment [self] as it would be under the flags [F]. *)
Definition set_FLAGS (self : Experiment) (F : Flags) : Experiment := {|
  FLAGS := F;
  total_num_replicas := total_num_replicas self;
  total_batch_size := total_batch_size self;
  self_base_learning_rate := self_base_learning_rate self;
  save_summaries := save_summaries self;
  self_lr_warmup_epochs := self_lr_warmup_epochs self;
  self_num_train_epochs := self_num_train_epochs self;
  logit_clip_fn := logit_clip_fn self;
  train_split := train_split self;
  eval_split := eval_split self;
  model_kind := model_kind self;
  frozen_vars := frozen_vars self;
  self_optimizer := self_optimizer self;
  DEFAULT_GENERATOR := DEFAULT_GENERATOR self
|}.

(** The stream key and the trace of a Langevin optimiser. *)
Definition base_rng (o : BaseOptimizer) : option Key :=
  match o with
  | OStock _ _ => None
  | OSGLD o => Some (CustomSGLD.rng o)
  | OPSGLD o => Some (CustomPreconditionedSGLD.rng o)
  end.

Definition base_trace (o : BaseOptimizer) : list RngEvent :=
  match o with
  | OStock _ _ => []
  | OSGLD o => CustomSGLD.trace o
  | OPSGLD o => CustomPreconditionedSGLD.trace o
  end.

(** The optimiser [o] with the stream of a Langevin optimiser replaced by
    [k] and the trace [tr]; every other attribute is kept. *)
Definition with_rng (k : Key) (tr : list RngEvent) (o : BaseOptimizer)
    : BaseOptimizer :=
  match o with
  | OStock kind s => OStock kind s
  | OSGLD o => OSGLD (CustomSGLD.mk (CustomSGLD.train_vars o) k tr)
  | OPSGLD o =>
      OPSGLD (CustomPreconditionedSGLD.mk
                (CustomPreconditionedSGLD.train_vars o)
                (CustomPreconditionedSGLD.alpha o)
                (CustomPreconditionedSGLD.lambda_small o)
                (CustomPreconditionedSGLD.momentum_vars o) k tr)
  end.

Definition exp_with_rng (k : Key) (tr : list RngEvent) (o : ExpOptimizer)
    : ExpOptimizer :=
  match o with
  | Direct o => Direct (with_rng k tr o)
  | Accumulating w =>
      Accumulating (GA.mk (GA.scaler w) (with_rng k tr (GA.optimizer w))
                      (GA.accum w))
  end.

(** A sequence of calls of one optimiser; it stops at the first raise. *)
Fixpoint base_feed (cs : list (R * list Tensor)) (o : BaseOptimizer)
    : outcome BaseOptimizer :=
  match cs with
  | [] => Returned o
  | (lr, grads) :: cs' =>
      match base_call lr grads o with
      | Returned o' => base_feed cs' o'
      | Raised e o' => Raised e o'
      end
  end.

(** A Langevin optimiser whose moving averages have the shapes of its
    variables, as after construction. *)
Definition langevin (o : BaseOptimizer) : Prop :=
  match o with
  | OStock _ _ => False
  | OSGLD _ => True
  | OPSGLD o =>
      shapes (CustomPreconditionedSGLD.momentum_vars o)
      = shapes (CustomPreconditionedSGLD.train_vars o)
  end.

(** The optimiser the experiment was built with. *)
Definition built_optimizer (self : Experiment) : BaseOptimizer :=
  the_base (self_optimizer self).

End Observations.

(** Gradients aligned with a list of variables: as many tensors, each of
    the shape of its variable. *)
Definition aligned (grads params : list Tensor) : Prop :=
  shapes grads = shapes params.

(** The sum over a sequence of gradient lists of entry [j] of tensor [i]. *)
Definition sum_elem (gs : list (list Tensor)) (i j : nat) : R :=
  fold_right (fun g acc => elem g i j + acc) 0 gs.

(** The elementwise mean of a sequence of gradient lists whose tensors
    have the shapes [shp]. *)
Definition mean_grads (shp : list nat) (gs : list (list Tensor)) : list Tensor :=
  map (fun i =>
         map (fun j => sum_elem gs i j / INR (length gs)) (seq 0 (nth i shp O)))
      (seq 0 (length shp)).

(** The calls of one accumulation cycle: every gradient list of [pre] with
    [apply_updates] false, then [last] with [apply_updates] true. *)
Definition cycle (pre : list (R * list Tensor)) (last : R * list Tensor)
    : list (R * list Tensor * bool) :=
  map (fun c => (fst c, snd c, false)) pre ++ [(fst last, snd last, true)].

(** The gradient lists of one accumulation cycle, in call order. *)
Definition cycle_gradients (pre : list (R * list Tensor)) (last : R * list Tensor)
    : list (list Tensor) :=
  map snd pre ++ [snd last].

(** The buffers after a run of accumulating calls. *)
Definition accumulated (s : R) (gs : list (list Tensor)) (acc : list Tensor)
    : list Tensor :=
  fold_left (fun a g => GA.accumulate s g a) gs acc.

(** One accumulation cycle of [k] calls on a wrapper freshly built around
    [opt] with [scaler = 1/k]. *)
Definition run_cycle {O : Type} `{Optimizer O} (opt : O)
    (pre : list (R * list Tensor)) (last : R * list Tensor) : outcome (GA.t O) :=
  GA.feed (cycle pre last)
    (GA.init opt (1 / INR (length (cycle_gradients pre last)))).

(** Every element of every buffer is zero. *)
Definition all_zero (xs : list Tensor) : Prop :=
  Forall (Forall (fun v => v = 0)) xs.

(** [n] consecutive integers from [a]. *)
Definition consecutive (a : Z) (n : nat) : list Z :=
  map (fun i => a + Z.of_nat i)%Z (seq 0 n).

(** The key after [n] stream advances. *)
Fixpoint advance `{JaxRandom} (n : nat) (k : Key) : Key :=
  match n with
  | O => k
  | S n' => advance n' (fst (split k))
  end.

(** The subkey of the draw that follows [n] stream advances. *)
Definition subkey_at `{JaxRandom} (n : nat) (k : Key) : Key :=
  snd (split (advance n k)).

(** The trace of one draw per variable, in order, from the key [k]. *)
Fixpoint draws `{JaxRandom} (params : list Tensor) (k : Key) : list RngEvent :=
  match params with
  | [] => []
  | p :: params' =>
      EvSplit k :: EvNormal (snd (split k)) (shape p)
        :: draws params' (fst (split k))
  end.

(** [s] rounded up to a multiple of [k]: [m] is a multiple of [k], at
    least [s], and less than [s + k]. *)
Definition rounded_up (s k m : Z) : Prop :=
  ((exists q, m = q * k) /\ s <= m < s + k)%Z.

(** ** Small concrete collaborators, on which the properties are run *)

Module Fixture.

Definition constant_normal (k : Z) (n : nat) : Tensor := repeat (IZR k) n.

#[global] Instance Random : JaxRandom := {|
  Key := Z;
  key := fun seed => seed;
  split := fun k => (2 * k + 1, 2 * k + 2)%Z;
  normal := constant_normal;
  normal_shape := fun k n => repeat_length (IZR k) n
|}.

(** Plain descent, [p -= lr * g], in the role of a stock optimiser. *)
Definition descent (lr : R) (grads params : list Tensor) : list Tensor :=
  map (fun gp => jn.sub (snd gp) (jn.lscale lr (fst gp))) (combine grads params).

#[global] Instance Plain : Optimizer (list Tensor) := {|
  train_vars := fun params => params;
  opt_call := fun lr grads params => Returned (descent lr grads params)
|}.

#[global] Instance World : @External Random := {|
  device_count := 1;
  get_train_dataset_split := fun _ => Ok (mkSplit 1000 1281167);
  get_eval_dataset_split := fun _ => Ok (mkSplit 1000 50000);
  zoo := fun _ _ k => ([[[IZR k]]], snd (split k));
  zoo_shapes := fun _ _ _ _ => eq_refl;
  Stock := list Tensor;
  stock_init := fun _ vc => vc;
  stock_train_vars := fun s => s;
  stock_call := fun lr grads s => Returned (descent lr grads s);
  stock_object := fun s => PModule [("train_vars"%string, train_refs s)]
|}.

Definition flags : Flags := {|
  model_dir := "/tmp/model_dir";
  train_device_batch_size := 128;
  grad_acc_steps := 1;
  eval_every_n_steps := 1000;
  num_train_epochs := 10;
  base_learning_rate := 2;
  lr_warmup_epochs := 1;
  lr_schedule := "cos";
  optimizer := "momentum";
  rnd_seed := None;
  model := "resnet18";
  dataset := "imagenet";
  logit_clip := "none";
  num_layers_to_freeze := 0
|}.

(** A two-epoch run over 256 examples in batches of 128, accumulating over
    two steps and evaluating every two steps. *)
Definition small_flags : Flags := {|
  model_dir := "";
  train_device_batch_size := 128;
  grad_acc_steps := 2;
  eval_every_n_steps := 2;
  num_train_epochs := 2;
  base_learning_rate := 2;
  lr_warmup_epochs := 1;
  lr_schedule := "cos";
  optimizer := "sgld";
  rnd_seed := Some 0%Z;
  model := "resnet18";
  dataset := "imagenet";
  logit_clip := "none";
  num_layers_to_freeze := 0
|}.

Definition small : Experiment := {|
  FLAGS := small_flags;
  total_num_replicas := 1;
  total_batch_size := 128;
  self_base_learning_rate := 2;
  save_summaries := false;
  self_lr_warmup_epochs := 1;
  self_num_train_epochs := 2;
  logit_clip_fn := ClipNone;
  train_split := mkSplit 1000 256;
  eval_split := mkSplit 1000 256;
  model_kind := ResNet18;
  frozen_vars := [];
  self_optimizer :=
    Accumulating (GA.init (OSGLD (CustomSGLD.init [[0]])) (1 / 2));
  DEFAULT_GENERATOR := 0%Z
|}.

(** A run shorter than its warmup: one epoch, two warmup epochs. *)
Definition short : Experiment := {|
  FLAGS := with_lr_schedule small_flags "fixed";
  total_num_replicas := 1;
  total_batch_size := 128;
  self_base_learning_rate := 1;
  save_summaries := false;
  self_lr_warmup_epochs := 2;
  self_num_train_epochs := 1;
  logit_clip_fn := ClipNone;
  train_split := mkSplit 1000 256;
  eval_split := mkSplit 1000 256;
  model_kind := ResNet18;
  frozen_vars := [];
  self_optimizer := Direct (OSGLD (CustomSGLD.init [[0]]));
  DEFAULT_GENERATOR := 0%Z
|}.

(** The experiment [main] builds from the small flags and the seed [s]. *)
Definition seeded (s : Z) : Experiment :=
  match main_construct (with_rnd_seed small_flags s) 0 with
  | Ok e => e
  | Raise _ => small
  end.

(** The same short run with the [cos] schedule. *)
Definition short_cos : Experiment := {|
  FLAGS := small_flags;
  total_num_replicas := 1;
  total_batch_size := 128;
  self_base_learning_rate := 1;
  save_summaries := false;
  self_lr_warmup_epochs := 2;
  self_num_train_epochs := 1;
  logit_clip_fn := ClipNone;
  train_split := mkSplit 1000 256;
  eval_split := mkSplit 1000 256;
  model_kind := ResNet18;
  frozen_vars := [];
  self_optimizer := Direct (OSGLD (CustomSGLD.init [[0]]));
  DEFAULT_GENERATOR := 0%Z
|}.

(** A run with [--num_train_epochs=-1]. *)
Definition negative : Experiment := {|
  FLAGS := with_lr_schedule small_flags "fixed";
  total_num_replicas := 1;
  total_batch_size := 128;
  self_base_learning_rate := 1;
  save_summaries := false;
  self_lr_warmup_epochs := 1;
  self_num_train_epochs := -1;
  logit_clip_fn := ClipNone;
  train_split := mkSplit 1000 256;
  eval_split := mkSplit 1000 256;
  model_kind := ResNet18;
  frozen_vars := [];
  self_optimizer := Direct (OSGLD (CustomSGLD.init [[0]]));
  DEFAULT_GENERATOR := 0%Z
|}.

End Fixture.


(** ** Further definitions used to state properties *)

(** Every entry of every tensor is at least zero. *)
Definition nonneg (xs : list Tensor) : Prop :=
  Forall (Forall (fun v => 0 <= v)) xs.

(** The calls of a run in which no update is applied. *)
Definition accumulating (pre : list (R * list Tensor))
    : list (R * list Tensor * bool) :=
  map (fun c => (fst c, snd c, false)) pre.

(** A sequence of calls of one optimiser; it stops at the first raise. *)
Fixpoint feed_calls {O : Type} `{Optimizer O} (cs : list (R * list Tensor))
    (o : O) : outcome O :=
  match cs with
  | [] => Returned o
  | (lr, grads) :: cs' =>
      match opt_call lr grads o with
      | Returned o' => feed_calls cs' o'
      | Raised e o' => Raised e o'
      end
  end.

Section MoreObservations.
Context `{JR : JaxRandom} `{EX : @External JR}.

(** A Langevin optimiser that holds one moving average per variable. *)
Definition counted (o : BaseOptimizer) : Prop :=
  match o with
  | OStock _ _ => False
  | OSGLD _ => True
  | OPSGLD o =>
      length (CustomPreconditionedSGLD.momentum_vars o)
      = length (CustomPreconditionedSGLD.train_vars o)
  end.

(** An outcome that is a return, or the raise of the wrapper's own check. *)
Definition returns_or_rejects {S : Type} (r : outcome S) : Prop :=
  match r with
  | Returned _ => True
  | Raised e _ =>
      e = AssertionError "Expecting as many gradients as trainable variables"
  end.

End MoreObservations.

(** What holds of the preconditioned optimiser from construction on: the
    two constants, the shapes [vc] had, and moving averages that are at
    least zero. *)
Definition since_init `{JaxRandom} (vc : list Tensor)
    (o : CustomPreconditionedSGLD.t) : Prop :=
  CustomPreconditionedSGLD.alpha o = 95 / 100
  /\ CustomPreconditionedSGLD.lambda_small o = 1 / 100000000
  /\ shapes (CustomPreconditionedSGLD.train_vars o) = shapes vc
  /\ shapes (CustomPreconditionedSGLD.momentum_vars o) = shapes vc
  /\ nonneg (CustomPreconditionedSGLD.momentum_vars o).

(** ** The functions [util.construct_logit_clip_fn] returns

    Each is applied to the logits entry by entry; [clip_fn c] is the
    function of one entry. *)

(** [jax.nn.sigmoid] *)
Definition sigmoid (x : R) : R := 1 / (1 + exp (- x)).

Definition clip_fn (c : LogitClip) (x : R) : R :=
  match c with
  | ClipNone => x
  | ClipTanh => tanh x
  | ClipSigmoid => 2 * sigmoid x
  | ClipBlf =>
      2 * (x * sigmoid x + sigmoid x - x * (sigmoid x * sigmoid x)) - 1
  end.

(** The strings all of whose characters are ASCII. *)
Fixpoint is_ascii (s : string) : bool :=
  match s with
  | EmptyString => true
  | String c s' => (nat_of_ascii c <? 128)%nat && is_ascii s'
  end.

(** The names [make_model] and the constructor accept. *)
Definition MODEL_NAMES : list string :=
  ["resnet200"; "resnet152"; "resnet101"; "resnet50"; "resnet18"]%string.

Definition OPTIMIZER_NAMES : list string :=
  ["momentum"; "adam"; "sgld"; "psgld"]%string.

Definition CLIP_NAMES : list string :=
  ["none"; "tanh"; "sigmoid"; "blf"]%string.

(** The flags [F] with [--eval_every_n_steps] set to [n]. *)
Definition with_eval_every (F : Flags) (n : Z) : Flags := {|
  model_dir := model_dir F;
  train_device_batch_size := train_device_batch_size F;
  grad_acc_steps := grad_acc_steps F;
  eval_every_n_steps := n;
  num_train_epochs := num_train_epochs F;
  base_learning_rate := base_learning_rate F;
  lr_warmup_epochs := lr_warmup_epochs F;
  lr_schedule := lr_schedule F;
  optimizer := optimizer F;
  rnd_seed := rnd_seed F;
  model := model F;
  dataset := dataset F;
  logit_clip := logit_clip F;
  num_layers_to_freeze := num_layers_to_freeze F
|}.

Section Accounting.
Context `{JR : JaxRandom} `{EX : @External JR}.

(** [steps=int(cur_step / FLAGS.grad_acc_steps)], the number of steps
    handed to the privacy accountant after the window ending at
    [cur_step]. *)
Definition dp_steps (self : Experiment) (cur_step : Z) : Z :=
  py_int (IZR cur_step / IZR (grad_acc_steps (FLAGS self))).

(** The number of virtual steps of a run at which the update is applied. *)
Definition applied_updates (steps : list VirtualStep) : nat :=
  length (filter apply_updates steps).

End Accounting.

(** ** [Experiment.run_eval]

    A batch of the evaluation dataset is given by what the loop reads
    from it: the number of correct predictions that
    [evaluate_batch_parallel] returns for it and its number of examples,
    [batch['images'].shape[0]]. *)

Inductive EvalResult : Type :=
| Accuracy (a : R)
| ZeroDivisionError.

(** [for batch_index, batch in enumerate(test_ds): ...], from
    [batch_index] on, with the two counters as they stand. *)
Fixpoint eval_loop (max_eval_batches batch_index : Z) (batches : list (Z * Z))
    (correct_pred total_examples : Z) : Z * Z :=
  match batches with
  | [] => (correct_pred, total_examples)
  | (num_correct, size) :: batches' =>
      let correct_pred := (correct_pred + num_correct)%Z in
      let total_examples := (total_examples + size)%Z in
      if ((max_eval_batches >? 0) && (batch_index + 1 >=? max_eval_batches))%Z
      then (correct_pred, total_examples)
      else eval_loop max_eval_batches (batch_index + 1) batches'
             correct_pred total_examples
  end.

(** [return correct_pred / total_examples].  With no batch at all both
    counters are the Python integer zero and the division raises; the
    division of a JAX array by a zero count (batches without examples)
    is not modelled. *)
Definition run_eval (max_eval_batches : Z) (batches : list (Z * Z)) : EvalResult :=
  match batches with
  | [] => ZeroDivisionError
  | _ :: _ =>
      let (correct_pred, total_examples) :=
        eval_loop max_eval_batches 0 batches 0 0 in
      Accuracy (IZR correct_pred / IZR total_examples)
  end.

(** The batches an evaluation reads. *)
Definition batches_read (max_eval_batches : Z) (batches : list (Z * Z))
    : list (Z * Z) :=
  if (max_eval_batches >? 0)%Z then firstn (Z.to_nat max_eval_batches) batches
  else batches.

Definition total_of (f : Z * Z -> Z) (batches : list (Z * Z)) : Z :=
  fold_right (fun b acc => f b + acc)%Z 0%Z batches.

(** ** [Experiment.loss_fn]: the weight-decay term *)

(** [k.endswith(suffix)] *)
Definition endswith (k suffix : string) : bool :=
  let n := String.length k in
  let m := String.length suffix in
  ((m <=? n)%nat && (substring (n - m) m k =? suffix)%string).

(** [(v.value ** 2).sum()] *)
Definition sum_of_squares (v : Tensor) : R := fold_left Rplus (jn.square v) 0.

(** [FLAGS.weight_decay * 0.5 * sum((v.value ** 2).sum()
       for k, v in self.trainable_vars.items() if k.endswith('.w'))] *)
Definition wd_loss (weight_decay : R) (trainable_vars : list (string * Tensor)) : R :=
  weight_decay * 0.5
  * fold_left Rplus
      (map (fun kv => sum_of_squares (snd kv))
         (filter (fun kv => endswith (fst kv) ".w") trainable_vars))
      0.

(** [loss_fn] from the cross-entropy on: the total loss and the three
    entries of the dictionary. *)
Definition loss_fn (weight_decay xent_loss : R)
    (trainable_vars : list (string * Tensor)) : R * (R * R * R) :=
  let wd := wd_loss weight_decay trainable_vars in
  let total_loss := xent_loss + wd in
  (total_loss, (total_loss, xent_loss, wd)).

(** * Properties *)

(** ** Tensors *)

Lemma map2_length (f : R -> R -> R) (x y : Tensor) :
  length x = length y -> length (jn.map2 f x y) = length x.
Proof.
  revert y; induction x as [|a x IH]; intros [|b y] Hl; simpl in *;
    try discriminate; auto.
Qed.

Lemma map2_nth (f : R -> R -> R) (x y : Tensor) (j : nat) :
  length x = length y -> f 0 0 = 0 ->
  nth j (jn.map2 f x y) 0 = f (nth j x 0) (nth j y 0).
Proof.
  intros Hl H0; revert y j Hl.
  induction x as [|a x IH]; intros [|b y] j Hl; simpl in *; try discriminate.
  - destruct j; auto.
  - destruct j; auto.
Qed.

Lemma scale_nth (x : Tensor) (c : R) (j : nat) :
  nth j (jn.scale x c) 0 = nth j x 0 * c.
Proof.
  unfold jn.scale. revert j; induction x as [|a x IH]; intros [|j]; simpl;
    auto; lra.
Qed.

Lemma zeros_like_shape (x : Tensor) : shape (jn.zeros_like x) = shape x.
Proof. apply length_map. Qed.

Lemma zeros_like_nth (x : Tensor) (j : nat) : nth j (jn.zeros_like x) 0 = 0.
Proof.
  unfold jn.zeros_like. revert j; induction x as [|a x IH]; intros [|j];
    simpl; auto.
Qed.

Lemma shapes_zeros_like (xs : list Tensor) :
  shapes (map jn.zeros_like xs) = shapes xs.
Proof.
  unfold shapes. rewrite map_map. apply map_ext, zeros_like_shape.
Qed.

Lemma shapes_length (a b : list Tensor) :
  shapes a = shapes b -> length a = length b.
Proof.
  intros H. apply (f_equal (@length nat)) in H.
  unfold shapes in H. now rewrite !length_map in H.
Qed.

Lemma elem_zeros (xs : list Tensor) (i j : nat) :
  elem (map jn.zeros_like xs) i j = 0.
Proof.
  unfold elem. revert i; induction xs as [|x xs IH]; intros [|i]; simpl.
  - now destruct j.
  - now destruct j.
  - apply zeros_like_nth.
  - apply IH.
Qed.

(** Two lists of tensors with the same shapes and the same entries are equal. *)
Lemma tensors_ext (a b : list Tensor) :
  shapes a = shapes b -> (forall i j, elem a i j = elem b i j) -> a = b.
Proof.
  revert b; induction a as [|x a IH]; intros [|y b] Hs He; simpl in *;
    try discriminate; auto.
  injection Hs as Hxy Hs. f_equal.
  - apply (nth_ext x y 0 0 Hxy). intros j _. exact (He O j).
  - apply IH; auto. intros i j. exact (He (S i) j).
Qed.

(** ** The accumulation buffers *)

Lemma accumulate_shapes (s : R) (g acc : list Tensor) :
  aligned g acc -> shapes (GA.accumulate s g acc) = shapes acc.
Proof.
  unfold aligned. revert acc; induction g as [|x g IH]; intros [|a acc] Hs;
    simpl in *; try discriminate; auto.
  injection Hs as Hx Hs. f_equal; auto.
  unfold shape, jn.add. rewrite map2_length; auto.
  unfold jn.scale. rewrite length_map. symmetry; exact Hx.
Qed.

Lemma accumulate_elem (s : R) (g acc : list Tensor) (i j : nat) :
  aligned g acc ->
  elem (GA.accumulate s g acc) i j = elem acc i j + elem g i j * s.
Proof.
  unfold aligned, elem. revert acc i; induction g as [|x g IH];
    intros [|a acc] i Hs; simpl in *; try discriminate.
  - destruct i; destruct j; simpl; lra.
  - injection Hs as Hx Hs. destruct i as [|i].
    + unfold jn.add. rewrite map2_nth.
      * now rewrite scale_nth.
      * unfold jn.scale. rewrite length_map. symmetry; exact Hx.
      * lra.
    + apply IH; auto.
Qed.

Lemma accumulated_shapes (s : R) (gs : list (list Tensor)) (acc : list Tensor) :
  Forall (fun g => aligned g acc) gs -> shapes (accumulated s gs acc) = shapes acc.
Proof.
  revert acc; induction gs as [|g gs IH]; intros acc Hal; simpl; auto.
  inversion Hal as [|? ? Hg Hgs]; subst.
  unfold accumulated in *; simpl. rewrite IH.
  - now apply accumulate_shapes.
  - eapply Forall_impl; [|exact Hgs]. intros g' Hg'. unfold aligned in *.
    now rewrite accumulate_shapes.
Qed.

Lemma accumulated_elem (s : R) (gs : list (list Tensor)) (acc : list Tensor)
    (i j : nat) :
  Forall (fun g => aligned g acc) gs ->
  elem (accumulated s gs acc) i j = elem acc i j + sum_elem gs i j * s.
Proof.
  revert acc; induction gs as [|g gs IH]; intros acc Hal; simpl.
  - lra.
  - inversion Hal as [|? ? Hg Hgs]; subst.
    unfold accumulated in *; simpl. rewrite IH.
    + rewrite accumulate_elem by exact Hg. lra.
    + eapply Forall_impl; [|exact Hgs]. intros g' Hg'. unfold aligned in *.
      now rewrite accumulate_shapes.
Qed.

Lemma nth_map_seq {A : Type} (f : nat -> A) (n i : nat) (d : A) :
  (i < n)%nat -> nth i (map f (seq 0 n)) d = f i.
Proof.
  intros Hi. rewrite (nth_indep _ d (f O)) by now rewrite length_map, length_seq.
  rewrite (map_nth f). now rewrite seq_nth.
Qed.

Lemma mean_grads_shapes (shp : list nat) (gs : list (list Tensor)) :
  shapes (mean_grads shp gs) = shp.
Proof.
  unfold mean_grads, shapes. rewrite map_map.
  apply (nth_ext _ _ O O).
  - now rewrite length_map, length_seq.
  - intros i Hi. rewrite length_map, length_seq in Hi.
    rewrite nth_map_seq by exact Hi. unfold shape.
    now rewrite length_map, length_seq.
Qed.

Lemma mean_grads_elem (shp : list nat) (gs : list (list Tensor)) (i j : nat) :
  (i < length shp)%nat -> (j < nth i shp O)%nat ->
  elem (mean_grads shp gs) i j = sum_elem gs i j / INR (length gs).
Proof.
  intros Hi Hj. unfold elem, mean_grads.
  rewrite nth_map_seq by exact Hi. now rewrite nth_map_seq by exact Hj.
Qed.

Lemma elem_out_of_shape (a : list Tensor) (i j : nat) :
  (length a <= i)%nat \/ (shape (nth i a []) <= j)%nat -> elem a i j = 0.
Proof.
  unfold elem, shape. intros [Hi|Hj].
  - rewrite (nth_overflow a) by exact Hi. now destruct j.
  - now apply nth_overflow.
Qed.

Lemma shapes_nth (a : list Tensor) (i : nat) :
  nth i (shapes a) O = shape (nth i a []).
Proof.
  unfold shapes. change O with (shape []) at 1. apply map_nth.
Qed.

(** From zeroed buffers, a run of accumulating calls with scale [1/k] over
    [k] aligned gradient lists leaves their elementwise mean. *)
Lemma accumulated_mean (params : list Tensor) (gs : list (list Tensor)) :
  Forall (fun g => aligned g params) gs ->
  accumulated (1 / INR (length gs)) gs (map jn.zeros_like params)
  = mean_grads (shapes params) gs.
Proof.
  intros Hal.
  assert (Hal' : Forall (fun g => aligned g (map jn.zeros_like params)) gs).
  { eapply Forall_impl; [|exact Hal]. intros g Hg. unfold aligned in *.
    now rewrite shapes_zeros_like. }
  assert (Hsh : shapes (accumulated (1 / INR (length gs)) gs
                          (map jn.zeros_like params)) = shapes params).
  { rewrite accumulated_shapes by exact Hal'. apply shapes_zeros_like. }
  apply tensors_ext.
  - now rewrite mean_grads_shapes.
  - intros i j.
    destruct (Nat.lt_ge_cases i (length (shapes params))) as [Hi|Hi].
    + destruct (Nat.lt_ge_cases j (nth i (shapes params) O)) as [Hj|Hj].
      * rewrite mean_grads_elem by assumption.
        rewrite accumulated_elem by exact Hal'. rewrite elem_zeros.
        unfold Rdiv. lra.
      * rewrite !elem_out_of_shape; auto; right.
        -- now rewrite <- shapes_nth, mean_grads_shapes.
        -- now rewrite <- shapes_nth, Hsh.
    + rewrite !elem_out_of_shape; auto; left.
      * rewrite <- (length_map shape). fold (shapes (mean_grads (shapes params) gs)).
        now rewrite mean_grads_shapes.
      * rewrite <- (length_map shape). fold (shapes (accumulated (1 / INR (length gs)) gs
                          (map jn.zeros_like params))). now rewrite Hsh.
Qed.

(** ** The wrapper *)

Section Wrapper.
Context {O : Type} `{OP : Optimizer O}.

Lemma aligned_length (g params : list Tensor) :
  aligned g params -> (length g =? length params)%nat = true.
Proof. intros H. apply Nat.eqb_eq. now apply shapes_length. Qed.

Lemma call_no_apply (lr : R) (g : list Tensor) (w : GA.t O) :
  aligned g (train_vars (GA.optimizer w)) ->
  GA.call lr g false w
  = Returned (GA.mk (GA.scaler w) (GA.optimizer w)
                (GA.accumulate (GA.scaler w) g (GA.accum w))).
Proof.
  intros Hal. unfold GA.call. now rewrite (aligned_length _ _ Hal).
Qed.

Lemma call_apply (lr : R) (g : list Tensor) (w : GA.t O) :
  aligned g (train_vars (GA.optimizer w)) ->
  GA.call lr g true w
  = match opt_call lr (GA.accumulate (GA.scaler w) g (GA.accum w))
            (GA.optimizer w) with
    | Returned o =>
        Returned (GA.mk (GA.scaler w) o
                    (map jn.zeros_like
                       (GA.accumulate (GA.scaler w) g (GA.accum w))))
    | Raised e o =>
        Raised e (GA.mk (GA.scaler w) o
                    (GA.accumulate (GA.scaler w) g (GA.accum w)))
    end.
Proof.
  intros Hal. unfold GA.call. now rewrite (aligned_length _ _ Hal).
Qed.

Lemma feed_app (a b : list (R * list Tensor * bool)) (w : GA.t O) :
  GA.feed (a ++ b) w
  = match GA.feed a w with
    | Returned w' => GA.feed b w'
    | Raised e w' => Raised e w'
    end.
Proof.
  revert w; induction a as [|[[lr g] ap] a IH]; intros w; simpl; auto.
  destruct (GA.call lr g ap w); auto.
Qed.

Lemma feed_no_apply (pre : list (R * list Tensor)) (w : GA.t O) :
  Forall (fun g => aligned g (train_vars (GA.optimizer w))) (map snd pre) ->
  GA.feed (map (fun c => (fst c, snd c, false)) pre) w
  = Returned (GA.mk (GA.scaler w) (GA.optimizer w)
                (accumulated (GA.scaler w) (map snd pre) (GA.accum w))).
Proof.
  revert w; induction pre as [|[lr g] pre IH]; intros w Hal; simpl.
  - now destruct w.
  - inversion Hal as [|? ? Hg Hpre]; subst. simpl in Hg.
    rewrite call_no_apply by exact Hg. rewrite IH by exact Hpre. reflexivity.
Qed.

(** One cycle from a wrapper whose scale is [s]: the wrapped optimiser
    is called once, on the accumulated buffers. *)
Lemma feed_cycle (pre : list (R * list Tensor)) (last : R * list Tensor)
    (w : GA.t O) :
  Forall (fun g => aligned g (train_vars (GA.optimizer w)))
    (cycle_gradients pre last) ->
  GA.feed (cycle pre last) w
  = match opt_call (fst last)
            (accumulated (GA.scaler w) (cycle_gradients pre last) (GA.accum w))
            (GA.optimizer w) with
    | Returned o =>
        Returned (GA.mk (GA.scaler w) o
          (map jn.zeros_like
             (accumulated (GA.scaler w) (cycle_gradients pre last) (GA.accum w))))
    | Raised e o =>
        Raised e (GA.mk (GA.scaler w) o
          (accumulated (GA.scaler w) (cycle_gradients pre last) (GA.accum w)))
    end.
Proof.
  unfold cycle, cycle_gradients. intros Hal.
  apply Forall_app in Hal as [Hpre Hlast].
  inversion Hlast as [|? ? Hg _]; subst.
  rewrite feed_app, feed_no_apply by exact Hpre. simpl.
  rewrite call_apply by exact Hg. simpl.
  unfold accumulated. rewrite fold_left_app. simpl.
  destruct (opt_call _ _ _); reflexivity.
Qed.

(** One cycle on a fresh wrapper with [scaler = 1/k] is a single call of
    the wrapped optimiser on the mean. *)
Lemma run_cycle_mean (opt : O) (pre : list (R * list Tensor))
    (last : R * list Tensor) :
  Forall (fun g => aligned g (train_vars opt)) (cycle_gradients pre last) ->
  run_cycle opt pre last
  = match opt_call (fst last)
            (mean_grads (shapes (train_vars opt)) (cycle_gradients pre last))
            opt with
    | Returned o =>
        Returned (GA.mk (1 / INR (length (cycle_gradients pre last))) o
          (map jn.zeros_like
             (mean_grads (shapes (train_vars opt)) (cycle_gradients pre last))))
    | Raised e o =>
        Raised e (GA.mk (1 / INR (length (cycle_gradients pre last))) o
          (mean_grads (shapes (train_vars opt)) (cycle_gradients pre last)))
    end.
Proof.
  intros Hal. unfold run_cycle. rewrite feed_cycle by exact Hal.
  unfold GA.init; simpl. now rewrite accumulated_mean by exact Hal.
Qed.

End Wrapper.

Lemma all_zero_zeros_like (xs : list Tensor) : all_zero (map jn.zeros_like xs).
Proof.
  unfold all_zero. apply Forall_forall. intros z Hz.
  apply in_map_iff in Hz as [x [<- _]].
  unfold jn.zeros_like. apply Forall_forall. intros v Hv.
  apply in_map_iff in Hv as [? [<- _]]. reflexivity.
Qed.

(** C1.  One accumulation cycle of [k >= 1] aligned gradient lists through
    a wrapper built with [scaler = 1/k], with [apply_updates] true on the
    last call only, calls the wrapped optimiser exactly once, on the
    elementwise mean of the gradient lists and with the step size of the
    last call; the wrapped optimiser ends in the state a direct call on
    that mean leaves it in, and the cycle returns exactly when that call
    does. *)
Theorem accumulation_equivalence {O : Type} `{Optimizer O} (opt : O)
    (pre : list (R * list Tensor)) (last : R * list Tensor) :
  Forall (fun g => aligned g (train_vars opt)) (cycle_gradients pre last) ->
  GA.scaler (final_state (run_cycle (mkSpy opt []) pre last))
    = 1 / INR (S (length pre))
  /\ calls (GA.optimizer (final_state (run_cycle (mkSpy opt []) pre last)))
     = [(fst last,
         mean_grads (shapes (train_vars opt)) (cycle_gradients pre last))]
  /\ spied (GA.optimizer (final_state (run_cycle (mkSpy opt []) pre last)))
     = final_state
         (opt_call (fst last)
            (mean_grads (shapes (train_vars opt)) (cycle_gradients pre last)) opt)
  /\ returned (run_cycle (mkSpy opt []) pre last)
     = returned
         (opt_call (fst last)
            (mean_grads (shapes (train_vars opt)) (cycle_gradients pre last)) opt).
Proof.
  intros Hal.
  assert (Hk : length (cycle_gradients pre last) = S (length pre)).
  { unfold cycle_gradients. rewrite length_app, length_map. simpl. lia. }
  rewrite (run_cycle_mean (mkSpy opt []) pre last) by exact Hal.
  simpl. unfold spy_call. simpl. rewrite Hk.
  destruct (opt_call _ _ opt); simpl; auto.
Qed.

Lemma accumulation_equivalence_witness :
  Forall (fun g => aligned g (train_vars [[4; 4]]))
    (cycle_gradients [(1, [[1; 2]])] (1, [[3; 6]]))
  /\ calls (GA.optimizer
       (final_state (run_cycle (mkSpy [[4; 4]] []) [(1, [[1; 2]])] (1, [[3; 6]]))))
     = [(1, mean_grads [2%nat] [[[1; 2]]; [[3; 6]]])].
Proof.
  split.
  - repeat constructor.
  - refine (proj1 (proj2
      (accumulation_equivalence [[4; 4]] [(1, [[1; 2]])] (1, [[3; 6]]) _))).
    repeat constructor.
Defined.

(** C7.  A call of the wrapper with gradients aligned with the trainable
    variables (as many tensors, each of the shape of its variable), on
    buffers that have the shapes of the variables, as they have from
    construction on.  With [apply_updates] true the wrapped optimiser is
    called once, on the buffers as they are after this call's addition and
    before any reset; when that call returns every buffer is replaced by
    zeros of its shape, and when it raises the buffers are left as
    accumulated.  With [apply_updates] false the wrapped optimiser is not
    called and the buffers keep the accumulated values. *)
Theorem buffer_reset_after_update {O : Type} `{Optimizer O}
    (lr : R) (g : list Tensor) (w : GA.t (Spy O)) :
  aligned g (train_vars (GA.optimizer w)) ->
  shapes (GA.accum w) = shapes (train_vars (GA.optimizer w)) ->
  (calls (GA.optimizer (final_state (GA.call lr g true w)))
     = calls (GA.optimizer w)
       ++ [(lr, GA.accumulate (GA.scaler w) g (GA.accum w))]
   /\ (returned (GA.call lr g true w) = true ->
       GA.accum (final_state (GA.call lr g true w))
         = map jn.zeros_like (GA.accumulate (GA.scaler w) g (GA.accum w))
       /\ all_zero (GA.accum (final_state (GA.call lr g true w)))
       /\ shapes (GA.accum (final_state (GA.call lr g true w)))
          = shapes (GA.accum w))
   /\ (returned (GA.call lr g true w) = false ->
       GA.accum (final_state (GA.call lr g true w))
         = GA.accumulate (GA.scaler w) g (GA.accum w)))
  /\ GA.call lr g false w
     = Returned (GA.mk (GA.scaler w) (GA.optimizer w)
                   (GA.accumulate (GA.scaler w) g (GA.accum w))).
Proof.
  intros Hal Hsh.
  assert (Hacc : aligned g (GA.accum w)) by (unfold aligned in *; congruence).
  unfold GA.call. rewrite (aligned_length _ _ Hal). simpl.
  split; [|reflexivity].
  unfold spy_call.
  destruct (opt_call lr _ (spied (GA.optimizer w))); simpl.
  - repeat split; try discriminate.
    + apply all_zero_zeros_like.
    + rewrite shapes_zeros_like. now apply accumulate_shapes.
  - repeat split; discriminate.
Qed.

Lemma buffer_reset_after_update_witness :
  aligned [[1; 2]]
    (train_vars (GA.optimizer (GA.mk (1 / 2) (mkSpy [[4; 4]] []) [[3; 3]])))
  /\ shapes (GA.accum (GA.mk (1 / 2) (mkSpy [[4; 4]] []) [[3; 3]]))
     = shapes (train_vars
                 (GA.optimizer (GA.mk (1 / 2) (mkSpy [[4; 4]] []) [[3; 3]])))
  /\ GA.call 1 [[1; 2]] false (GA.mk (1 / 2) (mkSpy [[4; 4]] []) [[3; 3]])
     = Returned (GA.mk (1 / 2) (mkSpy [[4; 4]] [])
                   (GA.accumulate (1 / 2) [[1; 2]] [[3; 3]])).
Proof.
  split; [reflexivity|]. split; [reflexivity|].
  refine (proj2
    (buffer_reset_after_update 1 [[1; 2]]
       (GA.mk (1 / 2) (mkSpy [[4; 4]] []) [[3; 3]]) _ _)); reflexivity.
Defined.

(** ** The Langevin optimisers *)

Lemma map_nth_in (f : R -> R) (x : Tensor) (j : nat) :
  (j < length x)%nat -> nth j (map f x) 0 = f (nth j x 0).
Proof.
  intros Hj. rewrite (nth_indep _ 0 (f 0)) by now rewrite length_map.
  apply map_nth.
Qed.

Section Langevin.
Context `{JR : JaxRandom}.

Lemma advance_S (n : nat) (k : Key) :
  advance (S n) k = fst (split (advance n k)).
Proof.
  revert k; induction n as [|n IH]; intros k; simpl; auto.
  now rewrite <- IH.
Qed.

Lemma draws_advances (params : list Tensor) (k : Key) :
  advances (draws params k) = length params.
Proof.
  revert k; induction params as [|p params IH]; intros k; simpl; auto.
Qed.

Lemma draws_noises (params : list Tensor) (k : Key) :
  length (noises (draws params k)) = length params
  /\ forall i, (i < length params)%nat ->
       nth i (noises (draws params k)) []
       = normal (subkey_at i k) (shape (nth i params [])).
Proof.
  revert k; induction params as [|p params IH]; intros k; simpl.
  - split; auto. intros i Hi; lia.
  - destruct (IH (fst (split k))) as [Hl Hn]. split; [now rewrite Hl|].
    intros [|i] Hi; auto. apply Hn. lia.
Qed.

Lemma sgld_new_value_nth (s : R) (g p noise : Tensor) (j : nat) :
  length g = length p -> length noise = length p ->
  nth j (CustomSGLD.new_value s g p noise) 0
  = nth j p 0 - (TRAIN_SIZE * s * nth j g 0 + nth j noise 0 * sqrt (2 * s)).
Proof.
  intros Hg Hn. unfold CustomSGLD.new_value, jn.sub, jn.add.
  assert (Hl : length (jn.lscale (TRAIN_SIZE * s) g)
               = length (jn.scale noise (sqrt (2 * s)))).
  { unfold jn.lscale, jn.scale. rewrite !length_map. congruence. }
  rewrite map2_nth; [|rewrite map2_length by exact Hl;
                      unfold jn.lscale; rewrite length_map; congruence|lra].
  rewrite map2_nth by (exact Hl || lra).
  rewrite scale_nth. f_equal. f_equal.
  unfold jn.lscale. revert j; clear. induction g as [|a g IH]; intros [|j];
    simpl; auto; lra.
Qed.

Lemma sgld_new_value_shape (s : R) (g p noise : Tensor) :
  length g = length p -> length noise = length p ->
  shape (CustomSGLD.new_value s g p noise) = shape p.
Proof.
  intros Hg Hn. unfold shape, CustomSGLD.new_value, jn.sub, jn.add.
  assert (Hl : length (jn.lscale (TRAIN_SIZE * s) g)
               = length (jn.scale noise (sqrt (2 * s)))).
  { unfold jn.lscale, jn.scale. rewrite !length_map. congruence. }
  rewrite map2_length; auto. rewrite map2_length by exact Hl.
  unfold jn.lscale. rewrite length_map. congruence.
Qed.

(** The loop of [CustomSGLD.__call__] over as many gradients as variables. *)
Lemma sgld_update_spec (s : R) (grads params : list Tensor) (k : Key)
    (tr : list RngEvent) :
  length grads = length params ->
  length (fst (fst (CustomSGLD.update s grads params k tr))) = length params
  /\ snd (fst (CustomSGLD.update s grads params k tr)) = advance (length params) k
  /\ snd (CustomSGLD.update s grads params k tr) = tr ++ draws params k
  /\ forall i, (i < length params)%nat ->
       nth i (fst (fst (CustomSGLD.update s grads params k tr))) []
       = CustomSGLD.new_value s (nth i grads []) (nth i params [])
           (normal (subkey_at i k) (shape (nth i params []))).
Proof.
  revert grads k tr; induction params as [|p params IH];
    intros [|g grads] k tr Hl; simpl in *; try discriminate.
  - repeat split; auto using app_nil_r. intros i Hi; lia.
  - injection Hl as Hl.
    destruct (split k) as [new_key subkey] eqn:Hs.
    specialize (IH grads new_key
                  (tr ++ [EvSplit k; EvNormal subkey (shape p)]) Hl).
    destruct (CustomSGLD.update s grads params new_key _) as [[ps k'] tr'].
    simpl in *. destruct IH as (H1 & H2 & H3 & H4).
    repeat split.
    + now rewrite H1.
    + exact H2.
    + rewrite H3, <- app_assoc. reflexivity.
    + intros [|i] Hi.
      * unfold subkey_at. simpl. now rewrite Hs.
      * rewrite H4 by lia. unfold subkey_at. simpl. now rewrite Hs.
Qed.

End Langevin.

(** C4.  A call of the SGLD optimiser with step size [s] and gradients
    aligned with its [n] trainable variables returns, and replaces entry
    [j] of variable [i] by [p - (1281167 * s * g + noise * sqrt (2 * s))],
    where the noise of variable [i] is the standard-normal tensor of the
    shape of that variable drawn from the subkey of the [i]-th split of
    the stream.  The call makes one split and one draw per variable, in
    the order of the variables, and leaves the stream advanced [n] times. *)
Theorem sgld_update_rule `{JR : JaxRandom} (s : R) (grads : list Tensor)
    (self : CustomSGLD.t) :
  aligned grads (CustomSGLD.train_vars self) ->
  returned (CustomSGLD.call s grads self) = true
  /\ shapes (CustomSGLD.train_vars (final_state (CustomSGLD.call s grads self)))
     = shapes (CustomSGLD.train_vars self)
  /\ (forall i j,
        (i < length (CustomSGLD.train_vars self))%nat ->
        (j < shape (nth i (CustomSGLD.train_vars self) []))%nat ->
        elem (CustomSGLD.train_vars (final_state (CustomSGLD.call s grads self))) i j
        = elem (CustomSGLD.train_vars self) i j
          - (1281167 * s * elem grads i j
             + elem (noises (draws (CustomSGLD.train_vars self)
                               (CustomSGLD.rng self))) i j
               * sqrt (2 * s)))
  /\ (forall i, (i < length (CustomSGLD.train_vars self))%nat ->
        nth i (noises (draws (CustomSGLD.train_vars self) (CustomSGLD.rng self))) []
        = normal (subkey_at i (CustomSGLD.rng self))
            (shape (nth i (CustomSGLD.train_vars self) [])))
  /\ CustomSGLD.trace (final_state (CustomSGLD.call s grads self))
     = CustomSGLD.trace self
       ++ draws (CustomSGLD.train_vars self) (CustomSGLD.rng self)
  /\ advances (draws (CustomSGLD.train_vars self) (CustomSGLD.rng self))
     = length (CustomSGLD.train_vars self)
  /\ length (noises (draws (CustomSGLD.train_vars self) (CustomSGLD.rng self)))
     = length (CustomSGLD.train_vars self)
  /\ CustomSGLD.rng (final_state (CustomSGLD.call s grads self))
     = advance (length (CustomSGLD.train_vars self)) (CustomSGLD.rng self).
Proof.
  intros Hal. destruct self as [params k tr]. simpl in *.
  pose proof (shapes_length _ _ Hal) as Hlen.
  unfold CustomSGLD.call. simpl. rewrite (aligned_length _ _ Hal). simpl.
  destruct (sgld_update_spec s grads params k tr Hlen) as (H1 & H2 & H3 & H4).
  destruct (draws_noises params k) as [Hn1 Hn2].
  destruct (CustomSGLD.update s grads params k tr) as [[ps k'] tr'].
  simpl in *.
  assert (Hsh : forall i, (i < length params)%nat ->
                  length (nth i grads []) = length (nth i params [])).
  { intros i Hi. unfold aligned in Hal.
    pose proof (shapes_nth grads i) as Hg. pose proof (shapes_nth params i) as Hp.
    rewrite Hal in Hg. unfold shape in *. congruence. }
  repeat split; auto.
  - apply (nth_ext _ _ O O).
    + unfold shapes. now rewrite !length_map.
    + intros i Hi. unfold shapes in Hi. rewrite length_map, H1 in Hi.
      rewrite !shapes_nth, H4 by exact Hi.
      apply sgld_new_value_shape; auto. apply normal_shape.
  - intros i j Hi Hj. unfold elem. rewrite H4, Hn2 by exact Hi.
    rewrite sgld_new_value_nth; auto. apply normal_shape.
  - apply draws_advances.
Qed.

Lemma sgld_update_rule_witness :
  aligned [[1; 1]] (CustomSGLD.train_vars (CustomSGLD.init [[1; 2]]))
  /\ CustomSGLD.rng
       (final_state (CustomSGLD.call 2 [[1; 1]] (CustomSGLD.init [[1; 2]])))
     = advance 1 (key 42).
Proof.
  split.
  - reflexivity.
  - refine (proj2 (proj2 (proj2 (proj2 (proj2 (proj2 (proj2
      (sgld_update_rule 2 [[1; 1]] (CustomSGLD.init [[1; 2]]) _)))))))).
    reflexivity.
Defined.

Section Preconditioned.
Context `{JR : JaxRandom}.

Lemma lscale_nth (c : R) (x : Tensor) (j : nat) :
  nth j (jn.lscale c x) 0 = c * nth j x 0.
Proof.
  unfold jn.lscale. revert j; induction x as [|a x IH]; intros [|j]; simpl;
    auto; lra.
Qed.

Lemma square_nth (x : Tensor) (j : nat) :
  nth j (jn.square x) 0 = nth j x 0 * nth j x 0.
Proof.
  unfold jn.square. revert j; induction x as [|a x IH]; intros [|j]; simpl;
    auto; lra.
Qed.

Lemma new_momentum_nth (a : R) (m g : Tensor) (j : nat) :
  length m = length g ->
  nth j (CustomPreconditionedSGLD.new_momentum a m g) 0
  = a * nth j m 0 + (1 - a) * (nth j g 0 * nth j g 0).
Proof.
  intros Hl. unfold CustomPreconditionedSGLD.new_momentum, jn.add.
  rewrite map2_nth.
  - now rewrite !lscale_nth, square_nth.
  - unfold jn.lscale, jn.square. now rewrite !length_map.
  - lra.
Qed.

Lemma new_momentum_length (a : R) (m g : Tensor) :
  length m = length g ->
  length (CustomPreconditionedSGLD.new_momentum a m g) = length m.
Proof.
  intros Hl. unfold CustomPreconditionedSGLD.new_momentum, jn.add.
  rewrite map2_length; unfold jn.lscale, jn.square; now rewrite !length_map.
Qed.

Lemma velocity_nth (l : R) (m : Tensor) (j : nat) :
  (j < length m)%nat ->
  nth j (CustomPreconditionedSGLD.velocity l m) 0 = / (sqrt (nth j m 0) + l).
Proof.
  intros Hj. unfold CustomPreconditionedSGLD.velocity, jn.reciprocal, jn.adds, jn.sqrt.
  rewrite !map_map. now rewrite (map_nth_in (fun x => / (sqrt x + l))).
Qed.

(** The velocities the loop of [CustomPreconditionedSGLD.__call__] computes. *)
Lemma psgld_velocities_spec (a l s : R) (grads params moms : list Tensor)
    (k : Key) (tr : list RngEvent) :
  length grads = length params -> length moms = length params ->
  forall i, (i < length params)%nat ->
    nth i (snd (CustomPreconditionedSGLD.update a l s grads params moms k tr)) []
    = CustomPreconditionedSGLD.velocity l
        (CustomPreconditionedSGLD.new_momentum a (nth i moms []) (nth i grads [])).
Proof.
  revert grads moms k tr; induction params as [|p params IH];
    intros [|g grads] [|m moms] k tr Hg Hm i Hi; simpl in *;
    try discriminate; try lia.
  injection Hg as Hg. injection Hm as Hm.
  destruct (split k) as [new_key subkey].
  specialize (IH grads moms new_key
                (tr ++ [EvSplit k; EvNormal subkey (shape p)]) Hg Hm).
  destruct (CustomPreconditionedSGLD.update a l s grads params moms new_key _)
    as [[[[ps ms] k'] tr'] vs].
  simpl in *. destruct i as [|i]; auto. apply IH. lia.
Qed.

(** The velocity of the first call after construction, entry by entry:
    the moving average it is read from has already been updated from zero
    to [(1 - alpha) * g * g]. *)
Lemma first_velocity_entry (s : R) (grads vc : list Tensor) (i j : nat) :
  aligned grads vc ->
  (i < length vc)%nat -> (j < shape (nth i vc []))%nat ->
  elem (CustomPreconditionedSGLD.velocities s grads
          (CustomPreconditionedSGLD.init vc)) i j
  = / (sqrt ((1 - 95 / 100) * (elem grads i j * elem grads i j))
       + 1 / 100000000).
Proof.
  intros Hal Hi Hj. unfold CustomPreconditionedSGLD.velocities, elem. simpl.
  pose proof (shapes_length _ _ Hal) as Hlen.
  assert (Hsh : length (nth i grads []) = length (nth i vc [])).
  { pose proof (shapes_nth grads i) as Hg. pose proof (shapes_nth vc i) as Hp.
    unfold aligned in Hal. rewrite Hal in Hg. unfold shape in *. congruence. }
  rewrite psgld_velocities_spec; auto; [|now rewrite length_map].
  assert (Hz : nth i (map jn.zeros_like vc) [] = jn.zeros_like (nth i vc [])).
  { change [] with (jn.zeros_like []) at 1. apply map_nth. }
  rewrite Hz.
  assert (Hzl : length (jn.zeros_like (nth i vc [])) = length (nth i grads [])).
  { unfold jn.zeros_like. rewrite length_map. now symmetry. }
  rewrite velocity_nth.
  - rewrite new_momentum_nth by exact Hzl. rewrite zeros_like_nth.
    f_equal. f_equal. f_equal. lra.
  - rewrite new_momentum_length by exact Hzl.
    unfold jn.zeros_like. rewrite length_map. exact Hj.
Qed.

Lemma first_denominator_positive (g : R) :
  0 < sqrt ((1 - 95 / 100) * (g * g)) + 1 / 100000000.
Proof.
  pose proof (sqrt_pos ((1 - 95 / 100) * (g * g))). lra.
Qed.

Lemma first_sqrt_positive (g : R) :
  g <> 0 -> 0 < sqrt ((1 - 95 / 100) * (g * g)).
Proof.
  intros Hg. apply sqrt_lt_R0.
  assert (0 < g * g) by (destruct (Rtotal_order g 0) as [?|[?|?]]; [nra|lra|nra]).
  nra.
Qed.

End Preconditioned.

(** C2, as amended.  On the first call after construction, with gradients
    aligned with the variables, the velocity of every entry is
    [1 / (sqrt ((1 - 0.95) * g * g) + 1e-8)], where [g] is the gradient of
    that entry: the moving average is updated before the velocity is read.
    The denominator is positive, so nothing is divided by zero; the
    velocity is [1 / (0 + 1e-8)] when [g] is zero and strictly smaller
    when [g] is not. *)
Theorem psgld_first_velocity `{JR : JaxRandom} (s : R) (grads vc : list Tensor)
    (i j : nat) :
  aligned grads vc ->
  (i < length vc)%nat -> (j < shape (nth i vc []))%nat ->
  CustomPreconditionedSGLD.momentum_vars (CustomPreconditionedSGLD.init vc)
    = map jn.zeros_like vc
  /\ 0 < sqrt ((1 - 95 / 100) * (elem grads i j * elem grads i j)) + 1 / 100000000
  /\ elem (CustomPreconditionedSGLD.velocities s grads
             (CustomPreconditionedSGLD.init vc)) i j
     = 1 / (sqrt ((1 - 95 / 100) * (elem grads i j * elem grads i j))
            + 1 / 100000000)
  /\ (elem grads i j = 0 ->
      elem (CustomPreconditionedSGLD.velocities s grads
              (CustomPreconditionedSGLD.init vc)) i j
      = 1 / (0 + 1 / 100000000))
  /\ (elem grads i j <> 0 ->
      elem (CustomPreconditionedSGLD.velocities s grads
              (CustomPreconditionedSGLD.init vc)) i j
      < 1 / (0 + 1 / 100000000)).
Proof.
  intros Hal Hi Hj. rewrite (first_velocity_entry s grads vc i j Hal Hi Hj).
  pose proof (first_denominator_positive (elem grads i j)) as Hpos.
  split; [reflexivity|]. split; [exact Hpos|]. split; [unfold Rdiv; lra|]. split.
  - intros ->. rewrite Rmult_0_r, Rmult_0_r, sqrt_0. unfold Rdiv. lra.
  - intros Hg. pose proof (first_sqrt_positive _ Hg) as Hs.
    unfold Rdiv at 3. rewrite Rmult_1_l.
    apply Rinv_lt_contravar; [|lra].
    apply Rmult_lt_0_compat; lra.
Qed.

Lemma psgld_first_velocity_witness :
  aligned [[1]] [[0]]
  /\ elem (CustomPreconditionedSGLD.velocities 1 [[1]]
             (CustomPreconditionedSGLD.init [[0]])) 0 0
     = 1 / (sqrt ((1 - 95 / 100) * (elem [[1]] 0 0 * elem [[1]] 0 0))
            + 1 / 100000000).
Proof.
  split.
  - reflexivity.
  - refine (proj1 (proj2 (proj2
      (psgld_first_velocity 1 [[1]] [[0]] 0 0 _ _ _)))).
    + reflexivity.
    + simpl; lia.
    + simpl; lia.
Defined.

(** C2 as stated fails: with the gradient [1] on one scalar variable, the
    velocity of the first call is not [1 / (0 + 1e-8)]. *)
Lemma psgld_first_velocity_counterexample :
  CustomPreconditionedSGLD.velocities 1 [[1]]
    (CustomPreconditionedSGLD.init [[0]])
  <> [[1 / (0 + 1 / 100000000)]].
Proof.
  intros Heq.
  assert (He : elem (CustomPreconditionedSGLD.velocities 1 [[1]]
                       (CustomPreconditionedSGLD.init [[0]])) 0 0
               = 1 / (0 + 1 / 100000000)) by now rewrite Heq.
  rewrite (first_velocity_entry 1 [[1]] [[0]] 0 0) in He;
    [|reflexivity|simpl; lia|simpl; lia].
  change (elem [[1]] 0 0) with 1 in He.
  pose proof (first_sqrt_positive 1 ltac:(lra)) as Hs.
  assert (Hlt : / (sqrt ((1 - 95 / 100) * (1 * 1)) + 1 / 100000000)
                < / (0 + 1 / 100000000)).
  { apply Rinv_lt_contravar; [|lra]. apply Rmult_lt_0_compat; lra. }
  unfold Rdiv in He at 3. lra.
Qed.

(** ** Step bookkeeping *)

Lemma consecutive_S (a : Z) (n : nat) :
  consecutive a (S n) = a :: consecutive (a + 1) n.
Proof.
  unfold consecutive. simpl. f_equal.
  - lia.
  - rewrite <- seq_shift, map_map. apply map_ext. intros i. lia.
Qed.

Lemma consecutive_app (a : Z) (n m : nat) :
  consecutive a (n + m) = consecutive a n ++ consecutive (a + Z.of_nat n) m.
Proof.
  revert a; induction n as [|n IH]; intros a.
  - simpl. f_equal. lia.
  - change (S n + m)%nat with (S (n + m)). rewrite !consecutive_S, IH. simpl.
    do 3 f_equal. lia.
Qed.

Lemma consecutive_nth (a : Z) (n i : nat) (d : Z) :
  (i < n)%nat -> nth i (consecutive a n) d = (a + Z.of_nat i)%Z.
Proof. intros Hi. unfold consecutive. now rewrite nth_map_seq. Qed.

Lemma py_range_unit (a b : Z) :
  py_range a b 1 = Ok (consecutive a (Z.to_nat (b - a))).
Proof.
  unfold py_range, consecutive. simpl.
  replace ((b - a + 1 - 1) / 1)%Z with (b - a)%Z by (rewrite Z.div_1_r; lia).
  f_equal. apply map_ext. intros i. lia.
Qed.

Section Bookkeeping.
Context `{JR : JaxRandom} `{EX : @External JR}.

Lemma inner_steps_spec (self : Experiment) (big_step : Z) :
  inner_steps self big_step
  = map (loop_body self)
      (consecutive (big_step + 1) (Z.to_nat (eval_every_n_steps (FLAGS self)))).
Proof.
  unfold inner_steps. rewrite py_range_unit. do 3 f_equal. lia.
Qed.

Lemma flat_map_inner_steps (self : Experiment) (start : Z) (n : nat) :
  (0 < eval_every_n_steps (FLAGS self))%Z ->
  flat_map (inner_steps self)
    (map (fun i => start + Z.of_nat i * eval_every_n_steps (FLAGS self))%Z (seq 0 n))
  = map (loop_body self)
      (consecutive (start + 1)
         (n * Z.to_nat (eval_every_n_steps (FLAGS self)))).
Proof.
  intros He. revert start; induction n as [|n IH]; intros start; auto.
  simpl. rewrite <- seq_shift, map_map.
  rewrite (map_ext _ (fun i => (start + eval_every_n_steps (FLAGS self))
                               + Z.of_nat i * eval_every_n_steps (FLAGS self))%Z)
    by (intros i; lia).
  rewrite IH, inner_steps_spec, consecutive_app, map_app.
  f_equal; f_equal; f_equal; lia.
Qed.

(** The virtual steps of a run are numbered consecutively from
    [start_step + 1], and each carries what the loop body computes from
    its number. *)
Lemma virtual_steps_spec (self : Experiment) (start : Z) (steps : list VirtualStep) :
  virtual_steps self start = Ok steps ->
  steps = map (loop_body self) (consecutive (start + 1) (length steps)).
Proof.
  unfold virtual_steps, py_range.
  destruct (eval_every_n_steps (FLAGS self) =? 0)%Z eqn:H0; [discriminate|].
  apply Z.eqb_neq in H0. intros Hs. injection Hs as Hs.
  destruct (eval_every_n_steps (FLAGS self) >? 0)%Z eqn:Hpos.
  - assert (He : (0 < eval_every_n_steps (FLAGS self))%Z) by lia.
    rewrite flat_map_inner_steps in Hs by exact He.
    rewrite <- Hs at 2. rewrite length_map. unfold consecutive at 2.
    rewrite length_map, length_seq. exact (eq_sym Hs).
  - assert (Hnil : forall l, flat_map (inner_steps self) l = []).
    { intros l. induction l as [|b l IH]; simpl; auto.
      rewrite IH, inner_steps_spec.
      replace (Z.to_nat (eval_every_n_steps (FLAGS self))) with O by lia.
      reflexivity. }
    rewrite Hnil in Hs. now subst.
Qed.

Lemma virtual_steps_nth (self : Experiment) (start : Z)
    (steps : list VirtualStep) (i : nat) :
  virtual_steps self start = Ok steps -> (i < length steps)%nat ->
  nth i steps (loop_body self 0) = loop_body self (start + 1 + Z.of_nat i).
Proof.
  intros Hs Hi. rewrite (virtual_steps_spec _ _ _ Hs) at 1.
  rewrite (map_nth (loop_body self)). now rewrite consecutive_nth.
Qed.

End Bookkeeping.

(** C5.  In a run resumed at [start_step] (zero for a fresh run, which
    numbers the virtual steps from one) with [grad_acc_steps >= 1], the
    [i]-th virtual step has number [s = start_step + 1 + i], and the
    [apply_updates] flag passed for it is true exactly when
    [s mod grad_acc_steps = 0]. *)
Theorem apply_updates_iff_multiple `{JR : JaxRandom} `{EX : @External JR}
    (self : Experiment) (start_step : Z) (steps : list VirtualStep) (i : nat) :
  (1 <= grad_acc_steps (FLAGS self))%Z ->
  virtual_steps self start_step = Ok steps ->
  (i < length steps)%nat ->
  cur_step (nth i steps (loop_body self 0)) = (start_step + 1 + Z.of_nat i)%Z
  /\ (apply_updates (nth i steps (loop_body self 0)) = true
      <-> ((start_step + 1 + Z.of_nat i) mod grad_acc_steps (FLAGS self) = 0)%Z).
Proof.
  intros _ Hs Hi. rewrite (virtual_steps_nth self start_step steps i Hs Hi).
  simpl. split; [reflexivity|]. apply Z.eqb_eq.
Qed.

Lemma py_int_floor (x : R) (z : Z) :
  0 <= x -> IZR z <= x < IZR z + 1 -> py_int x = z.
Proof.
  intros Hx [Hlo Hhi]. unfold py_int. destruct (Rle_dec 0 x); [|contradiction].
  unfold Int_part. rewrite <- (tech_up x (z + 1)).
  - lia.
  - rewrite plus_IZR. lra.
  - rewrite plus_IZR. lra.
Qed.

Lemma small_virtual_steps :
  virtual_steps Fixture.small 0
  = Ok (map (loop_body Fixture.small) [1; 2; 3; 4]%Z).
Proof.
  unfold virtual_steps, total_train_steps, steps_per_epoch. simpl.
  rewrite (py_int_floor _ 4); [reflexivity|lra|lra].
Qed.

Lemma apply_updates_iff_multiple_witness :
  (1 <= grad_acc_steps (FLAGS Fixture.small))%Z
  /\ virtual_steps Fixture.small 0
     = Ok (map (loop_body Fixture.small) [1; 2; 3; 4]%Z)
  /\ (1 < length (map (loop_body Fixture.small) [1; 2; 3; 4]%Z))%nat
  /\ (apply_updates
        (nth 1 (map (loop_body Fixture.small) [1; 2; 3; 4]%Z)
           (loop_body Fixture.small 0)) = true
      <-> ((0 + 1 + Z.of_nat 1) mod grad_acc_steps (FLAGS Fixture.small) = 0)%Z).
Proof.
  split; [simpl; lia|]. split; [exact small_virtual_steps|].
  split; [simpl; lia|].
  refine (proj2 (apply_updates_iff_multiple Fixture.small 0
                   (map (loop_body Fixture.small) [1; 2; 3; 4]%Z) 1 _ _ _)).
  - simpl; lia.
  - exact small_virtual_steps.
  - simpl; lia.
Defined.

(** ** The fractional epoch *)

Lemma next_update_step_rounded_up (s k : Z) :
  (1 <= k)%Z -> rounded_up s k ((s + k - 1) / k * k).
Proof.
  intros Hk. unfold rounded_up. split.
  - now exists ((s + k - 1) / k)%Z.
  - pose proof (Z.div_mod (s + k - 1) k ltac:(lia)) as Hdm.
    pose proof (Z.mod_pos_bound (s + k - 1) k ltac:(lia)) as Hm.
    lia.
Qed.

Lemma rounded_up_unique (s k m m' : Z) :
  (1 <= k)%Z -> rounded_up s k m -> rounded_up s k m' -> m = m'.
Proof.
  intros Hk [[q ->] Hq] [[q' ->] Hq'].
  assert (q = q') by nia. now subst.
Qed.

Section Epoch.
Context `{JR : JaxRandom} `{EX : @External JR}.

Lemma cur_epoch_mono (self : Experiment) (s s' : Z) :
  (1 <= grad_acc_steps (FLAGS self))%Z -> 0 < steps_per_epoch self ->
  (s <= s')%Z ->
  cur_epoch (loop_body self s) <= cur_epoch (loop_body self s').
Proof.
  intros Hk Hspe Hs. simpl. unfold Rdiv.
  apply Rmult_le_compat_r.
  - left. now apply Rinv_0_lt_compat.
  - apply IZR_le. apply Z.mul_le_mono_nonneg_r; [lia|].
    apply Z.div_le_mono; lia.
Qed.

Lemma next_update_step_of_cycle (self : Experiment) (j r : Z) :
  (1 <= r <= grad_acc_steps (FLAGS self))%Z ->
  next_update_step (loop_body self (j * grad_acc_steps (FLAGS self) + r))
  = ((j + 1) * grad_acc_steps (FLAGS self))%Z.
Proof.
  intros Hr. simpl.
  apply (rounded_up_unique (j * grad_acc_steps (FLAGS self) + r)
           (grad_acc_steps (FLAGS self))); [lia| |].
  - apply next_update_step_rounded_up. lia.
  - split; [now exists (j + 1)%Z|lia].
Qed.

End Epoch.

(** C6.  With [grad_acc_steps = k >= 1] and a positive number of steps per
    epoch, the fractional epoch computed for virtual step [s] is the
    multiple of [k] that [s] rounds up to, divided by [steps_per_epoch];
    it is the same, [(j + 1) * k / steps_per_epoch], for the [k] virtual
    steps [j * k + 1 .. j * k + k] of one accumulated update; and it does
    not decrease when [s] grows. *)
Theorem fractional_epoch_of_update_step `{JR : JaxRandom} `{EX : @External JR}
    (self : Experiment) (s : Z) :
  (1 <= grad_acc_steps (FLAGS self))%Z ->
  0 < steps_per_epoch self ->
  rounded_up s (grad_acc_steps (FLAGS self)) (next_update_step (loop_body self s))
  /\ cur_epoch (loop_body self s)
     = IZR (next_update_step (loop_body self s)) / steps_per_epoch self
  /\ (forall j r, (1 <= r <= grad_acc_steps (FLAGS self))%Z ->
        cur_epoch (loop_body self (j * grad_acc_steps (FLAGS self) + r))
        = IZR ((j + 1) * grad_acc_steps (FLAGS self)) / steps_per_epoch self)
  /\ (forall s', (s <= s')%Z ->
        cur_epoch (loop_body self s) <= cur_epoch (loop_body self s')).
Proof.
  intros Hk Hspe. split; [|split; [|split]].
  - simpl. now apply next_update_step_rounded_up.
  - reflexivity.
  - intros j r Hr.
    pose proof (next_update_step_of_cycle self j r Hr) as Hn.
    simpl in *. now rewrite Hn.
  - intros s' Hs. now apply cur_epoch_mono.
Qed.

Lemma fractional_epoch_of_update_step_witness :
  (1 <= grad_acc_steps (FLAGS Fixture.small))%Z
  /\ 0 < steps_per_epoch Fixture.small
  /\ cur_epoch (loop_body Fixture.small 3)
     = IZR (next_update_step (loop_body Fixture.small 3))
       / steps_per_epoch Fixture.small.
Proof.
  assert (Hspe : 0 < steps_per_epoch Fixture.small).
  { unfold steps_per_epoch. simpl. lra. }
  split; [simpl; lia|]. split; [exact Hspe|].
  refine (proj1 (proj2
    (fractional_epoch_of_update_step Fixture.small 3 _ Hspe))).
  simpl; lia.
Defined.

(** ** The learning-rate schedule *)

Section Schedule.
Context `{JR : JaxRandom} `{EX : @External JR}.

Lemma learning_rate_fixed (self : Experiment) (epoch : R) :
  lr_schedule (FLAGS self) = "fixed"%string ->
  learning_rate self epoch
  = Ok (self_base_learning_rate self
        * lr_multiplier_fixed (self_lr_warmup_epochs self)
            (Rmin epoch (self_num_train_epochs self))).
Proof. intros Hs. unfold learning_rate. now rewrite Hs. Qed.

Lemma learning_rate_cos (self : Experiment) (epoch : R) :
  lr_schedule (FLAGS self) = "cos"%string ->
  learning_rate self epoch
  = Ok (self_base_learning_rate self
        * lr_multiplier_cos (self_num_train_epochs self)
            (self_lr_warmup_epochs self)
            (Rmin epoch (self_num_train_epochs self))).
Proof. intros Hs. unfold learning_rate. now rewrite Hs. Qed.

Lemma multiplier_fixed_at_zero (w : R) : 0 < w -> lr_multiplier_fixed w 0 = 0.
Proof.
  intros Hw. unfold lr_multiplier_fixed.
  destruct (Rlt_dec 0 w); [unfold Rdiv; lra|contradiction].
Qed.

Lemma multiplier_fixed_at_warmup (w : R) : lr_multiplier_fixed w w = 1.
Proof.
  unfold lr_multiplier_fixed. destruct (Rlt_dec w w); [lra|reflexivity].
Qed.

Lemma multiplier_cos_at_zero (t w : R) : 0 < w -> lr_multiplier_cos t w 0 = 0.
Proof.
  intros Hw. unfold lr_multiplier_cos.
  destruct (Rlt_dec 0 w); [unfold Rdiv; lra|contradiction].
Qed.

Lemma multiplier_cos_at_warmup (t w : R) : w < t -> lr_multiplier_cos t w w = 1.
Proof.
  intros Hw. unfold lr_multiplier_cos. destruct (Rlt_dec w w); [lra|].
  replace (PI * (w - w) / (t - w)) with 0 by (field; lra).
  rewrite cos_0. lra.
Qed.

Lemma multiplier_cos_at_end (t w : R) : w < t -> lr_multiplier_cos t w t = 0.
Proof.
  intros Hw. unfold lr_multiplier_cos. destruct (Rlt_dec t w); [lra|].
  replace (PI * (t - w) / (t - w)) with PI by (field; lra).
  rewrite cos_PI. lra.
Qed.

End Schedule.

(** C8, as amended.  For the [cos] and the [fixed] schedule with a positive
    [lr_warmup_epochs]: the rate at epoch zero is zero whenever
    [num_train_epochs] is at least zero; the rate at [lr_warmup_epochs] is
    the base rate whenever [lr_warmup_epochs <= num_train_epochs] and,
    for [cos], [lr_warmup_epochs < num_train_epochs]; for [cos] the rate
    at [num_train_epochs] is zero whenever
    [lr_warmup_epochs < num_train_epochs] or [num_train_epochs] is zero. *)
Theorem schedule_continuity `{JR : JaxRandom} `{EX : @External JR}
    (self : Experiment) :
  0 < self_lr_warmup_epochs self ->
  lr_schedule (FLAGS self) = "fixed"%string
  \/ lr_schedule (FLAGS self) = "cos"%string ->
  (0 <= self_num_train_epochs self -> learning_rate self 0 = Ok 0)
  /\ (self_lr_warmup_epochs self <= self_num_train_epochs self ->
      (lr_schedule (FLAGS self) = "cos"%string ->
       self_lr_warmup_epochs self < self_num_train_epochs self) ->
      learning_rate self (self_lr_warmup_epochs self)
      = Ok (self_base_learning_rate self))
  /\ (lr_schedule (FLAGS self) = "cos"%string ->
      self_lr_warmup_epochs self < self_num_train_epochs self
      \/ self_num_train_epochs self = 0 ->
      learning_rate self (self_num_train_epochs self) = Ok 0).
Proof.
  intros Hw [Hs|Hs].
  - split; [|split].
    + intros Ht. rewrite (learning_rate_fixed self _ Hs).
      rewrite (Rmin_left 0) by exact Ht.
      rewrite multiplier_fixed_at_zero by exact Hw. f_equal; lra.
    + intros Hle _. rewrite (learning_rate_fixed self _ Hs).
      rewrite (Rmin_left _ _ Hle), multiplier_fixed_at_warmup. f_equal; lra.
    + intros Hc. rewrite Hs in Hc. discriminate.
  - split; [|split].
    + intros Ht. rewrite (learning_rate_cos self _ Hs).
      rewrite (Rmin_left 0) by exact Ht.
      rewrite multiplier_cos_at_zero by exact Hw. f_equal; lra.
    + intros Hle Hlt. specialize (Hlt Hs).
      rewrite (learning_rate_cos self _ Hs).
      rewrite (Rmin_left _ _ Hle).
      rewrite multiplier_cos_at_warmup by exact Hlt. f_equal; lra.
    + intros _ [Hlt|H0]; rewrite (learning_rate_cos self _ Hs);
        rewrite (Rmin_left (self_num_train_epochs self)) by lra.
      * rewrite multiplier_cos_at_end by exact Hlt. f_equal; lra.
      * rewrite H0. rewrite multiplier_cos_at_zero by exact Hw. f_equal; lra.
Qed.

Lemma schedule_continuity_witness :
  0 < self_lr_warmup_epochs Fixture.small
  /\ (lr_schedule (FLAGS Fixture.small) = "fixed"%string
      \/ lr_schedule (FLAGS Fixture.small) = "cos"%string)
  /\ learning_rate Fixture.small 0 = Ok 0
  /\ learning_rate Fixture.small (self_lr_warmup_epochs Fixture.small)
     = Ok (self_base_learning_rate Fixture.small)
  /\ learning_rate Fixture.small (self_num_train_epochs Fixture.small) = Ok 0.
Proof.
  assert (Hw : 0 < self_lr_warmup_epochs Fixture.small) by (simpl; lra).
  assert (Hs : lr_schedule (FLAGS Fixture.small) = "fixed"%string
               \/ lr_schedule (FLAGS Fixture.small) = "cos"%string)
    by (right; reflexivity).
  assert (Ht : 0 <= self_num_train_epochs Fixture.small) by (simpl; lra).
  assert (Hle : self_lr_warmup_epochs Fixture.small
                <= self_num_train_epochs Fixture.small) by (simpl; lra).
  assert (Hlt : self_lr_warmup_epochs Fixture.small
                < self_num_train_epochs Fixture.small) by (simpl; lra).
  split; [exact Hw|]. split; [exact Hs|].
  split; [exact (proj1 (schedule_continuity Fixture.small Hw Hs) Ht)|].
  split; [exact (proj1 (proj2 (schedule_continuity Fixture.small Hw Hs))
                   Hle (fun _ => Hlt))|].
  exact (proj2 (proj2 (schedule_continuity Fixture.small Hw Hs))
           eq_refl (or_introl Hlt)).
Defined.

Lemma short_fixed_rate :
  learning_rate Fixture.short (self_lr_warmup_epochs Fixture.short)
  = Ok (self_base_learning_rate Fixture.short * (1 / 2)).
Proof.
  rewrite learning_rate_fixed by reflexivity. simpl.
  rewrite Rmin_right by lra. unfold lr_multiplier_fixed.
  destruct (Rlt_dec 1 2); [reflexivity|lra].
Qed.

Lemma short_cos_rate (epoch : R) :
  1 <= epoch ->
  learning_rate Fixture.short_cos epoch
  = Ok (self_base_learning_rate Fixture.short_cos * (1 / 2)).
Proof.
  intros He. rewrite learning_rate_cos by reflexivity. simpl.
  rewrite Rmin_right by exact He. unfold lr_multiplier_cos.
  destruct (Rlt_dec 1 2); [reflexivity|lra].
Qed.

(** C8 as stated fails when the run is shorter than the warmup.  With two
    warmup epochs and a run of one epoch: for [fixed] the rate at
    [lr_warmup_epochs] is half the base rate; for [cos] the rate at
    [lr_warmup_epochs] and the rate at [num_train_epochs] are both half
    the base rate, neither the base rate nor zero. *)
Lemma schedule_continuity_counterexample :
  (0 < self_lr_warmup_epochs Fixture.short
   /\ lr_schedule (FLAGS Fixture.short) = "fixed"%string
   /\ learning_rate Fixture.short (self_lr_warmup_epochs Fixture.short)
      = Ok (self_base_learning_rate Fixture.short * (1 / 2))
   /\ learning_rate Fixture.short (self_lr_warmup_epochs Fixture.short)
      <> Ok (self_base_learning_rate Fixture.short))
  /\ (0 < self_lr_warmup_epochs Fixture.short_cos
      /\ lr_schedule (FLAGS Fixture.short_cos) = "cos"%string
      /\ learning_rate Fixture.short_cos (self_lr_warmup_epochs Fixture.short_cos)
         <> Ok (self_base_learning_rate Fixture.short_cos)
      /\ learning_rate Fixture.short_cos (self_num_train_epochs Fixture.short_cos)
         <> Ok 0).
Proof.
  split.
  - split; [simpl; lra|]. split; [reflexivity|]. split; [exact short_fixed_rate|].
    rewrite short_fixed_rate. simpl. intros Heq. injection Heq as Heq. lra.
  - split; [simpl; lra|]. split; [reflexivity|]. split.
    + rewrite short_cos_rate by (simpl; lra). simpl.
      intros Heq. injection Heq as Heq. lra.
    + rewrite short_cos_rate by (simpl; lra). simpl.
      intros Heq. injection Heq as Heq. lra.
Qed.

(** The rate at epoch zero is not zero when [num_train_epochs] is
    negative: the clamp replaces the epoch by [num_train_epochs]. *)
Lemma rate_at_zero_of_negative_run :
  0 < self_lr_warmup_epochs Fixture.negative
  /\ learning_rate Fixture.negative 0
     = Ok (self_base_learning_rate Fixture.negative * (-1 / 1))
  /\ learning_rate Fixture.negative 0 <> Ok 0.
Proof.
  assert (Hr : learning_rate Fixture.negative 0
               = Ok (self_base_learning_rate Fixture.negative * (-1 / 1))).
  { rewrite learning_rate_fixed by reflexivity. simpl.
    rewrite Rmin_right by lra. unfold lr_multiplier_fixed.
    destruct (Rlt_dec (-1) 1); [reflexivity|lra]. }
  split; [simpl; lra|]. split; [exact Hr|].
  rewrite Hr. simpl. intros Heq. injection Heq as Heq. lra.
Qed.

(** ** Construction and the schedule name *)

Section Construction.
Context `{JR : JaxRandom} `{EX : @External JR}.

Lemma Experiment_init_FLAGS (F : Flags) (gen : Key) (e : Experiment) :
  Experiment_init F gen = Ok e -> FLAGS e = F.
Proof.
  unfold Experiment_init, bind.
  destruct (construct_logit_clip_fn _); [|discriminate].
  destruct (get_train_dataset_split _); [|discriminate].
  destruct (get_eval_dataset_split _); [|discriminate].
  destruct (make_model _) as [mk|]; [|discriminate].
  destruct (zoo _ _ _) as [layers gen'].
  destruct (choose_optimizer _ _); [|discriminate].
  destruct (wrap_optimizer _ _); [|discriminate].
  intros He. injection He as <-. reflexivity.
Qed.

(** The constructor does not read [--lr_schedule]. *)
Lemma Experiment_init_ignores_schedule (F : Flags) (gen : Key) (name : string) :
  Experiment_init (with_lr_schedule F name) gen
  = match Experiment_init F gen with
    | Ok e => Ok (set_FLAGS e (with_lr_schedule F name))
    | Raise err => Raise err
    end.
Proof.
  unfold Experiment_init, bind. simpl.
  destruct (construct_logit_clip_fn _); [|reflexivity].
  destruct (get_train_dataset_split _); [|reflexivity].
  destruct (get_eval_dataset_split _); [|reflexivity].
  destruct (make_model _) as [mk|]; [|reflexivity].
  destruct (zoo _ _ _) as [layers gen'].
  destruct (choose_optimizer _ _); [|reflexivity].
  destruct (wrap_optimizer _ _); reflexivity.
Qed.

Lemma learning_rate_unsupported (self : Experiment) (epoch : R) :
  lr_schedule (FLAGS self) <> "cos"%string ->
  lr_schedule (FLAGS self) <> "fixed"%string ->
  learning_rate self epoch
  = Raise (ValueError ("Unsupported LR schedule: " ++ lr_schedule (FLAGS self))).
Proof.
  intros Hc Hf. unfold learning_rate.
  apply String.eqb_neq in Hc. apply String.eqb_neq in Hf.
  now rewrite Hc, Hf.
Qed.

Lemma train_op_unsupported (self : Experiment) (grads : list Tensor)
    (epoch : R) (apply : bool) :
  lr_schedule (FLAGS self) <> "cos"%string ->
  lr_schedule (FLAGS self) <> "fixed"%string ->
  train_op self grads epoch apply
  = Raised (ValueError ("Unsupported LR schedule: " ++ lr_schedule (FLAGS self)))
      self.
Proof.
  intros Hc Hf. unfold train_op.
  now rewrite learning_rate_unsupported by assumption.
Qed.

End Construction.

(** C3, as amended.  For a schedule name other than [cos] and [fixed] the
    constructor behaves as it does for any other name: it returns whenever
    it returns for the flags that differ in the name only, and raises the
    same error otherwise.  On the experiment it returns, every rate
    computation raises [ValueError], and so the first training step
    raises it and leaves the experiment, its optimiser included, as it
    was. *)
Theorem unsupported_schedule_raises_at_first_rate
    `{JR : JaxRandom} `{EX : @External JR}
    (F : Flags) (gen : Key) (name : string) :
  name <> "cos"%string -> name <> "fixed"%string ->
  Experiment_init (with_lr_schedule F name) gen
  = match Experiment_init F gen with
    | Ok e => Ok (set_FLAGS e (with_lr_schedule F name))
    | Raise err => Raise err
    end
  /\ forall e, Experiment_init (with_lr_schedule F name) gen = Ok e ->
       (forall epoch,
          learning_rate e epoch
          = Raise (ValueError ("Unsupported LR schedule: " ++ name)))
       /\ (forall grads_of s steps,
             run_steps grads_of (s :: steps) e
             = Raised (ValueError ("Unsupported LR schedule: " ++ name)) e).
Proof.
  intros Hc Hf. split; [apply Experiment_init_ignores_schedule|].
  intros e He. apply Experiment_init_FLAGS in He.
  assert (Hn : lr_schedule (FLAGS e) = name) by now rewrite He.
  split.
  - intros epoch. rewrite learning_rate_unsupported; rewrite Hn; auto.
  - intros grads_of s steps. simpl.
    rewrite train_op_unsupported; rewrite Hn; auto.
Qed.

Lemma unsupported_schedule_raises_at_first_rate_witness :
  "linear"%string <> "cos"%string /\ "linear"%string <> "fixed"%string
  /\ Experiment_init (with_lr_schedule Fixture.flags "linear") (key 0)
     = match Experiment_init Fixture.flags (key 0) with
       | Ok e => Ok (set_FLAGS e (with_lr_schedule Fixture.flags "linear"))
       | Raise err => Raise err
       end.
Proof.
  split; [discriminate|]. split; [discriminate|].
  refine (proj1 (unsupported_schedule_raises_at_first_rate
                   Fixture.flags (key 0) "linear" _ _)); discriminate.
Defined.

(** C3 as stated fails: with [--lr_schedule=linear] and the other flags at
    their defaults the constructor returns an experiment, and the error is
    raised by the first rate computation. *)
Lemma unsupported_schedule_counterexample :
  exists e,
    main_construct (with_lr_schedule Fixture.flags "linear") 0 = Ok e
    /\ lr_schedule (FLAGS e) = "linear"%string
    /\ learning_rate e 0 = Raise (ValueError "Unsupported LR schedule: linear").
Proof.
  eexists. split; [reflexivity|]. split; reflexivity.
Qed.

(** ** The noise stream of the Langevin optimisers *)

Lemma map2_length_eq (f : R -> R -> R) (x y : Tensor) (n : nat) :
  length x = n -> length y = n -> length (jn.map2 f x y) = n.
Proof. intros Hx Hy. rewrite map2_length; congruence. Qed.

Section Stream.
Context `{JR : JaxRandom}.

Lemma draws_shapes (p1 p2 : list Tensor) (k : Key) :
  shapes p1 = shapes p2 -> draws p1 k = draws p2 k.
Proof.
  revert p2 k; induction p1 as [|a p1 IH]; intros [|b p2] k Hs; simpl in *;
    try discriminate; auto.
  injection Hs as Hab Hs. rewrite Hab. do 2 f_equal. now apply IH.
Qed.

Lemma sgld_update_shapes (s : R) (grads params : list Tensor) (k : Key)
    (tr : list RngEvent) :
  aligned grads params ->
  shapes (fst (fst (CustomSGLD.update s grads params k tr))) = shapes params.
Proof.
  unfold aligned. revert grads k tr; induction params as [|p params IH];
    intros [|g grads] k tr Hal; simpl in *; try discriminate; auto.
  injection Hal as Hg Hal.
  destruct (split k) as [new_key subkey].
  specialize (IH grads new_key
                (tr ++ [EvSplit k; EvNormal subkey (shape p)]) Hal).
  destruct (CustomSGLD.update s grads params new_key _) as [[ps k'] tr'].
  simpl in *. f_equal; auto.
  apply sgld_new_value_shape; auto. apply normal_shape.
Qed.

Lemma psgld_new_value_shape (s : R) (g p noise v : Tensor) :
  length g = length p -> length noise = length p -> length v = length p ->
  shape (CustomPreconditionedSGLD.new_value s g p noise v) = shape p.
Proof.
  intros Hg Hn Hv.
  unfold shape, CustomPreconditionedSGLD.new_value, jn.sub, jn.add, jn.mul.
  apply map2_length_eq; auto.
  apply map2_length_eq; apply map2_length_eq; auto;
    unfold jn.scale, jn.lscale, jn.sqrt; now rewrite ?length_map.
Qed.

Lemma velocity_length (l : R) (m : Tensor) :
  length (CustomPreconditionedSGLD.velocity l m) = length m.
Proof.
  unfold CustomPreconditionedSGLD.velocity, jn.reciprocal, jn.adds, jn.sqrt.
  now rewrite !length_map.
Qed.

(** The loop of [CustomPreconditionedSGLD.__call__] on aligned gradients:
    shapes are kept, and the stream is used as by [CustomSGLD]. *)
Lemma psgld_update_spec (a l s : R) (grads params moms : list Tensor)
    (k : Key) (tr : list RngEvent) :
  aligned grads params -> shapes moms = shapes params ->
  shapes (fst (fst (fst (fst
     (CustomPreconditionedSGLD.update a l s grads params moms k tr)))))
    = shapes params
  /\ shapes (snd (fst (fst (fst
       (CustomPreconditionedSGLD.update a l s grads params moms k tr)))))
     = shapes params
  /\ snd (fst (fst (CustomPreconditionedSGLD.update a l s grads params moms k tr)))
     = advance (length params) k
  /\ snd (fst (CustomPreconditionedSGLD.update a l s grads params moms k tr))
     = tr ++ draws params k.
Proof.
  unfold aligned. revert grads moms k tr; induction params as [|p params IH];
    intros [|g grads] [|m moms] k tr Hg Hm; simpl in *; try discriminate.
  - repeat split; auto using app_nil_r.
  - injection Hg as Hg0 Hg. injection Hm as Hm0 Hm. unfold shape in Hg0, Hm0.
    destruct (split k) as [new_key subkey] eqn:Hs.
    specialize (IH grads moms new_key
                  (tr ++ [EvSplit k; EvNormal subkey (shape p)]) Hg Hm).
    destruct (CustomPreconditionedSGLD.update a l s grads params moms new_key _)
      as [[[[ps ms] k'] tr'] vs].
    simpl in *. destruct IH as (H1 & H2 & H3 & H4).
    assert (Hml : length (CustomPreconditionedSGLD.new_momentum a m g) = length p).
    { rewrite new_momentum_length; congruence. }
    repeat split.
    + f_equal; auto. apply psgld_new_value_shape; auto.
      * apply normal_shape.
      * now rewrite velocity_length.
    + f_equal; auto.
    + exact H3.
    + rewrite H4, <- app_assoc. reflexivity.
Qed.

End Stream.

Section Seed.
Context `{JR : JaxRandom} `{EX : @External JR}.

Lemma shapes_concat (ls : list (list Tensor)) :
  shapes (concat ls) = concat (map shapes ls).
Proof. unfold shapes. apply concat_map. Qed.

Lemma map_skipn {A B : Type} (f : A -> B) (n : nat) (l : list A) :
  map f (skipn n l) = skipn n (map f l).
Proof.
  revert l; induction n as [|n IH]; intros [|a l]; simpl; auto.
Qed.

(** One call of a Langevin optimiser on aligned gradients returns, keeps
    the shapes, and records one split and one draw per variable. *)
Lemma base_call_stream (lr : R) (grads : list Tensor) (o : BaseOptimizer) :
  langevin o -> aligned grads (base_train_vars o) ->
  exists k, base_rng o = Some k
  /\ returned (base_call lr grads o) = true
  /\ langevin (final_state (base_call lr grads o))
  /\ shapes (base_train_vars (final_state (base_call lr grads o)))
     = shapes (base_train_vars o)
  /\ base_rng (final_state (base_call lr grads o))
     = Some (advance (length (base_train_vars o)) k)
  /\ base_trace (final_state (base_call lr grads o))
     = base_trace o ++ draws (base_train_vars o) k.
Proof.
  destruct o as [kind st|o|o]; simpl; intros Hinv Hal; [contradiction| |].
  - destruct o as [params k tr]. simpl in *. exists k.
    unfold CustomSGLD.call. simpl. rewrite (aligned_length _ _ Hal). simpl.
    pose proof (sgld_update_shapes lr grads params k tr Hal) as Hsh.
    destruct (sgld_update_spec lr grads params k tr (shapes_length _ _ Hal))
      as (_ & H2 & H3 & _).
    destruct (CustomSGLD.update lr grads params k tr) as [[ps k'] tr'].
    simpl in *. subst. repeat split; auto.
  - destruct o as [params a l moms k tr]. simpl in *. exists k.
    unfold CustomPreconditionedSGLD.call. simpl.
    rewrite (aligned_length _ _ Hal). simpl.
    destruct (psgld_update_spec a l lr grads params moms k tr Hal Hinv)
      as (H1 & H2 & H3 & H4).
    destruct (CustomPreconditionedSGLD.update a l lr grads params moms k tr)
      as [[[[ps ms] k'] tr'] vs].
    simpl in *. subst. repeat split; auto. congruence.
Qed.

(** Two Langevin optimisers with one key, one trace and variables of the
    same shapes, fed any aligned gradients, record the same trace. *)
Lemma base_feed_stream (cs1 cs2 : list (R * list Tensor))
    (o1 o2 : BaseOptimizer) :
  langevin o1 -> langevin o2 ->
  base_rng o1 = base_rng o2 -> base_trace o1 = base_trace o2 ->
  shapes (base_train_vars o1) = shapes (base_train_vars o2) ->
  Forall2 (fun c1 c2 => aligned (snd c1) (base_train_vars o1)
                        /\ aligned (snd c2) (base_train_vars o2)) cs1 cs2 ->
  returned (base_feed cs1 o1) = true
  /\ returned (base_feed cs2 o2) = true
  /\ base_trace (final_state (base_feed cs1 o1))
     = base_trace (final_state (base_feed cs2 o2)).
Proof.
  intros H1 H2 Hk Ht Hs Hcs. revert o1 o2 H1 H2 Hk Ht Hs Hcs.
  revert cs2; induction cs1 as [|[lr1 g1] cs1 IH];
    intros cs2 o1 o2 H1 H2 Hk Ht Hs Hcs;
    inversion Hcs as [|? [lr2 g2] ? ? [Ha1 Ha2] Hcs']; subst; simpl in *.
  - auto.
  - destruct (base_call_stream lr1 g1 o1 H1 Ha1)
      as (k1 & Hk1 & Hr1 & Hl1 & Hs1 & Hn1 & Ht1).
    destruct (base_call_stream lr2 g2 o2 H2 Ha2)
      as (k2 & Hk2 & Hr2 & Hl2 & Hs2 & Hn2 & Ht2).
    assert (k1 = k2) by congruence. subst k2.
    destruct (base_call lr1 g1 o1) as [o1'|]; [|discriminate].
    destruct (base_call lr2 g2 o2) as [o2'|]; [|discriminate].
    simpl in *. apply IH; auto.
    + rewrite Hn1, Hn2. do 2 f_equal. now apply shapes_length.
    + rewrite Ht1, Ht2, Ht. f_equal. now apply draws_shapes.
    + congruence.
    + eapply Forall2_impl; [|exact Hcs']. unfold aligned.
      intros c1 c2 [Hc1 Hc2]. split; congruence.
Qed.

(** What the constructor builds for [--optimizer=sgld] or [psgld]: the
    key 42, whatever key the generator was seeded with. *)
Lemma Experiment_init_langevin (F : Flags) (gen : Key) (e : Experiment) :
  optimizer F = "sgld"%string \/ optimizer F = "psgld"%string ->
  Experiment_init F gen = Ok e ->
  langevin (built_optimizer e)
  /\ base_rng (built_optimizer e) = Some (key 42)
  /\ base_trace (built_optimizer e) = []
  /\ exists model_name,
       make_model (model F) = Ok model_name
       /\ base_train_vars (built_optimizer e)
          = if (num_layers_to_freeze F >? 0)%Z
            then concat (skipn (Z.to_nat (num_layers_to_freeze F))
                           (fst (zoo (snd model_name)
                                   (num_classes (train_split e)) gen)))
            else concat (fst (zoo (snd model_name)
                                (num_classes (train_split e)) gen)).
Proof.
  intros Hopt. unfold Experiment_init, bind.
  destruct (construct_logit_clip_fn _); [|discriminate].
  destruct (get_train_dataset_split _) as [ts|]; [|discriminate].
  destruct (get_eval_dataset_split _); [|discriminate].
  destruct (make_model _) as [mk|]; [|discriminate].
  destruct (zoo _ _ _) as [layers gen'] eqn:Hz.
  assert (Hch : exists o,
            choose_optimizer (optimizer F)
              (if (num_layers_to_freeze F >? 0)%Z
               then concat (skipn (Z.to_nat (num_layers_to_freeze F)) layers)
               else concat layers) = Ok o
            /\ langevin o /\ base_rng o = Some (key 42) /\ base_trace o = []
            /\ base_train_vars o
               = (if (num_layers_to_freeze F >? 0)%Z
                  then concat (skipn (Z.to_nat (num_layers_to_freeze F)) layers)
                  else concat layers)).
  { unfold choose_optimizer. destruct Hopt as [-> | ->]; simpl.
    - eexists; repeat split.
    - eexists; repeat split. simpl. apply shapes_zeros_like. }
  destruct Hch as (o & -> & Hl & Hk & Ht & Hv).
  unfold wrap_optimizer.
  destruct (grad_acc_steps F >? 1)%Z.
  - intros He. injection He as <-. unfold built_optimizer. simpl.
    split; [exact Hl|]. split; [exact Hk|]. split; [exact Ht|].
    exists mk. split; [reflexivity|]. now rewrite Hz.
  - destruct (negb _); [discriminate|].
    intros He. injection He as <-. unfold built_optimizer. simpl.
    split; [exact Hl|]. split; [exact Hk|]. split; [exact Ht|].
    exists mk. split; [reflexivity|]. now rewrite Hz.
Qed.

Lemma Experiment_init_train_split (F : Flags) (gen : Key) (e : Experiment) :
  Experiment_init F gen = Ok e ->
  get_train_dataset_split (dataset F) = Ok (train_split e).
Proof.
  unfold Experiment_init, bind.
  destruct (construct_logit_clip_fn _); [|discriminate].
  destruct (get_train_dataset_split _) as [ts|]; [|discriminate].
  destruct (get_eval_dataset_split _); [|discriminate].
  destruct (make_model _) as [mk|]; [|discriminate].
  destruct (zoo _ _ _) as [layers gen'].
  destruct (choose_optimizer _ _); [|discriminate].
  destruct (wrap_optimizer _ _); [|discriminate].
  intros He. injection He as <-. reflexivity.
Qed.

End Seed.

(** C10.  Two runs whose flags differ in [--rnd_seed] only, with the SGLD
    or the preconditioned SGLD optimiser: both optimisers start from the
    key 42, and over any two sequences of calls of equal length with
    aligned gradients (the gradients may differ between the runs) they
    draw the same sequence of noise tensors. *)
Theorem langevin_noise_independent_of_seed `{JR : JaxRandom} `{EX : @External JR}
    (F : Flags) (seed1 seed2 entropy : Z) (e1 e2 : Experiment)
    (cs1 cs2 : list (R * list Tensor)) :
  optimizer F = "sgld"%string \/ optimizer F = "psgld"%string ->
  main_construct (with_rnd_seed F seed1) entropy = Ok e1 ->
  main_construct (with_rnd_seed F seed2) entropy = Ok e2 ->
  Forall2 (fun c1 c2 =>
             aligned (snd c1) (base_train_vars (built_optimizer e1))
             /\ aligned (snd c2) (base_train_vars (built_optimizer e2)))
    cs1 cs2 ->
  base_rng (built_optimizer e1) = Some (key 42)
  /\ base_rng (built_optimizer e2) = Some (key 42)
  /\ returned (base_feed cs1 (built_optimizer e1)) = true
  /\ returned (base_feed cs2 (built_optimizer e2)) = true
  /\ noises (base_trace (final_state (base_feed cs1 (built_optimizer e1))))
     = noises (base_trace (final_state (base_feed cs2 (built_optimizer e2)))).
Proof.
  unfold main_construct, main_seed. simpl. intros Hopt He1 He2 Hcs.
  destruct (Experiment_init_langevin (with_rnd_seed F seed1) _ _ Hopt He1)
    as (Hl1 & Hk1 & Ht1 & mk1 & Hm1 & Hv1).
  destruct (Experiment_init_langevin (with_rnd_seed F seed2) _ _ Hopt He2)
    as (Hl2 & Hk2 & Ht2 & mk2 & Hm2 & Hv2).
  simpl in *.
  assert (mk1 = mk2) by congruence. subst mk2.
  pose proof (Experiment_init_train_split _ _ _ He1) as Hs1.
  pose proof (Experiment_init_train_split _ _ _ He2) as Hs2.
  simpl in *.
  assert (Hts : train_split e1 = train_split e2) by congruence.
  assert (Hsh : shapes (base_train_vars (built_optimizer e1))
                = shapes (base_train_vars (built_optimizer e2))).
  { rewrite Hv1, Hv2, Hts.
    pose proof (zoo_shapes (snd mk1) (num_classes (train_split e2))
                  (key seed1) (key seed2)) as Hz.
    destruct (num_layers_to_freeze F >? 0)%Z.
    - rewrite !shapes_concat, !map_skipn. now rewrite Hz.
    - rewrite !shapes_concat. now rewrite Hz. }
  destruct (base_feed_stream cs1 cs2 _ _ Hl1 Hl2
              ltac:(congruence) ltac:(congruence) Hsh Hcs) as (Hr1 & Hr2 & Htr).
  repeat split; auto. now rewrite Htr.
Qed.

Lemma langevin_noise_independent_of_seed_witness :
  (optimizer Fixture.small_flags = "sgld"%string
   \/ optimizer Fixture.small_flags = "psgld"%string)
  /\ main_construct (with_rnd_seed Fixture.small_flags 1) 0
     = Ok (Fixture.seeded 1)
  /\ main_construct (with_rnd_seed Fixture.small_flags 2) 0
     = Ok (Fixture.seeded 2)
  /\ noises (base_trace (final_state
       (base_feed [(1, [[1]])] (built_optimizer (Fixture.seeded 1)))))
     = noises (base_trace (final_state
       (base_feed [(1, [[5]])] (built_optimizer (Fixture.seeded 2))))).
Proof.
  split; [left; reflexivity|]. split; [reflexivity|]. split; [reflexivity|].
  refine (proj2 (proj2 (proj2 (proj2
    (langevin_noise_independent_of_seed Fixture.small_flags 1 2 0
       (Fixture.seeded 1) (Fixture.seeded 2)
       [(1, [[1]])] [(1, [[5]])] _ _ _ _))))).
  - left; reflexivity.
  - reflexivity.
  - reflexivity.
  - constructor; [|constructor]. split; reflexivity.
Defined.

(** ** What a checkpoint holds *)

(** C9.  The collection handed to [checkpoint.save] is the same whatever
    the stream key of the Langevin optimiser is: the key is an attribute
    that is not a variable, and [vars()] does not collect it. *)
Theorem checkpoint_omits_optimizer_rng `{JR : JaxRandom} `{EX : @External JR}
    (self : Experiment) (k : Key) (tr : list RngEvent) :
  all_vars (set_optimizer self (exp_with_rng k tr (self_optimizer self)))
  = all_vars self.
Proof.
  unfold all_vars. destruct self as [F n b lr sv w t c ts es mk fz opt g].
  simpl. destruct opt as [o|[sc o acc]]; destruct o as [kind st|o|o];
    reflexivity.
Qed.

(** After one SGLD update the stream key has moved on from the key 42,
    and the collection to save is the one of the same experiment with the
    key put back to 42. *)
Lemma checkpoint_after_first_update :
  base_rng (final_state (base_call 1 [[1]] (OSGLD (CustomSGLD.init [[0]]))))
    = Some (fst (split (key 42)))
  /\ fst (split (key 42)) <> key 42
  /\ all_vars (set_optimizer Fixture.short
                 (Direct (final_state
                    (base_call 1 [[1]] (OSGLD (CustomSGLD.init [[0]]))))))
     = all_vars (set_optimizer Fixture.short
                   (Direct (with_rng (key 42) []
                      (final_state
                         (base_call 1 [[1]] (OSGLD (CustomSGLD.init [[0]]))))))).
Proof.
  split; [reflexivity|]. split; [discriminate|reflexivity].
Qed.

(** * Further properties of the code *)

(** ** The wrapper beyond one cycle *)

Section WrapperMore.
Context {O : Type} `{OP : Optimizer O}.

Lemma accumulate_length (s : R) (g acc : list Tensor) :
  length (GA.accumulate s g acc) = length acc.
Proof.
  revert acc; induction g as [|x g IH]; intros [|a acc]; simpl; auto.
Qed.

Lemma call_wrong_count (lr : R) (g : list Tensor) (ap : bool) (w : GA.t O) :
  length g <> length (train_vars (GA.optimizer w)) ->
  GA.call lr g ap w
  = Raised (AssertionError "Expecting as many gradients as trainable variables") w.
Proof.
  intros Hl. unfold GA.call. apply Nat.eqb_neq in Hl. now rewrite Hl.
Qed.

End WrapperMore.

(** X1.  Calls with [apply_updates] false, each with gradients aligned
    with the variables, all return; they leave the wrapped optimiser as
    it was, without calling it, and add to every buffer entry [scaler]
    times the sum of the gradient entries. *)
Theorem accumulation_leaves_optimizer {O : Type} `{Optimizer O}
    (pre : list (R * list Tensor)) (w : GA.t (Spy O)) :
  shapes (GA.accum w) = shapes (train_vars (GA.optimizer w)) ->
  Forall (fun g => aligned g (train_vars (GA.optimizer w))) (map snd pre) ->
  returned (GA.feed (accumulating pre) w) = true
  /\ GA.optimizer (final_state (GA.feed (accumulating pre) w)) = GA.optimizer w
  /\ GA.scaler (final_state (GA.feed (accumulating pre) w)) = GA.scaler w
  /\ shapes (GA.accum (final_state (GA.feed (accumulating pre) w)))
     = shapes (GA.accum w)
  /\ forall i j,
       elem (GA.accum (final_state (GA.feed (accumulating pre) w))) i j
       = elem (GA.accum w) i j + sum_elem (map snd pre) i j * GA.scaler w.
Proof.
  intros Hsh Hal. unfold accumulating. rewrite feed_no_apply by exact Hal.
  assert (Hal' : Forall (fun g => aligned g (GA.accum w)) (map snd pre)).
  { eapply Forall_impl; [|exact Hal]. intros g Hg. unfold aligned in *.
    congruence. }
  simpl. repeat split.
  - now apply accumulated_shapes.
  - intros i j. now apply accumulated_elem.
Qed.

Lemma accumulation_leaves_optimizer_witness :
  shapes (GA.accum (GA.mk (1 / 2) (mkSpy [[4; 4]] []) [[3; 3]]))
    = shapes (train_vars (GA.optimizer (GA.mk (1 / 2) (mkSpy [[4; 4]] []) [[3; 3]])))
  /\ Forall (fun g => aligned g
               (train_vars (GA.optimizer (GA.mk (1 / 2) (mkSpy [[4; 4]] []) [[3; 3]]))))
       (map snd [(1, [[1; 2]]); (1, [[5; 6]])])
  /\ GA.optimizer (final_state
       (GA.feed (accumulating [(1, [[1; 2]]); (1, [[5; 6]])])
          (GA.mk (1 / 2) (mkSpy [[4; 4]] []) [[3; 3]])))
     = mkSpy [[4; 4]] [].
Proof.
  split; [reflexivity|]. split; [repeat constructor|].
  refine (proj1 (proj2
    (accumulation_leaves_optimizer [(1, [[1; 2]]); (1, [[5; 6]])]
       (GA.mk (1 / 2) (mkSpy [[4; 4]] []) [[3; 3]]) _ _))).
  - reflexivity.
  - repeat constructor.
Defined.

(** X2.  After a cycle that returned, the buffers are zero, and a second
    cycle of as many calls on the same wrapper again hands the wrapped
    optimiser the mean of its own gradients only: nothing of the first
    cycle is left in the buffers. *)
Theorem successive_cycles_independent {O : Type} `{Optimizer O} (opt : O)
    (pre1 pre2 : list (R * list Tensor)) (last1 last2 : R * list Tensor) :
  Forall (fun g => aligned g (train_vars opt)) (cycle_gradients pre1 last1) ->
  returned (run_cycle opt pre1 last1) = true ->
  shapes (train_vars (GA.optimizer (final_state (run_cycle opt pre1 last1))))
    = shapes (train_vars opt) ->
  length pre2 = length pre1 ->
  Forall (fun g => aligned g (train_vars opt)) (cycle_gradients pre2 last2) ->
  all_zero (GA.accum (final_state (run_cycle opt pre1 last1)))
  /\ GA.feed (cycle pre2 last2) (final_state (run_cycle opt pre1 last1))
     = match opt_call (fst last2)
               (mean_grads (shapes (train_vars opt)) (cycle_gradients pre2 last2))
               (GA.optimizer (final_state (run_cycle opt pre1 last1))) with
       | Returned o =>
           Returned (GA.mk (1 / INR (length (cycle_gradients pre2 last2))) o
             (map jn.zeros_like
                (mean_grads (shapes (train_vars opt)) (cycle_gradients pre2 last2))))
       | Raised e o =>
           Raised e (GA.mk (1 / INR (length (cycle_gradients pre2 last2))) o
             (mean_grads (shapes (train_vars opt)) (cycle_gradients pre2 last2)))
       end.
Proof.
  intros Hal1 Hret Hsh Hlen Hal2.
  assert (Hk : length (cycle_gradients pre2 last2)
               = length (cycle_gradients pre1 last1)).
  { unfold cycle_gradients. rewrite !length_app, !length_map. simpl. lia. }
  rewrite (run_cycle_mean opt pre1 last1 Hal1) in *.
  destruct (opt_call (fst last1) _ opt) as [o1|e o1]; [|discriminate].
  simpl in *. split; [apply all_zero_zeros_like|].
  rewrite feed_cycle; simpl.
  - rewrite <- Hk.
    assert (Hm : accumulated (1 / INR (length (cycle_gradients pre2 last2)))
                   (cycle_gradients pre2 last2)
                   (map jn.zeros_like
                      (mean_grads (shapes (train_vars opt))
                         (cycle_gradients pre1 last1)))
                 = mean_grads (shapes (train_vars opt)) (cycle_gradients pre2 last2)).
    { rewrite accumulated_mean.
      - now rewrite mean_grads_shapes.
      - eapply Forall_impl; [|exact Hal2]. intros g Hg. unfold aligned in *.
        now rewrite mean_grads_shapes. }
    now rewrite Hm.
  - eapply Forall_impl; [|exact Hal2]. intros g Hg. unfold aligned in *.
    congruence.
Qed.

Lemma successive_cycles_independent_witness :
  Forall (fun g => aligned g (train_vars [[4; 4]]))
    (cycle_gradients [(1, [[1; 2]])] (1, [[3; 6]]))
  /\ returned (run_cycle [[4; 4]] [(1, [[1; 2]])] (1, [[3; 6]])) = true
  /\ all_zero (GA.accum
       (final_state (run_cycle [[4; 4]] [(1, [[1; 2]])] (1, [[3; 6]])))).
Proof.
  assert (Hal : Forall (fun g => aligned g (train_vars [[4; 4]]))
                  (cycle_gradients [(1, [[1; 2]])] (1, [[3; 6]])))
    by repeat constructor.
  assert (Hrun : run_cycle [[4; 4]] [(1, [[1; 2]])] (1, [[3; 6]])
                 = Returned (GA.mk (1 / INR 2)
                     (Fixture.descent 1
                        (mean_grads [2%nat] [[[1; 2]]; [[3; 6]]]) [[4; 4]])
                     (map jn.zeros_like
                        (mean_grads [2%nat] [[[1; 2]]; [[3; 6]]]))))
    by exact (run_cycle_mean [[4; 4]] [(1, [[1; 2]])] (1, [[3; 6]]) Hal).
  split; [exact Hal|]. split; [now rewrite Hrun|].
  refine (proj1 (successive_cycles_independent [[4; 4]]
            [(1, [[1; 2]])] [(1, [[7; 8]])] (1, [[3; 6]]) (1, [[9; 9]])
            Hal _ _ _ _)).
  - now rewrite Hrun.
  - rewrite Hrun. reflexivity.
  - reflexivity.
  - repeat constructor.
Defined.

(** ** The Langevin optimisers: counts, the preconditioned rule, bounds *)

Section LangevinMore.
Context `{JR : JaxRandom}.

Lemma psgld_update_nth (a l s : R) (grads params moms : list Tensor)
    (k : Key) (tr : list RngEvent) :
  length grads = length params -> length moms = length params ->
  length (fst (fst (fst (fst
     (CustomPreconditionedSGLD.update a l s grads params moms k tr)))))
    = length params
  /\ length (snd (fst (fst (fst
       (CustomPreconditionedSGLD.update a l s grads params moms k tr)))))
     = length params
  /\ forall i, (i < length params)%nat ->
       nth i (fst (fst (fst (fst
         (CustomPreconditionedSGLD.update a l s grads params moms k tr))))) []
       = CustomPreconditionedSGLD.new_value s (nth i grads []) (nth i params [])
           (normal (subkey_at i k) (shape (nth i params [])))
           (CustomPreconditionedSGLD.velocity l
              (CustomPreconditionedSGLD.new_momentum a
                 (nth i moms []) (nth i grads [])))
       /\ nth i (snd (fst (fst (fst
            (CustomPreconditionedSGLD.update a l s grads params moms k tr))))) []
          = CustomPreconditionedSGLD.new_momentum a (nth i moms []) (nth i grads []).
Proof.
  revert grads moms k tr; induction params as [|p params IH];
    intros [|g grads] [|m moms] k tr Hg Hm; simpl in *; try discriminate.
  - split; [reflexivity|]. split; [reflexivity|]. intros i Hi; lia.
  - injection Hg as Hg. injection Hm as Hm.
    destruct (split k) as [new_key subkey] eqn:Hs.
    specialize (IH grads moms new_key
                  (tr ++ [EvSplit k; EvNormal subkey (shape p)]) Hg Hm).
    destruct (CustomPreconditionedSGLD.update a l s grads params moms new_key _)
      as [[[[ps ms] k'] tr'] vs].
    simpl in *. destruct IH as (H1 & H2 & H3).
    split; [now rewrite H1|]. split; [now rewrite H2|].
    intros [|i] Hi.
    + unfold subkey_at. simpl. now rewrite Hs.
    + destruct (H3 i ltac:(lia)) as [Hp Hmm]. rewrite Hp, Hmm.
      unfold subkey_at. simpl. now rewrite Hs.
Qed.

Lemma psgld_new_value_nth (s : R) (g p noise v : Tensor) (j : nat) :
  length g = length p -> length noise = length p -> length v = length p ->
  (j < length p)%nat ->
  nth j (CustomPreconditionedSGLD.new_value s g p noise v) 0
  = nth j p 0
    - (TRAIN_SIZE * nth j v 0 * s * nth j g 0
       + nth j noise 0 * sqrt (2 * s * nth j v 0)).
Proof.
  intros Hg Hn Hv Hj.
  unfold CustomPreconditionedSGLD.new_value, jn.sub, jn.add, jn.mul.
  assert (L1 : length (jn.scale (jn.lscale TRAIN_SIZE v) s) = length p).
  { unfold jn.scale, jn.lscale. now rewrite !length_map. }
  assert (L2 : length (jn.sqrt (jn.lscale (2 * s) v)) = length p).
  { unfold jn.sqrt, jn.lscale. now rewrite !length_map. }
  assert (L3 : length (jn.map2 Rmult (jn.scale (jn.lscale TRAIN_SIZE v) s) g)
               = length p) by (apply map2_length_eq; auto).
  assert (L4 : length (jn.map2 Rmult noise (jn.sqrt (jn.lscale (2 * s) v)))
               = length p) by (apply map2_length_eq; auto).
  rewrite map2_nth; [|rewrite (map2_length_eq _ _ _ (length p)); auto|lra].
  rewrite map2_nth by (congruence || lra).
  rewrite !map2_nth by (congruence || lra).
  rewrite scale_nth, lscale_nth.
  unfold jn.sqrt. rewrite map_nth_in
    by (unfold jn.lscale; rewrite length_map; lia).
  now rewrite lscale_nth.
Qed.

End LangevinMore.

Section PreconditionedRule.
Context `{JR : JaxRandom}.

Lemma shapes_nth_length (a b : list Tensor) (i : nat) :
  shapes a = shapes b -> length (nth i a []) = length (nth i b []).
Proof.
  intros Hs. pose proof (shapes_nth a i) as Ha. pose proof (shapes_nth b i) as Hb.
  rewrite Hs in Ha. unfold shape in *. congruence.
Qed.

(** One call of [CustomPreconditionedSGLD], entry by entry. *)
Lemma psgld_call_entries (s : R) (grads : list Tensor)
    (self : CustomPreconditionedSGLD.t) :
  aligned grads (CustomPreconditionedSGLD.train_vars self) ->
  shapes (CustomPreconditionedSGLD.momentum_vars self)
    = shapes (CustomPreconditionedSGLD.train_vars self) ->
  exists self',
    CustomPreconditionedSGLD.call s grads self = Returned self'
    /\ shapes (CustomPreconditionedSGLD.train_vars self')
       = shapes (CustomPreconditionedSGLD.train_vars self)
    /\ shapes (CustomPreconditionedSGLD.momentum_vars self')
       = shapes (CustomPreconditionedSGLD.train_vars self)
    /\ CustomPreconditionedSGLD.alpha self' = CustomPreconditionedSGLD.alpha self
    /\ CustomPreconditionedSGLD.lambda_small self'
       = CustomPreconditionedSGLD.lambda_small self
    /\ CustomPreconditionedSGLD.rng self'
       = advance (length (CustomPreconditionedSGLD.train_vars self))
           (CustomPreconditionedSGLD.rng self)
    /\ CustomPreconditionedSGLD.trace self'
       = CustomPreconditionedSGLD.trace self
         ++ draws (CustomPreconditionedSGLD.train_vars self)
              (CustomPreconditionedSGLD.rng self)
    /\ forall i j,
         (i < length (CustomPreconditionedSGLD.train_vars self))%nat ->
         (j < shape (nth i (CustomPreconditionedSGLD.train_vars self) []))%nat ->
         elem (CustomPreconditionedSGLD.momentum_vars self') i j
         = CustomPreconditionedSGLD.alpha self
             * elem (CustomPreconditionedSGLD.momentum_vars self) i j
           + (1 - CustomPreconditionedSGLD.alpha self)
             * (elem grads i j * elem grads i j)
         /\ elem (CustomPreconditionedSGLD.velocities s grads self) i j
            = / (sqrt (elem (CustomPreconditionedSGLD.momentum_vars self') i j)
                 + CustomPreconditionedSGLD.lambda_small self)
         /\ elem (CustomPreconditionedSGLD.train_vars self') i j
            = elem (CustomPreconditionedSGLD.train_vars self) i j
              - (TRAIN_SIZE
                   * elem (CustomPreconditionedSGLD.velocities s grads self) i j
                   * s * elem grads i j
                 + elem (noises (draws (CustomPreconditionedSGLD.train_vars self)
                                   (CustomPreconditionedSGLD.rng self))) i j
                   * sqrt (2 * s
                           * elem (CustomPreconditionedSGLD.velocities s grads self)
                               i j)).
Proof.
  destruct self as [params a l moms k tr]. simpl. intros Hal Hm.
  pose proof (shapes_length _ _ Hal) as Hlg.
  pose proof (shapes_length _ _ Hm) as Hlm.
  unfold CustomPreconditionedSGLD.call, CustomPreconditionedSGLD.velocities.
  simpl. rewrite (aligned_length _ _ Hal). simpl.
  destruct (psgld_update_spec a l s grads params moms k tr Hal Hm)
    as (S1 & S2 & S3 & S4).
  destruct (psgld_update_nth a l s grads params moms k tr Hlg Hlm)
    as (_ & _ & N3).
  pose proof (psgld_velocities_spec a l s grads params moms k tr Hlg Hlm) as V.
  destruct (draws_noises params k) as [_ Hn].
  destruct (CustomPreconditionedSGLD.update a l s grads params moms k tr)
    as [[[[ps ms] k'] tr'] vs].
  simpl in *. eexists. split; [reflexivity|]. simpl.
  repeat (split; [assumption || reflexivity|]).
  intros i j Hi Hj. destruct (N3 i Hi) as [Np Nm].
  pose proof (shapes_nth_length _ _ i Hal) as Lg.
  pose proof (shapes_nth_length _ _ i Hm) as Lm.
  unfold shape in Hj.
  assert (Lmom : length (CustomPreconditionedSGLD.new_momentum a
                           (nth i moms []) (nth i grads [])) = length (nth i params [])).
  { rewrite new_momentum_length; congruence. }
  assert (E1 : elem ms i j
               = a * elem moms i j + (1 - a) * (elem grads i j * elem grads i j)).
  { unfold elem. rewrite Nm. apply new_momentum_nth. congruence. }
  assert (E2 : elem vs i j = / (sqrt (elem ms i j) + l)).
  { unfold elem. rewrite (V i Hi), Nm. apply velocity_nth. lia. }
  split; [exact E1|]. split; [exact E2|].
  unfold elem at 1. rewrite Np.
  rewrite psgld_new_value_nth; auto.
  - unfold elem. rewrite (V i Hi), (Hn i Hi). reflexivity.
  - apply normal_shape.
  - now rewrite velocity_length.
Qed.

End PreconditionedRule.

(** X3.  A call of the preconditioned SGLD optimiser with gradients
    aligned with its variables, on a state whose moving averages have the
    shapes of the variables, returns.  Entry by entry: the moving average
    becomes [alpha * m + (1 - alpha) * g * g]; the velocity is
    [1 / (sqrt m' + lambda_small)] of the new average [m']; the variable
    becomes [p - (1281167 * v * s * g + noise * sqrt (2 * s * v))] with
    the noise drawn as by SGLD, one split and one draw per variable in
    order.  [alpha] and [lambda_small] are not changed. *)
Theorem preconditioned_update_rule `{JR : JaxRandom} (s : R) (grads : list Tensor)
    (self : CustomPreconditionedSGLD.t) (i j : nat) :
  aligned grads (CustomPreconditionedSGLD.train_vars self) ->
  shapes (CustomPreconditionedSGLD.momentum_vars self)
    = shapes (CustomPreconditionedSGLD.train_vars self) ->
  (i < length (CustomPreconditionedSGLD.train_vars self))%nat ->
  (j < shape (nth i (CustomPreconditionedSGLD.train_vars self) []))%nat ->
  returned (CustomPreconditionedSGLD.call s grads self) = true
  /\ elem (CustomPreconditionedSGLD.momentum_vars
             (final_state (CustomPreconditionedSGLD.call s grads self))) i j
     = CustomPreconditionedSGLD.alpha self
         * elem (CustomPreconditionedSGLD.momentum_vars self) i j
       + (1 - CustomPreconditionedSGLD.alpha self)
         * (elem grads i j * elem grads i j)
  /\ elem (CustomPreconditionedSGLD.velocities s grads self) i j
     = / (sqrt (elem (CustomPreconditionedSGLD.momentum_vars
                        (final_state (CustomPreconditionedSGLD.call s grads self)))
                  i j)
          + CustomPreconditionedSGLD.lambda_small self)
  /\ elem (CustomPreconditionedSGLD.train_vars
             (final_state (CustomPreconditionedSGLD.call s grads self))) i j
     = elem (CustomPreconditionedSGLD.train_vars self) i j
       - (1281167 * elem (CustomPreconditionedSGLD.velocities s grads self) i j
            * s * elem grads i j
          + elem (noises (draws (CustomPreconditionedSGLD.train_vars self)
                            (CustomPreconditionedSGLD.rng self))) i j
            * sqrt (2 * s
                    * elem (CustomPreconditionedSGLD.velocities s grads self) i j))
  /\ CustomPreconditionedSGLD.trace
       (final_state (CustomPreconditionedSGLD.call s grads self))
     = CustomPreconditionedSGLD.trace self
       ++ draws (CustomPreconditionedSGLD.train_vars self)
            (CustomPreconditionedSGLD.rng self)
  /\ CustomPreconditionedSGLD.rng
       (final_state (CustomPreconditionedSGLD.call s grads self))
     = advance (length (CustomPreconditionedSGLD.train_vars self))
         (CustomPreconditionedSGLD.rng self)
  /\ CustomPreconditionedSGLD.alpha
       (final_state (CustomPreconditionedSGLD.call s grads self))
     = CustomPreconditionedSGLD.alpha self
  /\ CustomPreconditionedSGLD.lambda_small
       (final_state (CustomPreconditionedSGLD.call s grads self))
     = CustomPreconditionedSGLD.lambda_small self.
Proof.
  intros Hal Hm Hi Hj.
  destruct (psgld_call_entries s grads self Hal Hm)
    as (self' & -> & _ & _ & Ha & Hl & Hk & Ht & He).
  destruct (He i j Hi Hj) as (E1 & E2 & E3). simpl.
  repeat split; auto.
Qed.

Lemma preconditioned_update_rule_witness :
  aligned [[1]] (CustomPreconditionedSGLD.train_vars
                   (CustomPreconditionedSGLD.init [[0]]))
  /\ CustomPreconditionedSGLD.rng
       (final_state (CustomPreconditionedSGLD.call 2 [[1]]
                       (CustomPreconditionedSGLD.init [[0]])))
     = advance 1 (key 42).
Proof.
  split; [reflexivity|].
  refine (proj1 (proj2 (proj2 (proj2 (proj2 (proj2
    (preconditioned_update_rule 2 [[1]] (CustomPreconditionedSGLD.init [[0]]) 0 0
       _ _ _ _))))))).
  - reflexivity.
  - reflexivity.
  - simpl; lia.
  - simpl; lia.
Defined.

Lemma elem_of_nonneg (xs : list Tensor) (i j : nat) :
  nonneg xs -> 0 <= elem xs i j.
Proof.
  intros Hn. unfold elem.
  destruct (Nat.lt_ge_cases i (length xs)) as [Hi|Hi].
  - pose proof (proj1 (Forall_nth _ xs) Hn i [] Hi) as Hx. simpl in Hx.
    destruct (Nat.lt_ge_cases j (length (nth i xs []))) as [Hj|Hj].
    + exact (proj1 (Forall_nth _ _) Hx j 0 Hj).
    + rewrite nth_overflow by exact Hj. lra.
  - rewrite (nth_overflow xs) by exact Hi. destruct j; simpl; lra.
Qed.

Lemma nonneg_of_elem (xs : list Tensor) :
  (forall i j, 0 <= elem xs i j) -> nonneg xs.
Proof.
  intros He. apply Forall_forall. intros x Hx. apply Forall_forall. intros v Hv.
  destruct (In_nth xs x [] Hx) as (i & Hi & <-).
  destruct (In_nth _ v 0 Hv) as (j & Hj & <-).
  exact (He i j).
Qed.

Section PreconditionerBounds.
Context `{JR : JaxRandom}.

Lemma since_init_call (vc : list Tensor) (s : R) (g : list Tensor)
    (o : CustomPreconditionedSGLD.t) :
  since_init vc o -> aligned g vc ->
  (exists o', CustomPreconditionedSGLD.call s g o = Returned o'
              /\ since_init vc o')
  /\ forall i j, (i < length vc)%nat -> (j < shape (nth i vc []))%nat ->
       0 < elem (CustomPreconditionedSGLD.velocities s g o) i j <= 100000000.
Proof.
  intros (Ha & Hl & Hp & Hm & Hn) Hal.
  assert (Hal' : aligned g (CustomPreconditionedSGLD.train_vars o))
    by (unfold aligned in *; congruence).
  assert (Hm' : shapes (CustomPreconditionedSGLD.momentum_vars o)
                = shapes (CustomPreconditionedSGLD.train_vars o)) by congruence.
  destruct (psgld_call_entries s g o Hal' Hm')
    as (o' & Hc & S1 & S2 & A & L & _ & _ & He).
  assert (Hin : forall i j, (i < length vc)%nat -> (j < shape (nth i vc []))%nat ->
            (i < length (CustomPreconditionedSGLD.train_vars o))%nat
            /\ (j < shape (nth i (CustomPreconditionedSGLD.train_vars o) []))%nat).
  { intros i j Hi Hj. split.
    - now rewrite (shapes_length _ _ Hp).
    - unfold shape in *. now rewrite (shapes_nth_length _ _ i Hp). }
  assert (Hpos : forall i j, (i < length vc)%nat -> (j < shape (nth i vc []))%nat ->
            0 <= elem (CustomPreconditionedSGLD.momentum_vars o') i j).
  { intros i j Hi Hj. destruct (Hin i j Hi Hj) as [Hi' Hj'].
    destruct (He i j Hi' Hj') as (E1 & _ & _). rewrite E1, Ha.
    pose proof (elem_of_nonneg _ i j Hn).
    assert (0 <= elem g i j * elem g i j) by nra. nra. }
  split.
  - exists o'. split; [exact Hc|]. unfold since_init.
    repeat split; try congruence.
    apply nonneg_of_elem. intros i j.
    destruct (Nat.lt_ge_cases i (length vc)) as [Hi|Hi].
    + destruct (Nat.lt_ge_cases j (shape (nth i vc []))) as [Hj|Hj].
      * now apply Hpos.
      * rewrite elem_out_of_shape; [lra|]. right.
        rewrite <- shapes_nth, S2, Hp, shapes_nth. exact Hj.
    + rewrite elem_out_of_shape; [lra|]. left.
      rewrite (shapes_length _ _ S2), (shapes_length _ _ Hp). exact Hi.
  - intros i j Hi Hj. destruct (Hin i j Hi Hj) as [Hi' Hj'].
    destruct (He i j Hi' Hj') as (_ & E2 & _). rewrite E2, Hl.
    pose proof (Hpos i j Hi Hj) as H0.
    pose proof (sqrt_pos (elem (CustomPreconditionedSGLD.momentum_vars o') i j)) as Hs.
    split.
    + apply Rinv_0_lt_compat. lra.
    + replace 100000000 with (/ (1 / 100000000)) by (field).
      apply Rinv_le_contravar; lra.
Qed.

Lemma since_init_feed (vc : list Tensor) (cs : list (R * list Tensor))
    (o : CustomPreconditionedSGLD.t) :
  since_init vc o -> Forall (fun c => aligned (snd c) vc) cs ->
  exists o', feed_calls cs o = Returned o' /\ since_init vc o'.
Proof.
  revert o; induction cs as [|[lr g] cs IH]; intros o Hinv Hal; simpl.
  - now exists o.
  - inversion Hal as [|? ? Hg Hcs]; subst. simpl in Hg.
    destruct (since_init_call vc lr g o Hinv Hg) as [(o' & Hc & Hinv') _].
    rewrite Hc. now apply IH.
Qed.

End PreconditionerBounds.

(** X4.  After any number of calls since construction, each with
    gradients aligned with the variables, every moving average of the
    preconditioned optimiser is at least zero, and every velocity the
    next call computes is at least zero and at most [1e8]: the square
    root is never taken of a negative number, and the step is never
    scaled by more than [1 / lambda_small]. *)
Theorem psgld_preconditioner_bounded `{JR : JaxRandom} (vc : list Tensor)
    (cs : list (R * list Tensor)) (s : R) (g : list Tensor) (i j : nat) :
  Forall (fun c => aligned (snd c) vc) cs -> aligned g vc ->
  (i < length vc)%nat -> (j < shape (nth i vc []))%nat ->
  returned (feed_calls cs (CustomPreconditionedSGLD.init vc)) = true
  /\ nonneg (CustomPreconditionedSGLD.momentum_vars
               (final_state (feed_calls cs (CustomPreconditionedSGLD.init vc))))
  /\ 0 <= elem (CustomPreconditionedSGLD.velocities s g
                  (final_state (feed_calls cs (CustomPreconditionedSGLD.init vc))))
            i j
     <= 100000000.
Proof.
  intros Hcs Hg Hi Hj.
  assert (H0 : since_init vc (CustomPreconditionedSGLD.init vc)).
  { unfold since_init. simpl. repeat split; auto using shapes_zeros_like.
    apply nonneg_of_elem. intros a b. rewrite elem_zeros. lra. }
  destruct (since_init_feed vc cs _ H0 Hcs) as (o' & -> & Hinv). simpl.
  split; [reflexivity|]. split; [apply Hinv|].
  destruct (proj2 (since_init_call vc s g o' Hinv Hg) i j Hi Hj) as [Hlo Hhi].
  split; [lra|exact Hhi].
Qed.

Lemma psgld_preconditioner_bounded_witness :
  Forall (fun c => aligned (snd c) [[0; 0]]) [(1, [[1; 2]]); (1, [[3; 4]])]
  /\ aligned [[5; 6]] [[0; 0]]
  /\ returned (feed_calls [(1, [[1; 2]]); (1, [[3; 4]])]
                 (CustomPreconditionedSGLD.init [[0; 0]])) = true.
Proof.
  split; [repeat constructor|]. split; [reflexivity|].
  refine (proj1 (psgld_preconditioner_bounded [[0; 0]]
            [(1, [[1; 2]]); (1, [[3; 4]])] 1 [[5; 6]] 0 1 _ _ _ _)).
  - repeat constructor.
  - reflexivity.
  - simpl; lia.
  - simpl; lia.
Defined.

(** ** The wrapper around a Langevin optimiser *)

Section Guard.
Context `{JR : JaxRandom} `{EX : @External JR}.

Lemma base_call_wrong_count (lr : R) (g : list Tensor) (o : BaseOptimizer) :
  counted o -> length g <> length (base_train_vars o) ->
  base_call lr g o
  = Raised (AssertionError "Mismatch between gradients and variables") o.
Proof.
  destruct o as [kind st|o|o]; simpl; intros Hc Hl; [contradiction| |];
    apply Nat.eqb_neq in Hl.
  - unfold CustomSGLD.call. now rewrite Hl.
  - unfold CustomPreconditionedSGLD.call. now rewrite Hl.
Qed.

End Guard.

Section GuardShapes.
Context `{JR : JaxRandom} `{EX : @External JR}.

(** The wrapper around a Langevin optimiser whose variables and buffers
    have the shapes [shp], fed calls whose gradients have those shapes
    whenever they have that count. *)
Lemma feed_guarded (shp : list nat) (steps : list (R * list Tensor * bool))
    (w : GA.t BaseOptimizer) :
  langevin (GA.optimizer w) ->
  shapes (base_train_vars (GA.optimizer w)) = shp ->
  shapes (GA.accum w) = shp ->
  Forall (fun c => length (snd (fst c)) = length shp -> shapes (snd (fst c)) = shp)
    steps ->
  returns_or_rejects (GA.feed steps w).
Proof.
  revert w; induction steps as [|[[lr g] ap] steps IH];
    intros w Hl Htv Hacc Hst; simpl.
  - exact I.
  - inversion Hst as [|? ? Hg Hst']; subst. simpl in Hg.
    unfold GA.call. simpl.
    destruct (length g =? length (base_train_vars (GA.optimizer w)))%nat eqn:Hc;
      simpl; [|reflexivity].
    apply Nat.eqb_eq in Hc.
    assert (Hshg : shapes g = shapes (base_train_vars (GA.optimizer w))).
    { apply Hg. rewrite Hc. unfold shapes. now rewrite length_map. }
    assert (Hga : aligned g (GA.accum w)) by (unfold aligned; congruence).
    pose proof (accumulate_shapes (GA.scaler w) g (GA.accum w) Hga) as Hsa.
    destruct ap.
    + destruct (base_call_stream lr
                  (GA.accumulate (GA.scaler w) g (GA.accum w)) (GA.optimizer w) Hl)
        as (k & _ & Hr & Hl' & Hs' & _).
      { unfold aligned. congruence. }
      destruct (base_call lr _ (GA.optimizer w)) as [o'|err o'];
        [|discriminate].
      simpl in *.
      apply IH; simpl; auto; rewrite ?shapes_zeros_like; congruence.
    + apply IH; simpl; auto; congruence.
Qed.

End GuardShapes.

(** X5.  A wrapper around the SGLD or the preconditioned SGLD optimiser,
    with buffers and moving averages of the shapes of the variables (as
    after construction), fed calls whose gradients are aligned with the
    variables whenever they are as many as the variables: every call
    returns or raises the wrapper's own [AssertionError].  The count check
    of the wrapped optimiser is never the one that fails. *)
Theorem wrapper_guards_langevin `{JR : JaxRandom} `{EX : @External JR}
    (steps : list (R * list Tensor * bool)) (w : GA.t BaseOptimizer) :
  langevin (GA.optimizer w) ->
  shapes (GA.accum w) = shapes (base_train_vars (GA.optimizer w)) ->
  Forall (fun c =>
            length (snd (fst c)) = length (base_train_vars (GA.optimizer w)) ->
            aligned (snd (fst c)) (base_train_vars (GA.optimizer w)))
    steps ->
  returns_or_rejects (GA.feed steps w).
Proof.
  intros Hl Hacc Hst.
  apply (feed_guarded (shapes (base_train_vars (GA.optimizer w)))); auto.
  eapply Forall_impl; [|exact Hst]. intros c Hc Hlen. apply Hc.
  rewrite Hlen. unfold shapes. now rewrite length_map.
Qed.

Lemma wrapper_guards_langevin_witness :
  langevin (GA.optimizer (GA.init (OSGLD (CustomSGLD.init [[0]])) (1 / 2)))
  /\ shapes (GA.accum (GA.init (OSGLD (CustomSGLD.init [[0]])) (1 / 2)))
     = shapes (base_train_vars
                 (GA.optimizer (GA.init (OSGLD (CustomSGLD.init [[0]])) (1 / 2))))
  /\ returns_or_rejects
       (GA.feed [(1, [[1]], false); (1, [], true); (1, [[2]], true)]
          (GA.init (OSGLD (CustomSGLD.init [[0]])) (1 / 2))).
Proof.
  split; [exact I|]. split; [reflexivity|].
  refine (wrapper_guards_langevin
            [(1, [[1]], false); (1, [], true); (1, [[2]], true)]
            (GA.init (OSGLD (CustomSGLD.init [[0]])) (1 / 2)) _ _ _).
  - exact I.
  - reflexivity.
  - repeat constructor; simpl; intros H; (reflexivity || discriminate).
Defined.

(** X6.  Called with a number of gradients other than the number of its
    variables, the SGLD or the preconditioned SGLD optimiser raises
    [AssertionError] and is left exactly as it was: no variable, moving
    average or key has changed and no noise has been drawn. *)
Theorem langevin_rejects_wrong_count `{JR : JaxRandom} `{EX : @External JR}
    (lr : R) (g : list Tensor) (o : BaseOptimizer) :
  counted o -> length g <> length (base_train_vars o) ->
  base_call lr g o
    = Raised (AssertionError "Mismatch between gradients and variables") o
  /\ base_rng (final_state (base_call lr g o)) = base_rng o
  /\ base_trace (final_state (base_call lr g o)) = base_trace o.
Proof.
  intros Hc Hl. rewrite (base_call_wrong_count lr g o Hc Hl). simpl. auto.
Qed.

Lemma langevin_rejects_wrong_count_witness :
  counted (OPSGLD (CustomPreconditionedSGLD.init [[0]; [1]]))
  /\ length [[1]] <> length (base_train_vars
                               (OPSGLD (CustomPreconditionedSGLD.init [[0]; [1]])))
  /\ base_call 1 [[1]] (OPSGLD (CustomPreconditionedSGLD.init [[0]; [1]]))
     = Raised (AssertionError "Mismatch between gradients and variables")
         (OPSGLD (CustomPreconditionedSGLD.init [[0]; [1]])).
Proof.
  split; [reflexivity|]. split; [discriminate|].
  refine (proj1 (langevin_rejects_wrong_count 1 [[1]]
            (OPSGLD (CustomPreconditionedSGLD.init [[0]; [1]])) _ _)).
  - reflexivity.
  - discriminate.
Defined.

(** ** Names the constructor accepts *)

Lemma ascii_lower_idempotent (c : ascii) :
  ascii_lower (ascii_lower c) = ascii_lower c.
Proof.
  destruct c as [[] [] [] [] [] [] [] []]; reflexivity.
Qed.

Lemma lower_idempotent (s : string) : lower (lower s) = lower s.
Proof.
  induction s as [|c s IH]; simpl; auto.
  now rewrite ascii_lower_idempotent, IH.
Qed.

(** X7.  For a name of ASCII characters, on which [lower] is Python's
    [str.lower]: [make_model] decides on the lower-cased name alone.  A
    name and its lower-cased form give the same result; the five ResNet
    names are accepted in any mix of cases, and every other name raises
    [ValueError] with the lower-cased name in the message. *)
Theorem make_model_case_insensitive (name : string) :
  is_ascii name = true ->
  make_model (lower name) = make_model name
  /\ (In (lower name) MODEL_NAMES ->
      exists kind, make_model name = Ok (kind, lower name))
  /\ (~ In (lower name) MODEL_NAMES ->
      make_model name
      = Raise (ValueError ("Unsupported model type: " ++ lower name))).
Proof.
  intros _.
  split; [unfold make_model; now rewrite lower_idempotent|].
  unfold make_model, MODEL_NAMES. split.
  - intros Hin. simpl in Hin.
    destruct Hin as [<-|[<-|[<-|[<-|[<-|[]]]]]]; eexists; reflexivity.
  - intros Hnot. simpl in Hnot.
    destruct (String.eqb_spec (lower name) "resnet200");
      [exfalso; apply Hnot; intuition congruence|].
    destruct (String.eqb_spec (lower name) "resnet152");
      [exfalso; apply Hnot; intuition congruence|].
    destruct (String.eqb_spec (lower name) "resnet101");
      [exfalso; apply Hnot; intuition congruence|].
    destruct (String.eqb_spec (lower name) "resnet50");
      [exfalso; apply Hnot; intuition congruence|].
    destruct (String.eqb_spec (lower name) "resnet18");
      [exfalso; apply Hnot; intuition congruence|].
    reflexivity.
Qed.

Lemma make_model_case_insensitive_witness :
  is_ascii "ResNet18" = true
  /\ make_model (lower "ResNet18") = make_model "ResNet18"
  /\ (exists kind, make_model "ResNet18" = Ok (kind, lower "ResNet18")).
Proof.
  split; [reflexivity|].
  split; [exact (proj1 (make_model_case_insensitive "ResNet18" eq_refl))|].
  refine (proj1 (proj2 (make_model_case_insensitive "ResNet18" eq_refl)) _).
  simpl; tauto.
Defined.

(** X8.  [construct_logit_clip_fn] accepts exactly the names [none],
    [tanh], [sigmoid] and [blf], compared as written (no lower-casing),
    and raises [ValueError] for every other name. *)
Theorem logit_clip_names (clip : string) :
  (In clip CLIP_NAMES <-> exists c, construct_logit_clip_fn clip = Ok c)
  /\ (~ In clip CLIP_NAMES ->
      construct_logit_clip_fn clip
      = Raise (ValueError ("Unknown clip_fn " ++ clip)))
  /\ construct_logit_clip_fn "Tanh"
     = Raise (ValueError "Unknown clip_fn Tanh").
Proof.
  unfold construct_logit_clip_fn, CLIP_NAMES. simpl.
  destruct (String.eqb_spec clip "none");
    [subst; repeat split; eauto; tauto|].
  destruct (String.eqb_spec clip "tanh");
    [subst; repeat split; eauto; tauto|].
  destruct (String.eqb_spec clip "sigmoid");
    [subst; repeat split; eauto; tauto|].
  destruct (String.eqb_spec clip "blf");
    [subst; repeat split; eauto; tauto|].
  repeat split; auto.
  - intros [H|[H|[H|[H|[]]]]]; congruence.
  - intros [c Hc]. discriminate.
Qed.

(** ** The range of the clipped logits *)

Lemma sigmoid_range (x : R) : 0 < sigmoid x < 1.
Proof.
  unfold sigmoid. pose proof (exp_pos (- x)) as He.
  split.
  - apply Rdiv_lt_0_compat; lra.
  - apply (Rmult_lt_reg_r (1 + exp (- x))); [lra|].
    unfold Rdiv. rewrite Rmult_assoc, Rinv_l by lra. lra.
Qed.

Lemma sigmoid_eq (x : R) : sigmoid x * (1 + exp (- x)) = 1.
Proof.
  unfold sigmoid. pose proof (exp_pos (- x)). field. lra.
Qed.

Lemma x_exp_bound (y : R) : y * exp (- y) <= / exp 1.
Proof.
  pose proof (exp_ineq1_le (y - 1)) as H.
  pose proof (exp_pos (- y)) as Hp.
  replace (/ exp 1) with (exp (y - 1) * exp (- y)).
  - apply Rmult_le_compat_r; lra.
  - rewrite <- exp_plus, <- exp_Ropp. f_equal. lra.
Qed.

Lemma inv_e_lt_half : / exp 1 < 1 / 2.
Proof.
  pose proof (exp_ineq1 1 ltac:(lra)) as H.
  unfold Rdiv. rewrite Rmult_1_l.
  apply Rinv_lt_contravar; lra.
Qed.

Lemma blf_core_bound (x : R) :
  - (1 / 2) < x * sigmoid x - x * (sigmoid x * sigmoid x) < 1 / 2.
Proof.
  pose proof (sigmoid_range x) as [Hs0 Hs1].
  pose proof (sigmoid_eq x) as Hse.
  pose proof (exp_pos (- x)) as He.
  pose proof inv_e_lt_half as Hc.
  destruct (Rle_or_lt 0 x) as [Hx|Hx].
  - pose proof (x_exp_bound x) as Hb.
    assert (Heq : x * sigmoid x - x * (sigmoid x * sigmoid x)
                  = (x * exp (- x)) * (sigmoid x * sigmoid x)).
    { replace (x * sigmoid x - x * (sigmoid x * sigmoid x))
        with (x * sigmoid x * (1 - sigmoid x)) by ring.
      replace (1 - sigmoid x) with (sigmoid x * exp (- x)) by lra. ring. }
    rewrite Heq.
    assert (0 <= x * exp (- x)) by nra.
    assert (0 < sigmoid x * sigmoid x < 1) by nra.
    nra.
  - pose proof (x_exp_bound (- x)) as Hb. rewrite Ropp_involutive in Hb.
    pose proof (exp_pos x) as He'.
    assert (Hee : exp (- x) * exp x = 1).
    { rewrite <- exp_plus. replace (- x + x) with 0 by lra. apply exp_0. }
    assert (Hs : sigmoid x = exp x * (1 - sigmoid x)).
    { assert (sigmoid x * exp (- x) = 1 - sigmoid x) by lra.
      replace (1 - sigmoid x) with (sigmoid x * exp (- x)) by lra.
      rewrite (Rmult_comm (exp x)), Rmult_assoc, Hee. lra. }
    assert (Heq : x * sigmoid x - x * (sigmoid x * sigmoid x)
                  = - ((- x * exp x) * ((1 - sigmoid x) * (1 - sigmoid x)))).
    { replace (x * sigmoid x - x * (sigmoid x * sigmoid x))
        with (x * sigmoid x * (1 - sigmoid x)) by ring.
      rewrite Hs at 1. ring. }
    rewrite Heq.
    assert (0 <= - x * exp x) by nra.
    assert (0 < (1 - sigmoid x) * (1 - sigmoid x) < 1) by nra.
    nra.
Qed.

Lemma tanh_range (x : R) : -1 < tanh x < 1.
Proof.
  unfold tanh, sinh, cosh.
  pose proof (exp_pos x). pose proof (exp_pos (- x)).
  set (a := exp x) in *. set (b := exp (- x)) in *.
  replace ((a - b) / 2 / ((a + b) / 2)) with ((a - b) * / (a + b))
    by (field; lra).
  assert (Hi : 0 < / (a + b)) by (apply Rinv_0_lt_compat; lra).
  assert (Hone : (a + b) * / (a + b) = 1) by (apply Rinv_r; lra).
  split; nra.
Qed.

(** X9.  The clip functions bound the logits: [none] leaves a logit as it
    is, [tanh] maps it into [(-1, 1)], [sigmoid] into [(0, 2)] and [blf]
    into [(-2, 2)]. *)
Theorem logit_clip_ranges (x : R) :
  clip_fn ClipNone x = x
  /\ -1 < clip_fn ClipTanh x < 1
  /\ 0 < clip_fn ClipSigmoid x < 2
  /\ -2 < clip_fn ClipBlf x < 2.
Proof.
  pose proof (sigmoid_range x) as [Hs0 Hs1].
  pose proof (blf_core_bound x) as [Hb0 Hb1].
  simpl. split; [reflexivity|]. split; [apply tanh_range|].
  split; lra.
Qed.

(** ** When the constructor returns, and what it builds *)

Lemma clip_ok_iff (clip : string) :
  (exists c, construct_logit_clip_fn clip = Ok c) <-> In clip CLIP_NAMES.
Proof.
  unfold construct_logit_clip_fn, CLIP_NAMES. simpl.
  destruct (String.eqb_spec clip "none"); [subst; split; eauto|].
  destruct (String.eqb_spec clip "tanh"); [subst; split; eauto|].
  destruct (String.eqb_spec clip "sigmoid"); [subst; split; eauto|].
  destruct (String.eqb_spec clip "blf"); [subst; split; eauto 6|].
  split.
  - intros [c Hc]. discriminate.
  - intros [H|[H|[H|[H|[]]]]]; congruence.
Qed.

Lemma model_ok_iff (name : string) :
  (exists m, make_model name = Ok m) <-> In (lower name) MODEL_NAMES.
Proof.
  unfold make_model, MODEL_NAMES. simpl.
  destruct (String.eqb_spec (lower name) "resnet200") as [->|];
    [split; eauto|].
  destruct (String.eqb_spec (lower name) "resnet152") as [->|];
    [split; eauto|].
  destruct (String.eqb_spec (lower name) "resnet101") as [->|];
    [split; eauto|].
  destruct (String.eqb_spec (lower name) "resnet50") as [->|];
    [split; eauto 6|].
  destruct (String.eqb_spec (lower name) "resnet18") as [->|];
    [split; eauto 7|].
  split.
  - intros [m Hm]. discriminate.
  - intros [H|[H|[H|[H|[H|[]]]]]]; congruence.
Qed.

Section Constructor.
Context `{JR : JaxRandom} `{EX : @External JR}.

Lemma choose_ok_iff (name : string) (tv : list Tensor) :
  (exists o, choose_optimizer name tv = Ok o) <-> In name OPTIMIZER_NAMES.
Proof.
  unfold choose_optimizer, OPTIMIZER_NAMES. simpl.
  destruct (String.eqb_spec name "momentum"); [subst; split; eauto|].
  destruct (String.eqb_spec name "adam"); [subst; split; eauto|].
  destruct (String.eqb_spec name "sgld"); [subst; split; eauto|].
  destruct (String.eqb_spec name "psgld"); [subst; split; eauto 6|].
  split.
  - intros [o Ho]. discriminate.
  - intros [H|[H|[H|[H|[]]]]]; congruence.
Qed.

Lemma wrap_ok_iff (k : Z) (o : BaseOptimizer) :
  (exists w, wrap_optimizer k o = Ok w) <-> (1 <= k)%Z.
Proof.
  unfold wrap_optimizer.
  destruct (k >? 1)%Z eqn:Hgt.
  - split; [lia|eauto].
  - destruct (k =? 1)%Z eqn:Heq; simpl.
    + split; [lia|eauto].
    + split; [intros [w Hw]; discriminate|lia].
Qed.

Lemma wrap_optimizer_spec (k : Z) (o : BaseOptimizer) (w : ExpOptimizer) :
  wrap_optimizer k o = Ok w ->
  (1 <= k)%Z
  /\ w = (if (k >? 1)%Z then Accumulating (GA.init o (1 / IZR k)) else Direct o).
Proof.
  unfold wrap_optimizer. destruct (k >? 1)%Z eqn:Hgt.
  - intros Hw. injection Hw as <-. split; [lia|reflexivity].
  - destruct (k =? 1)%Z eqn:Heq; simpl; [|discriminate].
    intros Hw. injection Hw as <-. split; [lia|reflexivity].
Qed.

End Constructor.

(** X10.  The constructor returns an experiment exactly when the logit
    clip is one of the four names, both dataset splits are found, the
    lower-cased model name is one of the five names, the optimizer is one
    of [momentum], [adam], [sgld], [psgld], and [grad_acc_steps] is at
    least one; in every other case it raises. *)
Theorem constructor_returns_iff `{JR : JaxRandom} `{EX : @External JR}
    (F : Flags) (gen : Key) :
  (exists e, Experiment_init F gen = Ok e)
  <-> In (logit_clip F) CLIP_NAMES
      /\ (exists s, get_train_dataset_split (dataset F) = Ok s)
      /\ (exists s, get_eval_dataset_split (dataset F) = Ok s)
      /\ In (lower (model F)) MODEL_NAMES
      /\ In (optimizer F) OPTIMIZER_NAMES
      /\ (1 <= grad_acc_steps F)%Z.
Proof.
  rewrite <- clip_ok_iff, <- model_ok_iff.
  unfold Experiment_init, bind.
  destruct (construct_logit_clip_fn (logit_clip F)) as [c|err];
    [|split; [intros [e He]; discriminate
             |intros ([c Hc] & _); discriminate]].
  destruct (get_train_dataset_split (dataset F)) as [ts|err];
    [|split; [intros [e He]; discriminate
             |intros (_ & [s Hs] & _); discriminate]].
  destruct (get_eval_dataset_split (dataset F)) as [es|err];
    [|split; [intros [e He]; discriminate
             |intros (_ & _ & [s Hs] & _); discriminate]].
  destruct (make_model (model F)) as [mk|err];
    [|split; [intros [e He]; discriminate
             |intros (_ & _ & _ & [m Hm] & _); discriminate]].
  destruct (zoo (snd mk) (num_classes ts) gen) as [layers gen'].
  pose proof (choose_ok_iff (optimizer F)
                (if (num_layers_to_freeze F >? 0)%Z
                 then concat (skipn (Z.to_nat (num_layers_to_freeze F)) layers)
                 else concat layers)) as Hch.
  destruct (choose_optimizer (optimizer F) _) as [o|err].
  - pose proof (wrap_ok_iff (grad_acc_steps F) o) as Hw.
    destruct (wrap_optimizer (grad_acc_steps F) o) as [w|err].
    + split; [|eauto]. intros _.
      repeat split; eauto. * apply Hch; eauto. * apply Hw; eauto.
    + split; [intros [e He]; discriminate|].
      intros (_ & _ & _ & _ & _ & Hk). apply Hw in Hk. destruct Hk; discriminate.
  - split; [intros [e He]; discriminate|].
    intros (_ & _ & _ & _ & Ho & _). apply Hch in Ho. destruct Ho; discriminate.
Qed.

Section Built.
Context `{JR : JaxRandom} `{EX : @External JR}.

Lemma Experiment_init_optimizer (F : Flags) (gen : Key) (e : Experiment) :
  Experiment_init F gen = Ok e ->
  (1 <= grad_acc_steps F)%Z
  /\ FLAGS e = F
  /\ self_base_learning_rate e
     = base_learning_rate F
       * IZR (train_device_batch_size F * device_count)
       * IZR (grad_acc_steps F) / 256
  /\ self_num_train_epochs e = num_train_epochs F
  /\ self_lr_warmup_epochs e = lr_warmup_epochs F
  /\ self_optimizer e
     = (if (grad_acc_steps F >? 1)%Z
        then Accumulating (GA.init (built_optimizer e) (1 / IZR (grad_acc_steps F)))
        else Direct (built_optimizer e)).
Proof.
  unfold Experiment_init, bind.
  destruct (construct_logit_clip_fn _); [|discriminate].
  destruct (get_train_dataset_split _); [|discriminate].
  destruct (get_eval_dataset_split _); [|discriminate].
  destruct (make_model _) as [mk|]; [|discriminate].
  destruct (zoo _ _ _) as [layers gen'].
  destruct (choose_optimizer _ _) as [o|]; [|discriminate].
  destruct (wrap_optimizer _ _) as [w|] eqn:Hw; [|discriminate].
  apply wrap_optimizer_spec in Hw as [Hk ->].
  intros He. injection He as <-. unfold built_optimizer. simpl.
  repeat split; auto.
  destruct (grad_acc_steps F >? 1)%Z; reflexivity.
Qed.

End Built.

(** X11.  On an experiment the constructor returned, with a rate [lr] for
    the epoch: when [grad_acc_steps] is one, the training step calls the
    chosen optimiser itself with [lr] and the gradients, whatever
    [apply_updates] is; when it is greater, the step calls the wrapper,
    built around the chosen optimiser with [scaler = 1 / grad_acc_steps]
    and zeroed buffers, with [lr], the gradients and [apply_updates].  The
    two ways of calling never meet the wrong kind of object. *)
Theorem train_op_dispatch `{JR : JaxRandom} `{EX : @External JR}
    (F : Flags) (gen : Key) (e : Experiment)
    (grads : list Tensor) (epoch lr : R) (ap : bool) :
  Experiment_init F gen = Ok e ->
  learning_rate e epoch = Ok lr ->
  (1 <= grad_acc_steps F)%Z
  /\ ((grad_acc_steps F = 1)%Z ->
      train_op e grads epoch ap
      = lift_outcome (fun o' => set_optimizer e (Direct o'))
          (base_call lr grads (built_optimizer e)))
  /\ ((1 < grad_acc_steps F)%Z ->
      train_op e grads epoch ap
      = lift_outcome (fun w' => set_optimizer e (Accumulating w'))
          (GA.call lr grads ap
             (GA.init (built_optimizer e) (1 / IZR (grad_acc_steps F))))).
Proof.
  intros He Hlr.
  destruct (Experiment_init_optimizer F gen e He) as (Hk & HF & _ & _ & _ & Ho).
  split; [exact Hk|]. unfold train_op. rewrite Hlr, Ho, HF. split.
  - intros ->. reflexivity.
  - intros Hgt. assert (Hb : (grad_acc_steps F >? 1)%Z = true) by lia.
    now rewrite Hb.
Qed.

Lemma train_op_dispatch_witness :
  Experiment_init (with_rnd_seed Fixture.small_flags 1) (key 1)
    = Ok (Fixture.seeded 1)
  /\ learning_rate (Fixture.seeded 1) 1 = Ok (2 * IZR (128 * 1) * IZR 2 / 256 * 1)
  /\ (1 <= grad_acc_steps (with_rnd_seed Fixture.small_flags 1))%Z.
Proof.
  assert (Hlr : learning_rate (Fixture.seeded 1) 1
                = Ok (2 * IZR (128 * 1) * IZR 2 / 256 * 1)).
  { rewrite learning_rate_cos by reflexivity.
    change (self_num_train_epochs (Fixture.seeded 1)) with 2.
    change (self_lr_warmup_epochs (Fixture.seeded 1)) with 1.
    rewrite Rmin_left by lra.
    rewrite multiplier_cos_at_warmup by lra. reflexivity. }
  split; [reflexivity|]. split; [exact Hlr|].
  exact (proj1 (train_op_dispatch (with_rnd_seed Fixture.small_flags 1) (key 1)
                  (Fixture.seeded 1) [[1]] 1 _ false eq_refl Hlr)).
Defined.

(** ** More of the learning-rate schedule *)

(** X12.  Every epoch at or beyond [num_train_epochs] gets the rate of
    [num_train_epochs] (for an unsupported schedule name, the same error). *)
Theorem learning_rate_clamped `{JR : JaxRandom} `{EX : @External JR}
    (self : Experiment) (epoch : R) :
  self_num_train_epochs self <= epoch ->
  learning_rate self epoch = learning_rate self (self_num_train_epochs self).
Proof.
  intros Hle. unfold learning_rate.
  rewrite (Rmin_right epoch) by exact Hle.
  rewrite (Rmin_left (self_num_train_epochs self)) by lra.
  reflexivity.
Qed.

Lemma learning_rate_clamped_witness :
  self_num_train_epochs Fixture.small <= 5
  /\ learning_rate Fixture.small 5
     = learning_rate Fixture.small (self_num_train_epochs Fixture.small).
Proof.
  assert (H : self_num_train_epochs Fixture.small <= 5) by (simpl; lra).
  split; [exact H|]. exact (learning_rate_clamped Fixture.small 5 H).
Defined.

(** X13.  Both schedules share the warmup: for an epoch below
    [lr_warmup_epochs] and not beyond [num_train_epochs], with a positive
    [lr_warmup_epochs], the rate is
    [base_rate * epoch / lr_warmup_epochs]. *)
Theorem warmup_is_linear `{JR : JaxRandom} `{EX : @External JR}
    (self : Experiment) (epoch : R) :
  lr_schedule (FLAGS self) = "cos"%string
  \/ lr_schedule (FLAGS self) = "fixed"%string ->
  0 < self_lr_warmup_epochs self ->
  epoch < self_lr_warmup_epochs self ->
  epoch <= self_num_train_epochs self ->
  learning_rate self epoch
  = Ok (self_base_learning_rate self * (epoch / self_lr_warmup_epochs self)).
Proof.
  intros [Hs|Hs] Hw Hlt Hle.
  - rewrite (learning_rate_cos self _ Hs), (Rmin_left _ _ Hle).
    unfold lr_multiplier_cos.
    destruct (Rlt_dec epoch (self_lr_warmup_epochs self)); [reflexivity|lra].
  - rewrite (learning_rate_fixed self _ Hs), (Rmin_left _ _ Hle).
    unfold lr_multiplier_fixed.
    destruct (Rlt_dec epoch (self_lr_warmup_epochs self)); [reflexivity|lra].
Qed.

Lemma warmup_is_linear_witness :
  (lr_schedule (FLAGS Fixture.small) = "cos"%string
   \/ lr_schedule (FLAGS Fixture.small) = "fixed"%string)
  /\ 0 < self_lr_warmup_epochs Fixture.small
  /\ 1 / 2 < self_lr_warmup_epochs Fixture.small
  /\ 1 / 2 <= self_num_train_epochs Fixture.small
  /\ learning_rate Fixture.small (1 / 2)
     = Ok (self_base_learning_rate Fixture.small
           * (1 / 2 / self_lr_warmup_epochs Fixture.small)).
Proof.
  assert (H1 : 0 < self_lr_warmup_epochs Fixture.small) by (simpl; lra).
  assert (H2 : 1 / 2 < self_lr_warmup_epochs Fixture.small) by (simpl; lra).
  assert (H3 : 1 / 2 <= self_num_train_epochs Fixture.small) by (simpl; lra).
  split; [left; reflexivity|]. split; [exact H1|]. split; [exact H2|].
  split; [exact H3|].
  exact (warmup_is_linear Fixture.small (1 / 2) (or_introl eq_refl) H1 H2 H3).
Defined.

Lemma multiplier_cos_range (t w epoch : R) :
  0 < w -> 0 <= epoch -> 0 <= lr_multiplier_cos t w epoch <= 1.
Proof.
  intros Hw He. unfold lr_multiplier_cos.
  destruct (Rlt_dec epoch w) as [Hlt|Hge].
  - assert (Hi : 0 < / w) by now apply Rinv_0_lt_compat.
    assert (Hone : w * / w = 1) by (apply Rinv_r; lra).
    unfold Rdiv. split; nra.
  - pose proof (COS_bound (PI * (epoch - w) / (t - w))). lra.
Qed.

Lemma multiplier_fixed_range (w epoch : R) :
  0 < w -> 0 <= epoch -> 0 <= lr_multiplier_fixed w epoch <= 1.
Proof.
  intros Hw He. unfold lr_multiplier_fixed.
  destruct (Rlt_dec epoch w) as [Hlt|Hge]; [|lra].
  assert (Hi : 0 < / w) by now apply Rinv_0_lt_compat.
  assert (Hone : w * / w = 1) by (apply Rinv_r; lra).
  unfold Rdiv. split; nra.
Qed.

(** X14.  With a base rate that is not negative, a positive
    [lr_warmup_epochs], and [num_train_epochs] at least zero for [fixed]
    and greater than [lr_warmup_epochs] for [cos], the rate of every
    epoch from zero on lies between zero and the base rate. *)
Theorem learning_rate_bounded `{JR : JaxRandom} `{EX : @External JR}
    (self : Experiment) (epoch : R) :
  0 <= self_base_learning_rate self ->
  0 < self_lr_warmup_epochs self ->
  0 <= epoch ->
  (lr_schedule (FLAGS self) = "fixed"%string /\ 0 <= self_num_train_epochs self)
  \/ (lr_schedule (FLAGS self) = "cos"%string
      /\ self_lr_warmup_epochs self < self_num_train_epochs self) ->
  exists r, learning_rate self epoch = Ok r
            /\ 0 <= r <= self_base_learning_rate self.
Proof.
  intros Hb Hw He [[Hs Ht]|[Hs Ht]].
  - rewrite (learning_rate_fixed self _ Hs). eexists. split; [reflexivity|].
    pose proof (multiplier_fixed_range (self_lr_warmup_epochs self)
                  (Rmin epoch (self_num_train_epochs self)) Hw
                  ltac:(apply Rmin_glb; lra)).
    nra.
  - rewrite (learning_rate_cos self _ Hs). eexists. split; [reflexivity|].
    pose proof (multiplier_cos_range (self_num_train_epochs self)
                  (self_lr_warmup_epochs self)
                  (Rmin epoch (self_num_train_epochs self)) Hw
                  ltac:(apply Rmin_glb; lra)).
    nra.
Qed.

Lemma learning_rate_bounded_witness :
  0 <= self_base_learning_rate Fixture.small
  /\ 0 < self_lr_warmup_epochs Fixture.small
  /\ 0 <= 3 / 2
  /\ (lr_schedule (FLAGS Fixture.small) = "cos"%string
      /\ self_lr_warmup_epochs Fixture.small < self_num_train_epochs Fixture.small)
  /\ exists r, learning_rate Fixture.small (3 / 2) = Ok r
               /\ 0 <= r <= self_base_learning_rate Fixture.small.
Proof.
  assert (H1 : 0 <= self_base_learning_rate Fixture.small) by (simpl; lra).
  assert (H2 : 0 < self_lr_warmup_epochs Fixture.small) by (simpl; lra).
  assert (H3 : 0 <= 3 / 2) by lra.
  assert (H4 : lr_schedule (FLAGS Fixture.small) = "cos"%string
               /\ self_lr_warmup_epochs Fixture.small
                  < self_num_train_epochs Fixture.small)
    by (split; [reflexivity|simpl; lra]).
  split; [exact H1|]. split; [exact H2|]. split; [exact H3|]. split; [exact H4|].
  exact (learning_rate_bounded Fixture.small (3 / 2) H1 H2 H3 (or_intror H4)).
Defined.

Lemma cos_decay_antitone (t w e1 e2 : R) :
  w < t -> w <= e1 -> e1 <= e2 -> e2 <= t ->
  lr_multiplier_cos t w e2 <= lr_multiplier_cos t w e1.
Proof.
  intros Hwt H1 H12 H2. unfold lr_multiplier_cos.
  destruct (Rlt_dec e1 w); [lra|]. destruct (Rlt_dec e2 w); [lra|].
  assert (Hd : 0 < / (t - w)) by (apply Rinv_0_lt_compat; lra).
  assert (Hone : (t - w) * / (t - w) = 1) by (apply Rinv_r; lra).
  pose proof PI_RGT_0 as Hpi.
  assert (A1 : 0 <= (e1 - w) * / (t - w)) by nra.
  assert (A2 : (e1 - w) * / (t - w) <= (e2 - w) * / (t - w)) by nra.
  assert (A3 : (e2 - w) * / (t - w) <= 1) by nra.
  assert (Hcos : cos (PI * (e2 - w) / (t - w)) <= cos (PI * (e1 - w) / (t - w))).
  { unfold Rdiv. rewrite !Rmult_assoc. apply cos_decr_1; nra. }
  lra.
Qed.

(** X15.  After the warmup, with a base rate that is not negative and a
    positive [lr_warmup_epochs]: the [fixed] schedule gives exactly the
    base rate to every epoch from [lr_warmup_epochs] on (when the run is
    at least as long as the warmup), and the [cos] schedule never
    increases from one epoch to a later one (when the run is longer than
    the warmup). *)
Theorem after_warmup `{JR : JaxRandom} `{EX : @External JR}
    (self : Experiment) (e1 e2 : R) :
  0 <= self_base_learning_rate self ->
  0 < self_lr_warmup_epochs self ->
  self_lr_warmup_epochs self <= e1 -> e1 <= e2 ->
  (lr_schedule (FLAGS self) = "fixed"%string ->
   self_lr_warmup_epochs self <= self_num_train_epochs self ->
   learning_rate self e1 = Ok (self_base_learning_rate self))
  /\ (lr_schedule (FLAGS self) = "cos"%string ->
      self_lr_warmup_epochs self < self_num_train_epochs self ->
      exists r1 r2, learning_rate self e1 = Ok r1
                    /\ learning_rate self e2 = Ok r2
                    /\ r2 <= r1).
Proof.
  intros Hb Hw H1 H12. split.
  - intros Hs Ht. rewrite (learning_rate_fixed self _ Hs).
    unfold lr_multiplier_fixed.
    destruct (Rlt_dec (Rmin e1 (self_num_train_epochs self))
                (self_lr_warmup_epochs self)) as [Hlt|_].
    + exfalso. revert Hlt. apply Rle_not_lt. apply Rmin_glb; lra.
    + f_equal. lra.
  - intros Hs Ht. rewrite !(learning_rate_cos self _ Hs).
    do 2 eexists. split; [reflexivity|]. split; [reflexivity|].
    apply Rmult_le_compat_l; [exact Hb|].
    apply cos_decay_antitone.
    + exact Ht.
    + apply Rmin_glb; lra.
    + apply Rle_min_compat_r. exact H12.
    + apply Rmin_r.
Qed.

Lemma after_warmup_witness :
  0 <= self_base_learning_rate Fixture.small
  /\ 0 < self_lr_warmup_epochs Fixture.small
  /\ self_lr_warmup_epochs Fixture.small <= 3 / 2
  /\ 3 / 2 <= 2
  /\ lr_schedule (FLAGS Fixture.small) = "cos"%string
  /\ self_lr_warmup_epochs Fixture.small < self_num_train_epochs Fixture.small
  /\ exists r1 r2, learning_rate Fixture.small (3 / 2) = Ok r1
                   /\ learning_rate Fixture.small 2 = Ok r2
                   /\ r2 <= r1.
Proof.
  assert (H1 : 0 <= self_base_learning_rate Fixture.small) by (simpl; lra).
  assert (H2 : 0 < self_lr_warmup_epochs Fixture.small) by (simpl; lra).
  assert (H3 : self_lr_warmup_epochs Fixture.small <= 3 / 2) by (simpl; lra).
  assert (H4 : 3 / 2 <= 2) by lra.
  assert (H5 : self_lr_warmup_epochs Fixture.small
               < self_num_train_epochs Fixture.small) by (simpl; lra).
  split; [exact H1|]. split; [exact H2|]. split; [exact H3|]. split; [exact H4|].
  split; [reflexivity|]. split; [exact H5|].
  exact (proj2 (after_warmup Fixture.small (3 / 2) 2 H1 H2 H3 H4) eq_refl H5).
Defined.

(** ** The length of a run and the count of applied updates *)

Section Windows.
Context `{JR : JaxRandom} `{EX : @External JR}.


End Windows.




(** X17.  With [eval_every_n_steps] zero the loop raises [ValueError]
    before any training step; with a negative value no training step is
    run. *)
Theorem no_training_without_windows `{JR : JaxRandom} `{EX : @External JR}
    (self : Experiment) (start_step : Z) :
  (eval_every_n_steps (FLAGS self) <= 0)%Z ->
  virtual_steps self start_step
  = if (eval_every_n_steps (FLAGS self) =? 0)%Z
    then Raise (ValueError "range() arg 3 must not be zero")
    else Ok [].
Proof.
  intros He. unfold virtual_steps, py_range.
  destruct (eval_every_n_steps (FLAGS self) =? 0)%Z eqn:H0; [reflexivity|].
  f_equal.
  induction (map _ (seq 0 _)) as [|b l IH]; simpl; auto.
  rewrite IH, inner_steps_spec.
  replace (Z.to_nat (eval_every_n_steps (FLAGS self))) with O by lia.
  reflexivity.
Qed.

Lemma no_training_without_windows_witness :
  (eval_every_n_steps
     (FLAGS (set_FLAGS Fixture.small (with_eval_every Fixture.small_flags 0)))
   <= 0)%Z
  /\ virtual_steps
       (set_FLAGS Fixture.small (with_eval_every Fixture.small_flags 0)) 0
     = Raise (ValueError "range() arg 3 must not be zero").
Proof.
  split; [simpl; lia|].
  refine (no_training_without_windows
            (set_FLAGS Fixture.small (with_eval_every Fixture.small_flags 0)) 0 _).
  simpl; lia.
Defined.

Lemma div_succ (n k : Z) :
  (1 <= k)%Z -> (0 <= n)%Z ->
  ((n + 1) / k = n / k + (if (n + 1) mod k =? 0 then 1 else 0))%Z.
Proof.
  intros Hk Hn.
  pose proof (Z.div_mod n k ltac:(lia)) as Hdm.
  pose proof (Z.mod_pos_bound n k ltac:(lia)) as Hm.
  destruct (Z.eq_dec (n mod k + 1) k) as [Heq|Hne].
  - assert (Hmod : ((n + 1) mod k = 0)%Z).
    { symmetry. apply (Z.mod_unique _ _ (n / k + 1)); lia. }
    rewrite Hmod. simpl.
    symmetry. apply (Z.div_unique _ _ _ 0); lia.
  - assert (Hmod : ((n + 1) mod k = n mod k + 1)%Z).
    { symmetry. apply (Z.mod_unique _ _ (n / k)); lia. }
    rewrite Hmod.
    assert (Hb : (n mod k + 1 =? 0)%Z = false) by lia. rewrite Hb.
    rewrite Z.add_0_r. symmetry. apply (Z.div_unique _ _ _ (n mod k + 1)); lia.
Qed.

Lemma py_int_true_division (n k : Z) :
  (1 <= k)%Z -> (0 <= n)%Z -> py_int (IZR n / IZR k) = (n / k)%Z.
Proof.
  intros Hk Hn.
  pose proof (Z.div_mod n k ltac:(lia)) as Hdm.
  pose proof (Z.mod_pos_bound n k ltac:(lia)) as Hm.
  assert (HkR : 0 < IZR k) by (apply IZR_lt; lia).
  assert (Hi : 0 < / IZR k) by now apply Rinv_0_lt_compat.
  assert (Hone : IZR k * / IZR k = 1) by (apply Rinv_r; lra).
  assert (HnR : IZR n = IZR k * IZR (n / k) + IZR (n mod k)).
  { rewrite <- mult_IZR, <- plus_IZR. now f_equal. }
  assert (Hm0 : 0 <= IZR (n mod k)) by (apply IZR_le; lia).
  assert (Hm1 : IZR (n mod k) < IZR k) by (apply IZR_lt; lia).
  assert (Hq0 : 0 <= IZR (n / k)) by (apply IZR_le; apply Z.div_pos; lia).
  assert (Hfrac : IZR n / IZR k = IZR (n / k) + IZR (n mod k) * / IZR k).
  { rewrite HnR. field. lra. }
  assert (Hf0 : 0 <= IZR (n mod k) * / IZR k) by nra.
  assert (Hf1 : IZR (n mod k) * / IZR k < 1) by nra.
  apply py_int_floor; lra.
Qed.

Lemma consecutive_firstn (a : Z) (n m : nat) :
  (n <= m)%nat -> firstn n (consecutive a m) = consecutive a n.
Proof.
  intros Hn. replace m with (n + (m - n))%nat by lia.
  rewrite consecutive_app, firstn_app.
  assert (Hl : length (consecutive a n) = n)
    by (unfold consecutive; now rewrite length_map, length_seq).
  rewrite Hl, Nat.sub_diag. simpl. rewrite app_nil_r.
  rewrite <- Hl at 1. apply firstn_all.
Qed.

Section Updates.
Context `{JR : JaxRandom} `{EX : @External JR}.

Lemma applied_updates_consecutive (self : Experiment) (n : nat) :
  (1 <= grad_acc_steps (FLAGS self))%Z ->
  Z.of_nat (applied_updates (map (loop_body self) (consecutive 1 n)))
  = (Z.of_nat n / grad_acc_steps (FLAGS self))%Z.
Proof.
  intros Hk. unfold applied_updates. induction n as [|n IH].
  - simpl. now rewrite Z.div_0_l by lia.
  - replace (S n) with (n + 1)%nat by lia.
    rewrite consecutive_app, map_app, filter_app, length_app, Nat2Z.inj_add, IH.
    rewrite Nat2Z.inj_add. change (Z.of_nat 1) with 1%Z.
    rewrite div_succ by lia. f_equal.
    change (consecutive (1 + Z.of_nat n) 1)
      with [(1 + Z.of_nat n + Z.of_nat 0)%Z].
    cbn [map filter].
    change (apply_updates (loop_body self (1 + Z.of_nat n + Z.of_nat 0)))
      with ((1 + Z.of_nat n + Z.of_nat 0) mod grad_acc_steps (FLAGS self) =? 0)%Z.
    replace (1 + Z.of_nat n + Z.of_nat 0)%Z with (Z.of_nat n + 1)%Z by lia.
    destruct ((Z.of_nat n + 1) mod grad_acc_steps (FLAGS self) =? 0)%Z;
      reflexivity.
Qed.

End Updates.

(** X18.  In a fresh run with [grad_acc_steps >= 1], the number of steps
    handed to the privacy accountant after [n] virtual steps,
    [int(n / grad_acc_steps)], is the number of those steps at which the
    update was applied. *)
Theorem dp_steps_count_applied_updates `{JR : JaxRandom} `{EX : @External JR}
    (self : Experiment) (steps : list VirtualStep) (n : nat) :
  (1 <= grad_acc_steps (FLAGS self))%Z ->
  virtual_steps self 0 = Ok steps ->
  (n <= length steps)%nat ->
  dp_steps self (Z.of_nat n) = Z.of_nat (applied_updates (firstn n steps)).
Proof.
  intros Hk Hs Hn. unfold dp_steps.
  rewrite py_int_true_division by lia.
  rewrite (virtual_steps_spec self 0 steps Hs).
  rewrite firstn_map, consecutive_firstn by exact Hn.
  change (0 + 1)%Z with 1%Z.
  now rewrite applied_updates_consecutive.
Qed.

Lemma dp_steps_count_applied_updates_witness :
  (1 <= grad_acc_steps (FLAGS Fixture.small))%Z
  /\ virtual_steps Fixture.small 0
     = Ok (map (loop_body Fixture.small) [1; 2; 3; 4]%Z)
  /\ (3 <= length (map (loop_body Fixture.small) [1; 2; 3; 4]%Z))%nat
  /\ dp_steps Fixture.small (Z.of_nat 3)
     = Z.of_nat (applied_updates
                   (firstn 3 (map (loop_body Fixture.small) [1; 2; 3; 4]%Z))).
Proof.
  assert (H1 : (1 <= grad_acc_steps (FLAGS Fixture.small))%Z) by (simpl; lia).
  assert (H3 : (3 <= length (map (loop_body Fixture.small) [1; 2; 3; 4]%Z))%nat)
    by (simpl; lia).
  split; [exact H1|]. split; [exact small_virtual_steps|]. split; [exact H3|].
  exact (dp_steps_count_applied_updates Fixture.small _ 3 H1
           small_virtual_steps H3).
Defined.

(** ** One accumulated update through the training step *)

Section Cycle.
Context `{JR : JaxRandom} `{EX : @External JR}.

Lemma in_consecutive (a s : Z) (n : nat) :
  In s (consecutive a n) -> exists i, (i < n)%nat /\ s = (a + Z.of_nat i)%Z.
Proof.
  unfold consecutive. intros Hin. apply in_map_iff in Hin as (i & <- & Hi).
  apply in_seq in Hi. exists i. split; [lia|reflexivity].
Qed.

Lemma mod_offset (j k r : Z) :
  (0 <= r < k)%Z -> ((j * k + r) mod k = r)%Z.
Proof.
  intros Hr. symmetry. apply (Z.mod_unique _ _ j); lia.
Qed.

Lemma run_steps_accumulating (e0 : Experiment) (g : Z -> list Tensor) (lr : R)
    (vs : list VirtualStep) (w : GA.t BaseOptimizer) :
  (1 < grad_acc_steps (FLAGS e0))%Z ->
  (forall v, In v vs -> learning_rate e0 (cur_epoch v) = Ok lr) ->
  run_steps (fun v _ => g (cur_step v)) vs (set_optimizer e0 (Accumulating w))
  = lift_outcome (fun w' => set_optimizer e0 (Accumulating w'))
      (GA.feed (map (fun v => (lr, g (cur_step v), apply_updates v)) vs) w).
Proof.
  intros Hk. revert w; induction vs as [|v vs IH]; intros w Hlr; simpl.
  - reflexivity.
  - unfold train_op.
    change (learning_rate (set_optimizer e0 (Accumulating w)) (cur_epoch v))
      with (learning_rate e0 (cur_epoch v)).
    rewrite (Hlr v (or_introl eq_refl)). simpl.
    assert (Hb : (grad_acc_steps (FLAGS e0) >? 1)%Z = true) by lia.
    rewrite Hb.
    destruct (GA.call lr (g (cur_step v)) (apply_updates v) w) as [w'|err w'];
      simpl; [|reflexivity].
    change (set_optimizer (set_optimizer e0 (Accumulating w)) (Accumulating w'))
      with (set_optimizer e0 (Accumulating w')).
    apply IH. intros v' Hv'. apply Hlr. now right.
Qed.

Lemma cycle_steps (e : Experiment) (g : Z -> list Tensor) (lr : R) (j : Z) :
  (1 < grad_acc_steps (FLAGS e))%Z ->
  map (fun v => (lr, g (cur_step v), apply_updates v))
    (map (loop_body e)
       (consecutive (j * grad_acc_steps (FLAGS e) + 1)
          (Z.to_nat (grad_acc_steps (FLAGS e)))))
  = cycle
      (map (fun s => (lr, g s))
         (consecutive (j * grad_acc_steps (FLAGS e) + 1)
            (Z.to_nat (grad_acc_steps (FLAGS e)) - 1)))
      (lr, g ((j + 1) * grad_acc_steps (FLAGS e))%Z).
Proof.
  intros Hk. set (k := grad_acc_steps (FLAGS e)) in *.
  replace (Z.to_nat k) with ((Z.to_nat k - 1) + 1)%nat at 1 by lia.
  rewrite consecutive_app, !map_app. unfold cycle. rewrite !map_map. f_equal.
  - apply map_ext_in. intros s Hs.
    apply in_consecutive in Hs as (i & Hi & ->). simpl. f_equal.
    fold k. replace (j * k + 1 + Z.of_nat i)%Z with (j * k + (1 + Z.of_nat i))%Z
      by lia.
    rewrite mod_offset by lia. lia.
  - change (consecutive (j * k + 1 + Z.of_nat (Z.to_nat k - 1)) 1)
      with [(j * k + 1 + Z.of_nat (Z.to_nat k - 1) + Z.of_nat 0)%Z].
    replace (j * k + 1 + Z.of_nat (Z.to_nat k - 1) + Z.of_nat 0)%Z
      with ((j + 1) * k)%Z by lia.
    simpl. fold k. rewrite Z.mod_mul by lia. reflexivity.
Qed.

Lemma cycle_gradients_consecutive (g : Z -> list Tensor) (lr : R) (a : Z) (n : nat) :
  (0 < n)%nat ->
  cycle_gradients (map (fun s => (lr, g s)) (consecutive a (n - 1)))
    (lr, g (a + Z.of_nat (n - 1))%Z)
  = map g (consecutive a n).
Proof.
  intros Hn. unfold cycle_gradients. rewrite map_map. simpl.
  replace n with ((n - 1) + 1)%nat at 3 by lia.
  rewrite consecutive_app, map_app. f_equal.
  change (consecutive (a + Z.of_nat (n - 1)) 1)
    with [(a + Z.of_nat (n - 1) + Z.of_nat 0)%Z].
  simpl. do 2 f_equal. lia.
Qed.

End Cycle.

(** X19.  With [grad_acc_steps = k > 1], a wrapper with [scaler = 1/k]
    and zeroed buffers, a supported schedule and aligned gradients, the
    [k] training steps [j*k + 1 .. j*k + k] of one accumulated update
    amount to one call of the chosen optimiser: on the mean of the [k]
    gradients, with the rate of the epoch [(j + 1) * k / steps_per_epoch]
    that all [k] steps share; the buffers end zeroed when that call
    returns. *)
Theorem training_cycle_is_one_update `{JR : JaxRandom} `{EX : @External JR}
    (e : Experiment) (w : GA.t BaseOptimizer) (j : Z)
    (g : Z -> list Tensor) (lr : R) :
  self_optimizer e = Accumulating w ->
  (1 < grad_acc_steps (FLAGS e))%Z ->
  GA.scaler w = 1 / IZR (grad_acc_steps (FLAGS e)) ->
  GA.accum w = map jn.zeros_like (base_train_vars (GA.optimizer w)) ->
  learning_rate e (IZR ((j + 1) * grad_acc_steps (FLAGS e)) / steps_per_epoch e)
    = Ok lr ->
  (forall s, aligned (g s) (base_train_vars (GA.optimizer w))) ->
  run_steps (fun v _ => g (cur_step v))
    (map (loop_body e)
       (consecutive (j * grad_acc_steps (FLAGS e) + 1)
          (Z.to_nat (grad_acc_steps (FLAGS e))))) e
  = match base_call lr
            (mean_grads (shapes (base_train_vars (GA.optimizer w)))
               (map g (consecutive (j * grad_acc_steps (FLAGS e) + 1)
                         (Z.to_nat (grad_acc_steps (FLAGS e))))))
            (GA.optimizer w) with
    | Returned o =>
        Returned (set_optimizer e (Accumulating
          (GA.mk (1 / IZR (grad_acc_steps (FLAGS e))) o
             (map jn.zeros_like
                (mean_grads (shapes (base_train_vars (GA.optimizer w)))
                   (map g (consecutive (j * grad_acc_steps (FLAGS e) + 1)
                             (Z.to_nat (grad_acc_steps (FLAGS e))))))))))
    | Raised err o =>
        Raised err (set_optimizer e (Accumulating
          (GA.mk (1 / IZR (grad_acc_steps (FLAGS e))) o
             (mean_grads (shapes (base_train_vars (GA.optimizer w)))
                (map g (consecutive (j * grad_acc_steps (FLAGS e) + 1)
                          (Z.to_nat (grad_acc_steps (FLAGS e)))))))))
    end.
Proof.
  intros Hopt Hk Hsc Hacc Hlr Hal.
  assert (He : e = set_optimizer e (Accumulating w)).
  { destruct e. simpl in Hopt. subst. reflexivity. }
  transitivity
    (run_steps (fun v _ => g (cur_step v))
       (map (loop_body e)
          (consecutive (j * grad_acc_steps (FLAGS e) + 1)
             (Z.to_nat (grad_acc_steps (FLAGS e)))))
       (set_optimizer e (Accumulating w))); [now rewrite <- He|].
  rewrite (run_steps_accumulating e g lr _ w Hk).
  2:{ intros v Hv. apply in_map_iff in Hv as (s & <- & Hs).
      apply in_consecutive in Hs as (i & Hi & ->).
      replace (j * grad_acc_steps (FLAGS e) + 1 + Z.of_nat i)%Z
        with (j * grad_acc_steps (FLAGS e) + (1 + Z.of_nat i))%Z by lia.
      pose proof (next_update_step_of_cycle e j (1 + Z.of_nat i) ltac:(lia)) as Hn.
      simpl in Hn. simpl. rewrite Hn. exact Hlr. }
  rewrite cycle_steps by exact Hk.
  set (k := grad_acc_steps (FLAGS e)) in *.
  pose proof (cycle_gradients_consecutive g lr (j * k + 1) (Z.to_nat k)
                ltac:(lia)) as Hgs.
  replace (j * k + 1 + Z.of_nat (Z.to_nat k - 1))%Z with ((j + 1) * k)%Z in Hgs
    by lia.
  rewrite feed_cycle.
  2:{ rewrite Hgs. apply Forall_forall. intros x Hx.
      apply in_map_iff in Hx as (s & <- & _). apply Hal. }
  rewrite Hgs, Hsc, Hacc. simpl fst.
  assert (Hlen : 1 / IZR k
                 = 1 / INR (length (map g (consecutive (j * k + 1) (Z.to_nat k))))).
  { unfold consecutive. rewrite !length_map, length_seq, INR_IZR_INZ.
    now rewrite Z2Nat.id by lia. }
  assert (Hm : accumulated (1 / IZR k)
                 (map g (consecutive (j * k + 1) (Z.to_nat k)))
                 (map jn.zeros_like (base_train_vars (GA.optimizer w)))
               = mean_grads (shapes (base_train_vars (GA.optimizer w)))
                   (map g (consecutive (j * k + 1) (Z.to_nat k)))).
  { rewrite Hlen. apply accumulated_mean.
    apply Forall_forall. intros x Hx.
    apply in_map_iff in Hx as (s & <- & _). apply Hal. }
  rewrite Hm.
  change (@opt_call BaseOptimizer BaseOptimizer_Optimizer) with base_call.
  destruct (base_call lr _ (GA.optimizer w)); reflexivity.
Qed.

Lemma small_update_rate :
  learning_rate Fixture.small
    (IZR ((0 + 1) * grad_acc_steps (FLAGS Fixture.small))
     / steps_per_epoch Fixture.small)
  = Ok (2 * 1).
Proof.
  replace (IZR ((0 + 1) * grad_acc_steps (FLAGS Fixture.small))
           / steps_per_epoch Fixture.small) with 1
    by (unfold steps_per_epoch; simpl; field).
  rewrite learning_rate_cos by reflexivity. simpl.
  rewrite Rmin_left by lra. rewrite multiplier_cos_at_warmup by lra.
  reflexivity.
Qed.

Lemma training_cycle_is_one_update_witness :
  self_optimizer Fixture.small
    = Accumulating (GA.init (OSGLD (CustomSGLD.init [[0]])) (1 / 2))
  /\ (1 < grad_acc_steps (FLAGS Fixture.small))%Z
  /\ learning_rate Fixture.small
       (IZR ((0 + 1) * grad_acc_steps (FLAGS Fixture.small))
        / steps_per_epoch Fixture.small)
     = Ok (2 * 1)
  /\ returned
       (run_steps (fun v _ => [[IZR (cur_step v)]])
          (map (loop_body Fixture.small)
             (consecutive (0 * grad_acc_steps (FLAGS Fixture.small) + 1)
                (Z.to_nat (grad_acc_steps (FLAGS Fixture.small)))))
          Fixture.small)
     = true.
Proof.
  split; [reflexivity|]. split; [simpl; lia|]. split; [exact small_update_rate|].
  rewrite (training_cycle_is_one_update Fixture.small
             (GA.init (OSGLD (CustomSGLD.init [[0]])) (1 / 2)) 0
             (fun s => [[IZR s]]) (2 * 1)
             eq_refl ltac:(simpl; lia) eq_refl eq_refl small_update_rate
             (fun s => eq_refl)).
  reflexivity.
Defined.

(** ** Evaluation *)

Lemma eval_loop_spec (max i : Z) (batches : list (Z * Z)) (c t : Z) :
  (0 <= i)%Z -> ((max >? 0)%Z = true -> (i < max)%Z) ->
  eval_loop max i batches c t
  = ((c + total_of fst
            (if (max >? 0)%Z then firstn (Z.to_nat (max - i)) batches
             else batches))%Z,
     (t + total_of snd
            (if (max >? 0)%Z then firstn (Z.to_nat (max - i)) batches
             else batches))%Z).
Proof.
  revert i c t; induction batches as [|[nc sz] batches IH]; intros i c t Hi Hm.
  - simpl. destruct (max >? 0)%Z; rewrite ?firstn_nil; simpl;
      f_equal; lia.
  - simpl. destruct (max >? 0)%Z eqn:Hpos; simpl.
    + specialize (Hm eq_refl).
      destruct (i + 1 >=? max)%Z eqn:Hge.
      * replace (Z.to_nat (max - i)) with 1%nat by lia. simpl.
        f_equal; lia.
      * rewrite IH by lia. rewrite ?Hpos.
        replace (Z.to_nat (max - i)) with (S (Z.to_nat (max - (i + 1)))) by lia.
        simpl. f_equal; lia.
    + rewrite IH by (lia || discriminate). rewrite ?Hpos. f_equal; lia.
Qed.

(** X20.  An evaluation reads the first [max_eval_batches] batches when
    that number is positive (all of them when there are fewer) and every
    batch when it is zero or negative; the two counters are the sums of
    the correct predictions and of the examples over the batches read,
    and an evaluation over no batch at all raises [ZeroDivisionError]. *)
Theorem run_eval_reads (max_eval_batches : Z) (batches : list (Z * Z)) :
  eval_loop max_eval_batches 0 batches 0 0
    = (total_of fst (batches_read max_eval_batches batches),
       total_of snd (batches_read max_eval_batches batches))
  /\ run_eval max_eval_batches []  = ZeroDivisionError
  /\ (batches <> [] ->
      run_eval max_eval_batches batches
      = Accuracy (IZR (total_of fst (batches_read max_eval_batches batches))
                  / IZR (total_of snd (batches_read max_eval_batches batches)))).
Proof.
  assert (Hl : eval_loop max_eval_batches 0 batches 0 0
               = (total_of fst (batches_read max_eval_batches batches),
                  total_of snd (batches_read max_eval_batches batches))).
  { rewrite eval_loop_spec by lia. unfold batches_read.
    rewrite Z.sub_0_r. reflexivity. }
  split; [exact Hl|]. split; [reflexivity|].
  intros Hne. unfold run_eval. destruct batches as [|b batches]; [congruence|].
  now rewrite Hl.
Qed.

Lemma total_of_bounds (batches : list (Z * Z)) :
  Forall (fun b => 0 <= fst b <= snd b)%Z batches ->
  (0 <= total_of fst batches <= total_of snd batches)%Z.
Proof.
  induction 1 as [|b batches Hb _ IH]; simpl; lia.
Qed.

(** X21.  When every batch has at least zero and at most as many correct
    predictions as examples, and the batches read hold at least one
    example, the evaluation returns an accuracy between zero and one. *)
Theorem run_eval_accuracy_range (max_eval_batches : Z) (batches : list (Z * Z)) :
  Forall (fun b => 0 <= fst b <= snd b)%Z batches ->
  (0 < total_of snd (batches_read max_eval_batches batches))%Z ->
  exists a, run_eval max_eval_batches batches = Accuracy a /\ 0 <= a <= 1.
Proof.
  intros Hb Hpos.
  assert (Hne : batches <> []).
  { intros ->. unfold batches_read in Hpos.
    destruct (max_eval_batches >? 0)%Z; rewrite ?firstn_nil in Hpos;
      simpl in Hpos; lia. }
  unfold run_eval. destruct batches as [|b batches]; [congruence|].
  rewrite eval_loop_spec by lia. rewrite Z.sub_0_r.
  fold (batches_read max_eval_batches (b :: batches)).
  rewrite !Z.add_0_l.
  assert (Hr : Forall (fun b => 0 <= fst b <= snd b)%Z
                 (batches_read max_eval_batches (b :: batches))).
  { unfold batches_read. destruct (max_eval_batches >? 0)%Z; [|exact Hb].
    rewrite <- (firstn_skipn (Z.to_nat max_eval_batches)) in Hb.
    now apply Forall_app in Hb. }
  pose proof (total_of_bounds _ Hr) as [H0 H1].
  eexists. split; [reflexivity|].
  assert (Ht : 0 < IZR (total_of snd (batches_read max_eval_batches (b :: batches))))
    by (apply IZR_lt; exact Hpos).
  assert (Hc0 : 0 <= IZR (total_of fst (batches_read max_eval_batches (b :: batches))))
    by (apply IZR_le; exact H0).
  assert (Hc1 : IZR (total_of fst (batches_read max_eval_batches (b :: batches)))
                <= IZR (total_of snd (batches_read max_eval_batches (b :: batches))))
    by (apply IZR_le; exact H1).
  assert (Hi : 0 < / IZR (total_of snd (batches_read max_eval_batches (b :: batches))))
    by now apply Rinv_0_lt_compat.
  assert (Hone : IZR (total_of snd (batches_read max_eval_batches (b :: batches)))
                 * / IZR (total_of snd (batches_read max_eval_batches (b :: batches)))
                 = 1) by (apply Rinv_r; lra).
  unfold Rdiv. split; nra.
Qed.

Lemma run_eval_accuracy_range_witness :
  Forall (fun b => 0 <= fst b <= snd b)%Z [(3, 4); (1, 4); (4, 4)]%Z
  /\ (0 < total_of snd (batches_read 2 [(3, 4); (1, 4); (4, 4)]%Z))%Z
  /\ exists a, run_eval 2 [(3, 4); (1, 4); (4, 4)]%Z = Accuracy a /\ 0 <= a <= 1.
Proof.
  assert (H1 : Forall (fun b => 0 <= fst b <= snd b)%Z [(3, 4); (1, 4); (4, 4)]%Z)
    by (repeat constructor; simpl; lia).
  assert (H2 : (0 < total_of snd (batches_read 2 [(3, 4); (1, 4); (4, 4)]%Z))%Z)
    by (simpl; lia).
  split; [exact H1|]. split; [exact H2|].
  exact (run_eval_accuracy_range 2 _ H1 H2).
Defined.

(** ** The weight-decay term of the loss *)

Lemma fold_left_Rplus_acc (l : list R) (a : R) :
  fold_left Rplus l a = a + fold_left Rplus l 0.
Proof.
  revert a; induction l as [|x l IH]; intros a; simpl.
  - lra.
  - rewrite (IH (a + x)), (IH (0 + x)). lra.
Qed.

Lemma sum_nonneg (l : list R) :
  Forall (fun x => 0 <= x) l -> 0 <= fold_left Rplus l 0.
Proof.
  induction 1 as [|x l Hx _ IH]; simpl; [lra|].
  rewrite fold_left_Rplus_acc. lra.
Qed.

Lemma sum_zero_iff (l : list R) :
  Forall (fun x => 0 <= x) l ->
  (fold_left Rplus l 0 = 0 <-> Forall (fun x => x = 0) l).
Proof.
  induction 1 as [|x l Hx Hl IH]; simpl.
  - split; auto.
  - rewrite fold_left_Rplus_acc. pose proof (sum_nonneg l Hl) as Hs. split.
    + intros H0. constructor; [lra|]. apply IH. lra.
    + intros Hz. inversion Hz as [|? ? Hx0 Hl0]; subst.
      apply IH in Hl0. lra.
Qed.

Lemma squares_nonneg (v : Tensor) : Forall (fun x => 0 <= x) (jn.square v).
Proof.
  unfold jn.square. apply Forall_forall. intros y Hy.
  apply in_map_iff in Hy as (x & <- & _). nra.
Qed.

Lemma sum_of_squares_nonneg (v : Tensor) : 0 <= sum_of_squares v.
Proof. apply sum_nonneg, squares_nonneg. Qed.

Lemma sum_of_squares_zero_iff (v : Tensor) :
  sum_of_squares v = 0 <-> Forall (fun x => x = 0) v.
Proof.
  unfold sum_of_squares. rewrite (sum_zero_iff _ (squares_nonneg v)).
  unfold jn.square. rewrite Forall_map. split; intros H;
    (eapply Forall_impl; [|exact H]); simpl; intros x Hx; nra.
Qed.

(** X22.  With a weight-decay coefficient that is not negative, the
    weight-decay term is not negative, so the total loss is at least the
    cross-entropy; a variable whose name does not end in [.w] does not
    enter the term; and with a positive coefficient the term is zero
    exactly when every entry of every variable named [….w] is zero. *)
Theorem weight_decay_term (weight_decay xent_loss : R)
    (trainable_vars : list (string * Tensor)) :
  0 <= weight_decay ->
  0 <= wd_loss weight_decay trainable_vars
  /\ fst (loss_fn weight_decay xent_loss trainable_vars)
     = xent_loss + wd_loss weight_decay trainable_vars
  /\ xent_loss <= fst (loss_fn weight_decay xent_loss trainable_vars)
  /\ (forall before name v after,
        endswith name ".w" = false ->
        wd_loss weight_decay (before ++ (name, v) :: after)
        = wd_loss weight_decay (before ++ after))
  /\ (0 < weight_decay ->
      (wd_loss weight_decay trainable_vars = 0
       <-> forall name v, In (name, v) trainable_vars ->
             endswith name ".w" = true -> Forall (fun x => x = 0) v)).
Proof.
  intros Hwd.
  assert (Hnn : Forall (fun x => 0 <= x)
                  (map (fun kv : string * Tensor => sum_of_squares (snd kv))
                     (filter (fun kv => endswith (fst kv) ".w") trainable_vars))).
  { apply Forall_forall. intros y Hy. apply in_map_iff in Hy as (kv & <- & _).
    apply sum_of_squares_nonneg. }
  pose proof (sum_nonneg _ Hnn) as Hs.
  assert (H0 : 0 <= wd_loss weight_decay trainable_vars)
    by (unfold wd_loss; nra).
  split; [exact H0|]. split; [reflexivity|]. split; [simpl; lra|]. split.
  - intros before name v after Hend. unfold wd_loss.
    rewrite !filter_app. simpl. now rewrite Hend.
  - intros Hpos. unfold wd_loss. split.
    + intros Hz name v Hin Hend.
      assert (Hsum : fold_left Rplus
                (map (fun kv : string * Tensor => sum_of_squares (snd kv))
                   (filter (fun kv => endswith (fst kv) ".w") trainable_vars)) 0
              = 0) by nra.
      apply (sum_zero_iff _ Hnn) in Hsum.
      rewrite Forall_map in Hsum.
      apply sum_of_squares_zero_iff.
      apply (proj1 (Forall_forall _ _) Hsum (name, v)).
      apply filter_In. split; [exact Hin|exact Hend].
    + intros Hall.
      assert (Hsum : fold_left Rplus
                (map (fun kv : string * Tensor => sum_of_squares (snd kv))
                   (filter (fun kv => endswith (fst kv) ".w") trainable_vars)) 0
              = 0).
      { apply (sum_zero_iff _ Hnn). rewrite Forall_map.
        apply Forall_forall. intros [name v] Hkv.
        apply filter_In in Hkv as [Hin Hend].
        apply sum_of_squares_zero_iff. exact (Hall name v Hin Hend). }
      rewrite Hsum. lra.
Qed.

Lemma weight_decay_term_witness :
  0 <= 1 / 10000
  /\ endswith "(ResNet18)[0](Conv2D).w" ".w" = true
  /\ endswith "(ResNet18)[1](GroupNorm2D).gamma" ".w" = false
  /\ 0 <= wd_loss (1 / 10000)
            [("(ResNet18)[0](Conv2D).w"%string, [1; 2]);
             ("(ResNet18)[1](GroupNorm2D).gamma"%string, [3])].
Proof.
  assert (H : 0 <= 1 / 10000) by lra.
  split; [exact H|]. split; [reflexivity|]. split; [reflexivity|].
  exact (proj1 (weight_decay_term (1 / 10000) 0 _ H)).
Defined.

(** ** A step size of zero *)

Section ZeroStep.
Context `{JR : JaxRandom}.

Lemma tensors_ext_in (a b : list Tensor) :
  shapes a = shapes b ->
  (forall i j, (i < length b)%nat -> (j < shape (nth i b []))%nat ->
     elem a i j = elem b i j) ->
  a = b.
Proof.
  intros Hs He. apply tensors_ext; [exact Hs|]. intros i j.
  destruct (Nat.lt_ge_cases i (length b)) as [Hi|Hi].
  - destruct (Nat.lt_ge_cases j (shape (nth i b []))) as [Hj|Hj].
    + now apply He.
    + rewrite (elem_out_of_shape a), (elem_out_of_shape b);
        [reflexivity|right; exact Hj|right].
      now rewrite <- shapes_nth, Hs, shapes_nth.
  - rewrite (elem_out_of_shape a), (elem_out_of_shape b);
      [reflexivity|left; exact Hi|left].
    now rewrite (shapes_length _ _ Hs).
Qed.

End ZeroStep.

(** X23.  With a step size of zero and aligned gradients, the SGLD
    optimiser leaves every variable as it was, and still draws one noise
    tensor per variable and advances its key once per variable. *)
Theorem sgld_zero_step `{JR : JaxRandom} (grads : list Tensor)
    (self : CustomSGLD.t) :
  aligned grads (CustomSGLD.train_vars self) ->
  returned (CustomSGLD.call 0 grads self) = true
  /\ CustomSGLD.train_vars (final_state (CustomSGLD.call 0 grads self))
     = CustomSGLD.train_vars self
  /\ CustomSGLD.rng (final_state (CustomSGLD.call 0 grads self))
     = advance (length (CustomSGLD.train_vars self)) (CustomSGLD.rng self)
  /\ length (noises (CustomSGLD.trace (final_state (CustomSGLD.call 0 grads self))))
     = (length (noises (CustomSGLD.trace self))
        + length (CustomSGLD.train_vars self))%nat.
Proof.
  intros Hal. destruct self as [params k tr]. simpl in *.
  pose proof (shapes_length _ _ Hal) as Hlen.
  unfold CustomSGLD.call. simpl. rewrite (aligned_length _ _ Hal). simpl.
  pose proof (sgld_update_shapes 0 grads params k tr Hal) as Hsh.
  destruct (sgld_update_spec 0 grads params k tr Hlen) as (H1 & H2 & H3 & H4).
  destruct (draws_noises params k) as [Hn1 _].
  destruct (CustomSGLD.update 0 grads params k tr) as [[ps k'] tr'].
  simpl in *. split; [reflexivity|]. split; [|split; [exact H2|]].
  - apply tensors_ext_in; [exact Hsh|].
    intros i j Hi Hj. unfold elem. rewrite (H4 i Hi).
    rewrite sgld_new_value_nth.
    + replace (2 * 0) with 0 by lra. rewrite sqrt_0. lra.
    + unfold aligned in Hal. pose proof (shapes_nth grads i) as Hg.
      pose proof (shapes_nth params i) as Hp. rewrite Hal in Hg.
      unfold shape in *. congruence.
    + apply normal_shape.
  - rewrite H3.
    assert (Hna : forall t1 t2 : list RngEvent,
              noises (t1 ++ t2) = noises t1 ++ noises t2).
    { intros t1 t2. induction t1 as [|[?|? ?] t1 IH]; simpl; auto.
      now rewrite IH. }
    now rewrite Hna, length_app, Hn1.
Qed.

Lemma sgld_zero_step_witness :
  aligned [[7; 8]] (CustomSGLD.train_vars (CustomSGLD.init [[1; 2]]))
  /\ CustomSGLD.train_vars
       (final_state (CustomSGLD.call 0 [[7; 8]] (CustomSGLD.init [[1; 2]])))
     = [[1; 2]].
Proof.
  split; [reflexivity|].
  exact (proj1 (proj2 (sgld_zero_step [[7; 8]] (CustomSGLD.init [[1; 2]])
                         eq_refl))).
Defined.

(** ** Steps past the end of the schedule *)

Section PastTheEnd.
Context `{JR : JaxRandom} `{EX : @External JR}.

Lemma cur_epoch_at_least (e : Experiment) (s : Z) :
  (1 <= grad_acc_steps (FLAGS e))%Z -> 0 < steps_per_epoch e ->
  steps_per_epoch e * self_num_train_epochs e <= IZR s ->
  self_num_train_epochs e <= cur_epoch (loop_body e s).
Proof.
  intros Hk Hspe Hs. simpl.
  destruct (next_update_step_rounded_up s (grad_acc_steps (FLAGS e)) Hk)
    as [_ [Hle _]].
  apply IZR_le in Hle.
  assert (Hi : 0 < / steps_per_epoch e) by now apply Rinv_0_lt_compat.
  replace (self_num_train_epochs e)
    with (steps_per_epoch e * self_num_train_epochs e * / steps_per_epoch e)
    by (field; lra).
  unfold Rdiv. apply Rmult_le_compat_r; lra.
Qed.

End PastTheEnd.

(** X24.  A virtual step numbered at or beyond
    [steps_per_epoch * num_train_epochs] (so every step the last window
    runs past [total_train_steps]) is trained with the rate of the end of
    the schedule: exactly zero for [cos], and the base rate for [fixed]. *)
Theorem rate_past_the_end `{JR : JaxRandom} `{EX : @External JR}
    (e : Experiment) (s : Z) :
  (1 <= grad_acc_steps (FLAGS e))%Z ->
  0 < steps_per_epoch e ->
  0 < self_lr_warmup_epochs e ->
  steps_per_epoch e * self_num_train_epochs e <= IZR s ->
  (lr_schedule (FLAGS e) = "cos"%string ->
   self_lr_warmup_epochs e < self_num_train_epochs e ->
   learning_rate e (cur_epoch (loop_body e s)) = Ok 0)
  /\ (lr_schedule (FLAGS e) = "fixed"%string ->
      self_lr_warmup_epochs e <= self_num_train_epochs e ->
      learning_rate e (cur_epoch (loop_body e s))
      = Ok (self_base_learning_rate e)).
Proof.
  intros Hk Hspe Hw Hs.
  pose proof (cur_epoch_at_least e s Hk Hspe Hs) as Hge.
  split.
  - intros Hc Ht. rewrite (learning_rate_cos e _ Hc).
    rewrite Rmin_right by exact Hge.
    rewrite multiplier_cos_at_end by exact Ht. f_equal. lra.
  - intros Hf Ht. rewrite (learning_rate_fixed e _ Hf).
    rewrite Rmin_right by exact Hge. unfold lr_multiplier_fixed.
    destruct (Rlt_dec (self_num_train_epochs e) (self_lr_warmup_epochs e));
      [lra|]. f_equal. lra.
Qed.

Lemma rate_past_the_end_witness :
  (1 <= grad_acc_steps (FLAGS Fixture.small))%Z
  /\ 0 < steps_per_epoch Fixture.small
  /\ 0 < self_lr_warmup_epochs Fixture.small
  /\ steps_per_epoch Fixture.small * self_num_train_epochs Fixture.small <= IZR 5
  /\ learning_rate Fixture.small (cur_epoch (loop_body Fixture.small 5)) = Ok 0.
Proof.
  assert (H1 : (1 <= grad_acc_steps (FLAGS Fixture.small))%Z) by (simpl; lia).
  assert (H2 : 0 < steps_per_epoch Fixture.small)
    by (unfold steps_per_epoch; simpl; lra).
  assert (H3 : 0 < self_lr_warmup_epochs Fixture.small) by (simpl; lra).
  assert (H4 : steps_per_epoch Fixture.small * self_num_train_epochs Fixture.small
               <= IZR 5) by (unfold steps_per_epoch; simpl; lra).
  split; [exact H1|]. split; [exact H2|]. split; [exact H3|]. split; [exact H4|].
  refine (proj1 (rate_past_the_end Fixture.small 5 H1 H2 H3 H4) eq_refl _).
  simpl; lra.
Defined.

(** ** What a checkpoint does hold *)

Section Held.
Context `{JR : JaxRandom} `{EX : @External JR}.

Lemma collect_elems_state_vars (scope : list Seg) (xs : list Tensor) (n i : nat) :
  (i < length xs)%nat ->
  In (scope ++ [Idx (n + i)], StateVar (nth i xs []))
    ((fix elems (i : nat) (l : list PyValue) : VarCollection :=
        match l with
        | [] => []
        | a :: l' => collect (scope ++ [Idx i]) a ++ elems (S i) l'
        end) n (map (fun x => PVar (StateVar x)) xs)).
Proof.
  revert n i; induction xs as [|x xs IH]; intros n i Hi; simpl in *; [lia|].
  destruct i as [|i].
  - left. now rewrite Nat.add_0_r.
  - right. replace (n + S i)%nat with (S n + i)%nat by lia.
    apply IH. lia.
Qed.

Lemma collect_state_vars (scope : list Seg) (xs : list Tensor) (i : nat) :
  (i < length xs)%nat ->
  In (scope ++ [Idx i], StateVar (nth i xs [])) (collect scope (state_vars xs)).
Proof.
  intros Hi. exact (collect_elems_state_vars scope xs 0 i Hi).
Qed.

End Held.

(** X25.  The collection handed to [checkpoint.save] holds the key of the
    default generator, every accumulation buffer of the wrapper, and
    every moving average of the preconditioned SGLD optimiser, each with
    its current value. *)
Theorem checkpoint_holds_buffers `{JR : JaxRandom} `{EX : @External JR}
    (e : Experiment) :
  In ([Attr "_key"], RandomState (DEFAULT_GENERATOR e)) (all_vars e)
  /\ (forall w i,
        self_optimizer e = Accumulating w -> (i < length (GA.accum w))%nat ->
        In ([Attr "accum"; Idx i], StateVar (nth i (GA.accum w) []))
          (all_vars e))
  /\ (forall o i,
        self_optimizer e = Direct (OPSGLD o) ->
        (i < length (CustomPreconditionedSGLD.momentum_vars o))%nat ->
        In ([Attr "momentum_vars"; Idx i],
            StateVar (nth i (CustomPreconditionedSGLD.momentum_vars o) []))
          (all_vars e))
  /\ (forall w o i,
        self_optimizer e = Accumulating w -> GA.optimizer w = OPSGLD o ->
        (i < length (CustomPreconditionedSGLD.momentum_vars o))%nat ->
        In ([Attr "optimizer"; Attr "momentum_vars"; Idx i],
            StateVar (nth i (CustomPreconditionedSGLD.momentum_vars o) []))
          (all_vars e)).
Proof.
  unfold all_vars. repeat split.
  - apply in_or_app. right. apply in_or_app. right. simpl. now left.
  - intros w i Hw Hi. rewrite Hw. apply in_or_app. right. apply in_or_app. left.
    unfold vars, optimizer_object, wrapper_object.
    change (collect [] (PModule
              [("scaler"%string, PFloat (GA.scaler w));
               ("optimizer"%string, base_object (GA.optimizer w));
               ("accum"%string, state_vars (GA.accum w))]))
      with (collect [Attr "scaler"] (PFloat (GA.scaler w))
            ++ collect [Attr "optimizer"] (base_object (GA.optimizer w))
            ++ collect [Attr "accum"] (state_vars (GA.accum w)) ++ []).
    apply in_or_app. right. apply in_or_app. right. apply in_or_app. left.
    exact (collect_state_vars [Attr "accum"] (GA.accum w) i Hi).
  - intros o i Ho Hi. rewrite Ho. apply in_or_app. right. apply in_or_app. left.
    unfold vars, optimizer_object, base_object, CustomPreconditionedSGLD_object.
    simpl. apply in_or_app. right. apply in_cons. apply in_cons.
    apply in_or_app. left.
    exact (collect_state_vars [Attr "momentum_vars"]
             (CustomPreconditionedSGLD.momentum_vars o) i Hi).
  - intros w o i Hw Ho Hi. rewrite Hw. apply in_or_app. right.
    apply in_or_app. left.
    unfold vars, optimizer_object, wrapper_object. rewrite Ho.
    unfold base_object, CustomPreconditionedSGLD_object. simpl.
    apply in_or_app. left.
    apply in_or_app. right. apply in_cons. apply in_cons.
    apply in_or_app. left.
    exact (collect_state_vars [Attr "optimizer"; Attr "momentum_vars"]
             (CustomPreconditionedSGLD.momentum_vars o) i Hi).
Qed.
